(** * KPFU-LLM-Generator: the RPD extraction and validation pipeline

    A shallow embedding of [app/rpd/extractor.py], of [app/rpd/processor.py]
    and of the parsers of [app/rpd/parsers.py], with the properties of the
    specification, and further properties of the code, stated and proved
    over it.

    Modelling conventions.
    - A Python [str] is a list of Unicode code points ([pystr]); literals are
      written as UTF-8 Rocq strings and decoded by [U].
    - Python [int] is [Z]; the [float] fields of the records ([hours],
      [extraction_confidence]) are exact rationals ([Q]); the completeness
      score, a closed computation, is evaluated in binary64 ([PrimFloat]).
    - What lies outside the program (the completion service, the clock, the
      files and the libraries that read them) is given to the functions as
      what it returns.
    - An exception is a value of [exn]; a call that may raise returns
      [except A].  Resource limits of the interpreter (recursion depth, the
      digit limit of [int()], memory) are not modelled.
    - The Unicode tables behind [str.isspace], [str.lower], [\s], [\d] and
      [re.IGNORECASE] are modelled on ASCII, the Unicode white space and the
      Cyrillic block; no property below depends on their extent. *)

From Stdlib Require Import List ZArith NArith QArith Qminmax Qabs Bool Lia Lqa String Ascii.
From Stdlib Require Import DecimalString DecimalPos DecimalN DecimalZ.
From Stdlib Require Import Uint63 PrimFloat.
Import ListNotations.

Local Open Scope N_scope.

(** ** Python strings *)

Module Py.

(** A character is its code point. *)
Abbreviation char := N (only parsing).
Abbreviation pystr := (list N) (only parsing).

(** UTF-8 decoding, used only to write string literals. *)
Fixpoint utf8_decode (bs : list N) : pystr :=
  match bs with
  | [] => []
  | b :: t =>
      if b <? 128 then b :: utf8_decode t
      else if b <? 224 then
        match t with
        | c :: t' => ((b - 192) * 64 + (c - 128)) :: utf8_decode t'
        | _ => []
        end
      else if b <? 240 then
        match t with
        | c :: d :: t' =>
            ((b - 224) * 4096 + (c - 128) * 64 + (d - 128)) :: utf8_decode t'
        | _ => []
        end
      else
        match t with
        | c :: d :: e :: t' =>
            ((b - 240) * 262144 + (c - 128) * 4096 + (d - 128) * 64 + (e - 128))
              :: utf8_decode t'
        | _ => []
        end
  end.

Definition U (s : string) : pystr :=
  utf8_decode (map N_of_ascii (list_ascii_of_string s)).

Definition eqb (a b : pystr) : bool :=
  if list_eq_dec N.eq_dec a b then true else false.

(** [x in xs] for a list of strings. *)
Definition mem (x : pystr) (xs : list pystr) : bool := existsb (eqb x) xs.

(** [str.isspace] on one code point. *)
Definition isspace (c : char) : bool :=
  ((9 <=? c) && (c <=? 13)) || ((28 <=? c) && (c <=? 32))
  || (c =? 133) || (c =? 160) || (c =? 5760)
  || ((8192 <=? c) && (c <=? 8202))
  || (c =? 8232) || (c =? 8233) || (c =? 8239) || (c =? 8287) || (c =? 12288).

Fixpoint lstrip (s : pystr) : pystr :=
  match s with
  | [] => []
  | c :: t => if isspace c then lstrip t else s
  end.

Definition rstrip (s : pystr) : pystr := rev (lstrip (rev s)).

(** [s.strip()] *)
Definition strip (s : pystr) : pystr := rstrip (lstrip s).

(** Truth value of a string: non-empty. *)
Definition truthy (s : pystr) : bool :=
  match s with [] => false | _ => true end.

(** [str(n)] for a non-negative integer. *)
Definition str_of_nat (n : nat) : pystr :=
  U (NilEmpty.string_of_uint (Nat.to_uint n)).

(** [str(z)] for an integer. *)
Definition str_of_Z (z : Z) : pystr :=
  U (NilEmpty.string_of_int (Z.to_int z)).

(** Position of the first (last) occurrence of a code point. *)
Fixpoint index (c : char) (s : pystr) : option nat :=
  match s with
  | [] => None
  | x :: t =>
      if x =? c then Some O
      else match index c t with Some i => Some (S i) | None => None end
  end.

Fixpoint rindex (c : char) (s : pystr) : option nat :=
  match s with
  | [] => None
  | x :: t =>
      match rindex c t with
      | Some i => Some (S i)
      | None => if x =? c then Some O else None
      end
  end.

(** [s.find(c)] and [s.rfind(c)] for a one-character [c]: [-1] when absent. *)
Definition find (s : pystr) (c : char) : Z :=
  match index c s with Some i => Z.of_nat i | None => (-1)%Z end.

Definition rfind (s : pystr) (c : char) : Z :=
  match rindex c s with Some i => Z.of_nat i | None => (-1)%Z end.

(** [s[i:j]] for [0 <= i] and [0 <= j]; empty when [j <= i]. *)
Definition slice (s : pystr) (i j : Z) : pystr :=
  firstn (Z.to_nat (j - i)) (skipn (Z.to_nat i) s).

(** [c in s] for a one-character [c]. *)
Definition contains (s : pystr) (c : char) : bool := existsb (N.eqb c) s.

(** [prefix] is at the head of [s]: the rest of [s] after it. *)
Fixpoint strip_prefix (prefix s : pystr) : option pystr :=
  match prefix, s with
  | [], _ => Some s
  | p :: prefix', c :: s' => if p =? c then strip_prefix prefix' s' else None
  | _ :: _, [] => None
  end.

(** [str.lower] on one code point (Latin and Cyrillic letters). *)
Definition lower_char (c : char) : char :=
  if (65 <=? c) && (c <=? 90) then c + 32
  else if (1040 <=? c) && (c <=? 1071) then c + 32
  else if (1024 <=? c) && (c <=? 1039) then c + 80
  else c.

(** [s.lower()] *)
Definition lower (s : pystr) : pystr := map lower_char s.

(** Decimal digits. *)
Definition isdigit (c : char) : bool := (48 <=? c) && (c <=? 57).

(** [sub in s] *)
Fixpoint contains_str (sub s : pystr) : bool :=
  match strip_prefix sub s with
  | Some _ => true
  | None => match s with [] => false | _ :: t => contains_str sub t end
  end.

(** [s.split(sep)] for a one-character separator. *)
Fixpoint split (sep : char) (s : pystr) : list pystr :=
  match s with
  | [] => [[]]
  | c :: t =>
      if c =? sep then [] :: split sep t
      else match split sep t with
           | [] => [[c]]
           | w :: ws => (c :: w) :: ws
           end
  end.

(** [int(s)] for a run of decimal digits. *)
Definition int_of_digits (ds : pystr) : Z :=
  fold_left (fun acc c => (acc * 10 + Z.of_N (c - 48))%Z) ds 0%Z.

End Py.

Import Py.

(** ** Exceptions *)

Inductive exn_class :=
| Exception | ValueError | TypeError | KeyError | IndexError | AttributeError
| JSONDecodeError.

(** The classes an [except cls] clause catches: [JSONDecodeError] derives
    from [ValueError], and every class from [Exception]. *)
Definition issubclass (c cls : exn_class) : bool :=
  match cls, c with
  | Exception, _ => true
  | ValueError, (ValueError | JSONDecodeError) => true
  | TypeError, TypeError => true
  | KeyError, KeyError => true
  | IndexError, IndexError => true
  | AttributeError, AttributeError => true
  | JSONDecodeError, JSONDecodeError => true
  | _, _ => false
  end.

Record exn := mk_exn { exn_cls : exn_class; exn_msg : pystr }.

Inductive except (A : Type) :=
| Ok (a : A)
| Raise (e : exn).
Arguments Ok {A} a.
Arguments Raise {A} e.


(** [try: body except cls as e: handler e] *)
Definition try_except {A : Type} (body : except A) (cls : exn_class)
  (handler : exn -> except A) : except A :=
  match body with
  | Ok a => Ok a
  | Raise e => if issubclass (exn_cls e) cls then handler e else Raise e
  end.

(** The call raised. *)
Definition raises {A : Type} (x : except A) : bool :=
  match x with
  | Ok _ => false
  | Raise _ => true
  end.

(** Sequencing of calls that may raise. *)
Definition bind {A B : Type} (x : except A) (f : A -> except B) : except B :=
  match x with
  | Ok a => f a
  | Raise e => Raise e
  end.

Notation "x <- c ;; k" := (bind c (fun x => k))
  (at level 61, c at next level, right associativity).

(** [[f(x) for x in xs]], which stops at the first call that raises. *)
Fixpoint map_except {A B : Type} (f : A -> except B) (xs : list A)
  : except (list B) :=
  match xs with
  | [] => Ok []
  | x :: rest =>
      y <- f x ;;
      ys <- map_except f rest ;;
      Ok (y :: ys)
  end.

(** ** Decoded values and the [json] module

    [json.loads] and [json.dumps] belong to the Python library; they are
    modelled here as the C scanner and the default encoder behave
    ([strict=True], [ensure_ascii=True], separators [", "] and [": "]).  A
    [dict] is the list of its items in insertion order. *)

Module Json.

Inductive nonfinite := NaN | PosInf | NegInf.

#[warnings="-register-all"]
Inductive pyval :=
| PyNone
| PyBool (b : bool)
| PyInt (z : Z)
| PyFloat (q : Q)
| PyNonFinite (x : nonfinite)
| PyStr (s : pystr)
| PyList (items : list pyval)
| PyDict (items : list (pystr * pyval)).

Definition dict := list (pystr * pyval).

(** [d.get(k)] *)
Fixpoint get (d : dict) (k : pystr) : option pyval :=
  match d with
  | [] => None
  | (k', v) :: d' => if eqb k' k then Some v else get d' k
  end.

(** [d[k] = v]: the value is replaced where the key stands, or the item is
    added at the end. *)
Fixpoint set (d : dict) (k : pystr) (v : pyval) : dict :=
  match d with
  | [] => [(k, v)]
  | (k', v') :: d' => if eqb k' k then (k', v) :: d' else (k', v') :: set d' k v
  end.

(** [dict(pairs)] *)
Definition dict_of_pairs (pairs : list (pystr * pyval)) : dict :=
  fold_left (fun d kv => set d (fst kv) (snd kv)) pairs [].

(** *** Decoding *)

Definition json_ws (c : char) : bool :=
  (c =? 32) || (c =? 9) || (c =? 10) || (c =? 13).

Fixpoint skip_ws (s : pystr) : pystr :=
  match s with
  | [] => []
  | c :: t => if json_ws c then skip_ws t else s
  end.

Definition hex_value (c : char) : option N :=
  if (48 <=? c) && (c <=? 57) then Some (c - 48)
  else if (97 <=? c) && (c <=? 102) then Some (c - 87)
  else if (65 <=? c) && (c <=? 70) then Some (c - 55)
  else None.

Definition hex4 (a b c d : char) : option N :=
  match hex_value a, hex_value b, hex_value c, hex_value d with
  | Some x, Some y, Some z, Some w => Some (((x * 16 + y) * 16 + z) * 16 + w)
  | _, _, _, _ => None
  end.

(** The character a backslash escape stands for ([BACKSLASH] of the decoder). *)
Definition unescape (e : char) : option char :=
  if e =? 34 then Some 34          (* quote *)
  else if e =? 92 then Some 92     (* backslash *)
  else if e =? 47 then Some 47     (* slash *)
  else if e =? 98 then Some 8      (* b *)
  else if e =? 102 then Some 12    (* f *)
  else if e =? 110 then Some 10    (* n *)
  else if e =? 114 then Some 13    (* r *)
  else if e =? 116 then Some 9     (* t *)
  else None.

(** [scanstring]: the text after an opening quote, up to the closing one.
    [acc] holds the decoded characters in reverse. *)
Fixpoint scanstring (s : pystr) (acc : pystr) : option (pystr * pystr) :=
  match s with
  | [] => None
  | c :: t =>
      if c =? 34 then Some (rev acc, t)
      else if c =? 92 then
        match t with
        | [] => None
        | e :: t1 =>
            if e =? 117 then
              match t1 with
              | h1 :: h2 :: h3 :: h4 :: t2 =>
                  match hex4 h1 h2 h3 h4 with
                  | None => None
                  | Some uni =>
                      if (55296 <=? uni) && (uni <=? 56319) then
                        match t2 with
                        | b :: u :: g1 :: g2 :: g3 :: g4 :: t3 =>
                            if (b =? 92) && (u =? 117) then
                              match hex4 g1 g2 g3 g4 with
                              | None => None
                              | Some uni2 =>
                                  if (56320 <=? uni2) && (uni2 <=? 57343)
                                  then scanstring t3
                                         ((65536 + ((uni - 55296) * 1024
                                                    + (uni2 - 56320))) :: acc)
                                  else scanstring t2 (uni :: acc)
                              end
                            else scanstring t2 (uni :: acc)
                        | b :: u :: _ =>
                            if (b =? 92) && (u =? 117) then None
                            else scanstring t2 (uni :: acc)
                        | _ => scanstring t2 (uni :: acc)
                        end
                      else scanstring t2 (uni :: acc)
                  end
              | _ => None
              end
            else
              match unescape e with
              | Some ch => scanstring t1 (ch :: acc)
              | None => None
              end
        end
      else if c <? 32 then None
      else scanstring t (c :: acc)
  end.

(** The longest run of decimal digits at the head of [s], and the rest. *)
Fixpoint span_digits (s : pystr) : pystr * pystr :=
  match s with
  | c :: t =>
      if isdigit c then let (ds, r) := span_digits t in (c :: ds, r)
      else ([], s)
  | [] => ([], [])
  end.

(** [m * 10 ^ e] as a reduced fraction. *)
Definition decimal_value (m e : Z) : Q :=
  if (0 <=? e)%Z then Qred (inject_Z (m * 10 ^ e))
  else Qred (Qmake m (Z.to_pos (10 ^ (- e)))).

(** The fraction part [.digits] at the head of [s], if there is one. *)
Definition scan_frac (s : pystr) : option (pystr * pystr) :=
  match s with
  | dot :: d :: t =>
      if (dot =? 46) && isdigit d then Some (span_digits (d :: t)) else None
  | _ => None
  end.

(** The exponent part [e], [e+] or [e-] and digits at the head of [s]. *)
Definition scan_exp (s : pystr) : option (Z * pystr) :=
  match s with
  | e :: t =>
      if (e =? 101) || (e =? 69) then
        match t with
        | sg :: d :: t' =>
            if ((sg =? 43) || (sg =? 45)) && isdigit d then
              let (ds, r) := span_digits (d :: t') in
              Some (if sg =? 45 then (- int_of_digits ds)%Z else int_of_digits ds, r)
            else if isdigit sg then
              let (ds, r) := span_digits t in Some (int_of_digits ds, r)
            else None
        | [d] =>
            if isdigit d then Some (int_of_digits [d], []) else None
        | [] => None
        end
      else None
  | [] => None
  end.

(** A number at the head of [s]: an optional minus sign, then [0] or a run
    of digits that does not start with [0], then an optional fraction and an
    optional exponent; an [int] when it has neither fraction nor exponent,
    else a [float]. *)
Definition scan_number (s : pystr) : option (pyval * pystr) :=
  let (neg, s1) :=
    match s with
    | c :: t => if c =? 45 then (true, t) else (false, s)
    | [] => (false, s)
    end in
  match s1 with
  | d :: t =>
      if isdigit d then
        let (ints, r) :=
          if d =? 48 then ([d], t) else span_digits s1 in
        let sign (z : Z) := if neg then (- z)%Z else z in
        match scan_frac r with
        | Some (fr, r1) =>
            let m := sign (int_of_digits (ints ++ fr)) in
            let k := Z.of_nat (List.length fr) in
            match scan_exp r1 with
            | Some (e, r2) => Some (PyFloat (decimal_value m (e - k)), r2)
            | None => Some (PyFloat (decimal_value m (- k)), r1)
            end
        | None =>
            match scan_exp r with
            | Some (e, r2) =>
                Some (PyFloat (decimal_value (sign (int_of_digits ints)) e), r2)
            | None => Some (PyInt (sign (int_of_digits ints)), r)
            end
        end
      else None
  | [] => None
  end.

(** [scan_once] with the loops of the object and array parsers.  Every call
    consumes a character of the text, so [fuel] above its length is enough. *)
Fixpoint scan_once (fuel : nat) (s : pystr) {struct fuel}
  : option (pyval * pystr) :=
  match fuel with
  | O => None
  | S fuel' =>
      match s with
      | [] => None
      | c :: t =>
          if c =? 34 then
            match scanstring t [] with
            | Some (str, r) => Some (PyStr str, r)
            | None => None
            end
          else if c =? 123 then
            match skip_ws t with
            | d :: t' =>
                if d =? 125 then Some (PyDict [], t')
                else parse_members fuel' (d :: t') []
            | [] => None
            end
          else if c =? 91 then
            match skip_ws t with
            | d :: t' =>
                if d =? 93 then Some (PyList [], t')
                else parse_elements fuel' (d :: t') []
            | [] => None
            end
          else
            match strip_prefix (U "null") s with
            | Some r => Some (PyNone, r)
            | None =>
            match strip_prefix (U "true") s with
            | Some r => Some (PyBool true, r)
            | None =>
            match strip_prefix (U "false") s with
            | Some r => Some (PyBool false, r)
            | None =>
            match scan_number s with
            | Some res => Some res
            | None =>
            match strip_prefix (U "NaN") s with
            | Some r => Some (PyNonFinite NaN, r)
            | None =>
            match strip_prefix (U "Infinity") s with
            | Some r => Some (PyNonFinite PosInf, r)
            | None =>
            match strip_prefix (U "-Infinity") s with
            | Some r => Some (PyNonFinite NegInf, r)
            | None => None
            end end end end end end end
      end
  end

with parse_members (fuel : nat) (s : pystr) (acc : list (pystr * pyval))
  {struct fuel} : option (pyval * pystr) :=
  match fuel with
  | O => None
  | S fuel' =>
      match s with
      | q :: t =>
          if q =? 34 then
            match scanstring t [] with
            | Some (key, r) =>
                match skip_ws r with
                | colon :: r1 =>
                    if colon =? 58 then
                      match scan_once fuel' (skip_ws r1) with
                      | Some (v, r2) =>
                          match skip_ws r2 with
                          | x :: r3 =>
                              if x =? 125 then
                                Some (PyDict (dict_of_pairs (acc ++ [(key, v)])), r3)
                              else if x =? 44 then
                                parse_members fuel' (skip_ws r3) (acc ++ [(key, v)])
                              else None
                          | [] => None
                          end
                      | None => None
                      end
                    else None
                | [] => None
                end
            | None => None
            end
          else None
      | [] => None
      end
  end

with parse_elements (fuel : nat) (s : pystr) (acc : list pyval)
  {struct fuel} : option (pyval * pystr) :=
  match fuel with
  | O => None
  | S fuel' =>
      match scan_once fuel' s with
      | Some (v, r) =>
          match skip_ws r with
          | x :: r1 =>
              if x =? 93 then Some (PyList (acc ++ [v]), r1)
              else if x =? 44 then parse_elements fuel' (skip_ws r1) (acc ++ [v])
              else None
          | [] => None
          end
      | None => None
      end
  end.

Definition decode_error : exn := mk_exn JSONDecodeError (U "Expecting value").
Definition extra_data : exn := mk_exn JSONDecodeError (U "Extra data").

(** [json.loads(s)] *)
Definition loads (s : pystr) : except pyval :=
  match scan_once (S (S (List.length s))) (skip_ws s) with
  | Some (v, r) =>
      match skip_ws r with
      | [] => Ok v
      | _ => Raise extra_data
      end
  | None => Raise decode_error
  end.

(** *** Encoding *)

Definition hex_digit (n : N) : char := if n <? 10 then 48 + n else 87 + n.

(** [\uXXXX] *)
Definition u_escape (n : N) : pystr :=
  [92; 117; hex_digit (n / 4096); hex_digit ((n / 256) mod 16);
   hex_digit ((n / 16) mod 16); hex_digit (n mod 16)].

Definition escape_char (c : char) : pystr :=
  if c =? 34 then [92; 34]
  else if c =? 92 then [92; 92]
  else if c =? 10 then [92; 110]
  else if c =? 13 then [92; 114]
  else if c =? 9 then [92; 116]
  else if c =? 12 then [92; 102]
  else if c =? 8 then [92; 98]
  else if (32 <=? c) && (c <=? 126) then [c]
  else if c <? 65536 then u_escape c
  else u_escape (55296 + (c - 65536) / 1024) ++ u_escape (56320 + (c - 65536) mod 1024).

Definition encode_string (s : pystr) : pystr :=
  [34] ++ flat_map escape_char s ++ [34].

(** The digits of the fraction [r / d] for [0 <= r < d]. *)
Fixpoint frac_digits (fuel : nat) (r d : Z) : pystr :=
  match fuel with
  | O => []
  | S fuel' =>
      if (r =? 0)%Z then []
      else Z.to_N (48 + (r * 10) / d) :: frac_digits fuel' ((r * 10) mod d) d
  end.

(** [repr] of a float, read as the exact decimal expansion of the rational. *)
Definition float_repr (q : Q) : pystr :=
  let n := Qnum q in
  let d := Zpos (Qden q) in
  let a := Z.abs n in
  let fr := frac_digits 1100 (a mod d) d in
  (if (n <? 0)%Z then [45] else [])
  ++ str_of_Z (a / d) ++ [46] ++ (match fr with [] => [48] | _ => fr end).

Fixpoint join (sep : pystr) (parts : list pystr) : pystr :=
  match parts with
  | [] => []
  | [p] => p
  | p :: rest => p ++ sep ++ join sep rest
  end.

(** [json.dumps(v)] *)
Fixpoint dumps (v : pyval) : pystr :=
  match v with
  | PyNone => U "null"
  | PyBool true => U "true"
  | PyBool false => U "false"
  | PyInt z => str_of_Z z
  | PyFloat q => float_repr q
  | PyNonFinite NaN => U "NaN"
  | PyNonFinite PosInf => U "Infinity"
  | PyNonFinite NegInf => U "-Infinity"
  | PyStr s => encode_string s
  | PyList items =>
      [91] ++ join (U ", ") (map dumps items) ++ [93]
  | PyDict items =>
      [123]
      ++ join (U ", ")
           (map (fun kv => encode_string (fst kv) ++ U ": " ++ dumps (snd kv))
                items)
      ++ [125]
  end.

End Json.
(** ** Patterns of the [re] module

    The patterns of the extractor use literals, character classes, greedy
    and lazy repetition, groups, alternation, a lookahead and the end anchor.
    [exec] is a backtracking matcher with the priorities of [re]: the left
    alternative first, the longest repetition first for a greedy star and the
    shortest first for a lazy one. *)

Module Re.

(** The classes of one character. *)
Inductive cls :=
| Lit (c : char)
| LitI (c : char)
| SetI (cs : pystr)
| NotIn (cs : pystr)
| Space
| Digit
| Any.

(** A literal and [[abc]] under [re.IGNORECASE] compare the characters in
    lower case; [[^abc]] holds no letter in the patterns below; [\s] and [\d]
    are [str.isspace] and the decimal digits; the dot is read under
    [re.DOTALL]. *)
Definition test (k : cls) (x : char) : bool :=
  match k with
  | Lit c => x =? c
  | LitI c => lower_char x =? lower_char c
  | SetI cs => existsb (N.eqb (lower_char x)) (map lower_char cs)
  | NotIn cs => negb (existsb (N.eqb x) cs)
  | Space => isspace x
  | Digit => isdigit x
  | Any => true
  end.

Inductive regex :=
| Chr (k : cls)
| Eps
| Cat (r1 r2 : regex)
| Alt (r1 r2 : regex)
| Star (greedy : bool) (r : regex)
| Group (n : nat) (r : regex)
| Ahead (r : regex)
| EndZ.

(** The text captured by each group, the latest capture first. *)
Definition caps := list (nat * pystr).

Fixpoint get_cap (n : nat) (cs : caps) : option pystr :=
  match cs with
  | [] => None
  | (n', g) :: cs' => if Nat.eqb n' n then Some g else get_cap n cs'
  end.

(** What was read between the text [s] and its tail [s']. *)
Definition consumed (s s' : pystr) : pystr :=
  firstn (List.length s - List.length s') s.

Definition result := option (pystr * caps).

(** The loop of a repetition over a body [step]: at most [fuel] turns, each
    of which has to read something; a greedy loop tries another turn first, a
    lazy one tries to go on with [k] first. *)
Fixpoint repeat_loop (greedy : bool)
  (step : pystr -> caps -> (pystr -> caps -> result) -> result)
  (k : pystr -> caps -> result) (fuel : nat) (s : pystr) (cs : caps)
  {struct fuel} : result :=
  match fuel with
  | O => k s cs
  | S fuel' =>
      let again :=
        step s cs
          (fun s' cs' =>
             if Nat.eqb (List.length s') (List.length s) then None
             else repeat_loop greedy step k fuel' s' cs') in
      if greedy then
        match again with
        | Some res => Some res
        | None => k s cs
        end
      else
        match k s cs with
        | Some res => Some res
        | None => again
        end
  end.

Fixpoint exec (r : regex) (s : pystr) (cs : caps)
  (k : pystr -> caps -> result) {struct r} : result :=
  match r with
  | Chr cl =>
      match s with
      | c :: s' => if test cl c then k s' cs else None
      | [] => None
      end
  | Eps => k s cs
  | Cat r1 r2 => exec r1 s cs (fun s' cs' => exec r2 s' cs' k)
  | Alt r1 r2 =>
      match exec r1 s cs k with
      | Some res => Some res
      | None => exec r2 s cs k
      end
  | Star greedy r1 => repeat_loop greedy (exec r1) k (List.length s) s cs
  | Group n r1 =>
      exec r1 s cs (fun s' cs' => k s' ((n, consumed s s') :: cs'))
  | Ahead r1 =>
      match exec r1 s cs (fun s' cs' => Some (s', cs')) with
      | Some (_, cs') => k s cs'
      | None => None
      end
  | EndZ =>
      match s with
      | [] => k s cs
      | _ :: _ => None
      end
  end.

(** A match: where it starts, the text it covers, the text after it and the
    groups. *)
Record match_obj := mk_match {
  m_start : nat;
  m_text : pystr;
  m_rest : pystr;
  m_caps : caps
}.

(** [m.group(n)] for [n >= 1]: [None] for a group that took no part. *)
Definition group (m : match_obj) (n : nat) : option pystr := get_cap n (m_caps m).

(** A match that starts exactly at the head of [s], the text at [pos]. *)
Definition match_at (r : regex) (s : pystr) (pos : nat) : option match_obj :=
  match exec r s [] (fun s' cs' => Some (s', cs')) with
  | Some (s', cs') => Some (mk_match pos (consumed s s') s' cs')
  | None => None
  end.

(** [re.match(r, s)] *)
Definition re_match (r : regex) (s : pystr) : option match_obj := match_at r s 0.

(** The leftmost match in [s], the text at [pos]. *)
Fixpoint search_from (r : regex) (s : pystr) (pos : nat) : option match_obj :=
  match match_at r s pos with
  | Some m => Some m
  | None =>
      match s with
      | [] => None
      | _ :: s' => search_from r s' (S pos)
      end
  end.

(** [re.search(r, s)] *)
Definition search (r : regex) (s : pystr) : option match_obj := search_from r s 0.

(** The matches of [re.finditer(r, s)] from the text [s] at [pos] on: each
    search resumes where the match before ended, one character further after
    an empty match. *)
Fixpoint finditer_from (fuel : nat) (r : regex) (s : pystr) (pos : nat)
  : list match_obj :=
  match fuel with
  | O => []
  | S fuel' =>
      match search_from r s pos with
      | None => []
      | Some m =>
          let stop := (m_start m + List.length (m_text m))%nat in
          m :: match m_text m, m_rest m with
               | [], [] => []
               | [], _ :: rest => finditer_from fuel' r rest (S stop)
               | _ :: _, rest => finditer_from fuel' r rest stop
               end
      end
  end.

Definition finditer (r : regex) (s : pystr) : list match_obj :=
  finditer_from (S (List.length s)) r s 0.

(** *** Writing patterns *)

Definition lit (c : char) : regex := Chr (Lit c).
Definition lit_i (c : char) : regex := Chr (LitI c).
Definition set_i (cs : pystr) : regex := Chr (SetI cs).
Definition notin (cs : pystr) : regex := Chr (NotIn cs).
Definition space : regex := Chr Space.
Definition digit : regex := Chr Digit.
Definition dot_all : regex := Chr Any.

(** A word under [re.IGNORECASE]. *)
Definition word_i (w : pystr) : regex :=
  fold_right (fun c r => Cat (lit_i c) r) Eps w.

(** [r?], [r*], [r+], [r*?], [r+?] *)
Definition opt (r : regex) : regex := Alt r Eps.
Definition star (r : regex) : regex := Star true r.
Definition plus (r : regex) : regex := Cat r (Star true r).
Definition lazy_star (r : regex) : regex := Star false r.
Definition lazy_plus (r : regex) : regex := Cat r (Star false r).

(** A sequence of patterns. *)
Definition seq (rs : list regex) : regex := fold_right Cat Eps rs.

(** *** What a pattern matches

    [Match r s cs s' cs']: [r] can read [s] down to its tail [s'], taking the
    groups from [cs] to [cs'].  The priorities of [exec] play no part here. *)
Inductive Match : regex -> pystr -> caps -> pystr -> caps -> Prop :=
| MChr k c s cs : test k c = true -> Match (Chr k) (c :: s) cs s cs
| MEps s cs : Match Eps s cs s cs
| MCat r1 r2 s cs s1 cs1 s2 cs2 :
    Match r1 s cs s1 cs1 -> Match r2 s1 cs1 s2 cs2 ->
    Match (Cat r1 r2) s cs s2 cs2
| MAltL r1 r2 s cs s' cs' :
    Match r1 s cs s' cs' -> Match (Alt r1 r2) s cs s' cs'
| MAltR r1 r2 s cs s' cs' :
    Match r2 s cs s' cs' -> Match (Alt r1 r2) s cs s' cs'
| MStarStop g r s cs : Match (Star g r) s cs s cs
| MStarStep g r s cs s1 cs1 s2 cs2 :
    Match r s cs s1 cs1 -> Match (Star g r) s1 cs1 s2 cs2 ->
    Match (Star g r) s cs s2 cs2
| MGroup n r s cs s' cs' :
    Match r s cs s' cs' ->
    Match (Group n r) s cs s' ((n, consumed s s') :: cs')
| MAhead r s cs s1 cs1 :
    Match r s cs s1 cs1 -> Match (Ahead r) s cs s cs1
| MEndZ cs : Match EndZ [] cs [] cs.

(** *** Checks on the shape of a pattern *)

Definition cls_eqb (a b : cls) : bool :=
  match a, b with
  | Lit x, Lit y | LitI x, LitI y => x =? y
  | SetI x, SetI y | NotIn x, NotIn y => eqb x y
  | Space, Space | Digit, Digit | Any, Any => true
  | _, _ => false
  end.

(** Group [n] is set on every way through the pattern. *)
Fixpoint sets (n : nat) (r : regex) : bool :=
  match r with
  | Group n' r1 => Nat.eqb n' n || sets n r1
  | Cat r1 r2 => sets n r1 || sets n r2
  | Alt r1 r2 => sets n r1 && sets n r2
  | Ahead r1 => sets n r1
  | Chr _ | Eps | Star _ _ | EndZ => false
  end.

(** The pattern reads characters of the class [k] only and has no group. *)
Fixpoint reads_only (k : cls) (r : regex) : bool :=
  match r with
  | Chr k' => cls_eqb k' k
  | Eps => true
  | Cat r1 r2 | Alt r1 r2 => reads_only k r1 && reads_only k r2
  | Star _ r1 => reads_only k r1
  | Group _ _ | Ahead _ | EndZ => false
  end.

(** The pattern reads at least one character. *)
Fixpoint never_empty (r : regex) : bool :=
  match r with
  | Chr _ => true
  | Cat r1 r2 => never_empty r1 || never_empty r2
  | Alt r1 r2 => never_empty r1 && never_empty r2
  | Group _ r1 => never_empty r1
  | Eps | Star _ _ | Ahead _ | EndZ => false
  end.

(** Every group [n] of the pattern holds a non-empty run of the class [k]. *)
Fixpoint group_reads (n : nat) (k : cls) (r : regex) : bool :=
  match r with
  | Group n' r1 =>
      if Nat.eqb n' n then reads_only k r1 && never_empty r1
      else group_reads n k r1
  | Cat r1 r2 | Alt r1 r2 => group_reads n k r1 && group_reads n k r2
  | Star _ r1 | Ahead r1 => group_reads n k r1
  | Chr _ | Eps | EndZ => true
  end.

End Re.
(** ** The data classes of [extractor.py] *)

Module LectureTheme.
Record t := mk {
  title : pystr;
  order : Z;
  hours : Q;
  description : option pystr
}.
Definition set_hours (th : t) (h : Q) : t :=
  mk (title th) (order th) h (description th).
End LectureTheme.

Module LabExample.
Record t := mk {
  title : pystr;
  description : pystr;
  theme_relation : option pystr;
  estimated_hours : option Q
}.
End LabExample.

Module LiteratureReference.
Record t := mk {
  authors : pystr;
  title : pystr;
  year : option Z;
  pages : option pystr;
  publisher : option pystr;
  isbn : option pystr;
  kpfu_available : bool;
  kpfu_book_id : option pystr
}.
End LiteratureReference.

Module RPDData.
Record t := mk {
  subject_title : pystr;
  academic_degree : pystr;
  profession : pystr;
  total_hours : Z;
  department : option pystr;
  faculty : option pystr;
  year : option Z;
  semester : option pystr;
  lecture_themes : list LectureTheme.t;
  lab_examples : list LabExample.t;
  literature_references : list LiteratureReference.t;
  extraction_confidence : option Q;
  extraction_errors : list pystr
}.
End RPDData.

(** ** Building the data classes from decoded items

    An item is passed to the class as keyword arguments.

    The generated [__init__] raises [TypeError] for a keyword that is not a
    field and for a required field that is missing.  The records are typed by
    the annotations of the data classes: a value of another type, which Python
    would store as it is, is refused here with [TypeError] as well. *)

Module Entities.
Import Json.

Definition type_error (msg : pystr) : exn := mk_exn TypeError msg.

Definition unexpected_keyword (cls k : pystr) : exn :=
  type_error (cls ++ U ".__init__() got an unexpected keyword argument '"
                  ++ k ++ U "'").

Definition missing_argument (cls k : pystr) : exn :=
  type_error (cls ++ U ".__init__() missing required argument '" ++ k ++ U "'").

Definition wrong_type (cls k : pystr) : exn :=
  type_error (cls ++ U "." ++ k ++ U " has another type than annotated").

(** The first keyword of [kw] that is not among [fields]. *)
Fixpoint unexpected (fields : list pystr) (kw : dict) : option pystr :=
  match kw with
  | [] => None
  | (k, _) :: kw' => if mem k fields then unexpected fields kw' else Some k
  end.

Definition check_keywords (cls : pystr) (fields : list pystr) (kw : dict)
  : except unit :=
  match unexpected fields kw with
  | Some k => Raise (unexpected_keyword cls k)
  | None => Ok tt
  end.

Definition as_str (v : pyval) : option pystr :=
  match v with PyStr s => Some s | _ => None end.

Definition as_int (v : pyval) : option Z :=
  match v with PyInt z => Some z | _ => None end.

Definition as_float (v : pyval) : option Q :=
  match v with
  | PyFloat q => Some q
  | PyInt z => Some (inject_Z z)
  | _ => None
  end.

Definition as_bool (v : pyval) : option bool :=
  match v with PyBool b => Some b | _ => None end.

(** A field without default. *)
Definition required {A : Type} (cls : pystr) (cast : pyval -> option A)
  (kw : dict) (k : pystr) : except A :=
  match get kw k with
  | None => Raise (missing_argument cls k)
  | Some v =>
      match cast v with
      | Some a => Ok a
      | None => Raise (wrong_type cls k)
      end
  end.

(** A field annotated [Optional[...]] with default [None]. *)
Definition optional {A : Type} (cls : pystr) (cast : pyval -> option A)
  (kw : dict) (k : pystr) : except (option A) :=
  match get kw k with
  | None | Some PyNone => Ok None
  | Some v =>
      match cast v with
      | Some a => Ok (Some a)
      | None => Raise (wrong_type cls k)
      end
  end.

(** A field with a default that is not [None]. *)
Definition defaulted {A : Type} (cls : pystr) (cast : pyval -> option A)
  (kw : dict) (k : pystr) (default : A) : except A :=
  match get kw k with
  | None => Ok default
  | Some v =>
      match cast v with
      | Some a => Ok a
      | None => Raise (wrong_type cls k)
      end
  end.

(** [LectureTheme] called with the keywords [kw] *)
Definition new_LectureTheme (kw : dict) : except LectureTheme.t :=
  let cls := U "LectureTheme" in
  _ <- check_keywords cls [U "title"; U "order"; U "hours"; U "description"] kw ;;
  title <- required cls as_str kw (U "title") ;;
  order <- required cls as_int kw (U "order") ;;
  hours <- required cls as_float kw (U "hours") ;;
  description <- optional cls as_str kw (U "description") ;;
  Ok (LectureTheme.mk title order hours description).

(** [LabExample] called with the keywords [kw] *)
Definition new_LabExample (kw : dict) : except LabExample.t :=
  let cls := U "LabExample" in
  _ <- check_keywords cls
         [U "title"; U "description"; U "theme_relation"; U "estimated_hours"] kw ;;
  title <- required cls as_str kw (U "title") ;;
  description <- required cls as_str kw (U "description") ;;
  theme_relation <- optional cls as_str kw (U "theme_relation") ;;
  estimated_hours <- optional cls as_float kw (U "estimated_hours") ;;
  Ok (LabExample.mk title description theme_relation estimated_hours).

(** [LiteratureReference] called with the keywords [kw] *)
Definition new_LiteratureReference (kw : dict) : except LiteratureReference.t :=
  let cls := U "LiteratureReference" in
  _ <- check_keywords cls
         [U "authors"; U "title"; U "year"; U "pages"; U "publisher"; U "isbn";
          U "kpfu_available"; U "kpfu_book_id"] kw ;;
  authors <- required cls as_str kw (U "authors") ;;
  title <- required cls as_str kw (U "title") ;;
  year <- optional cls as_int kw (U "year") ;;
  pages <- optional cls as_str kw (U "pages") ;;
  publisher <- optional cls as_str kw (U "publisher") ;;
  isbn <- optional cls as_str kw (U "isbn") ;;
  kpfu_available <- defaulted cls as_bool kw (U "kpfu_available") false ;;
  kpfu_book_id <- optional cls as_str kw (U "kpfu_book_id") ;;
  Ok (LiteratureReference.mk authors title year pages publisher isbn
        kpfu_available kpfu_book_id).

(** Truth value of a decoded value. *)
Definition truthy_val (v : pyval) : bool :=
  match v with
  | PyNone => false
  | PyBool b => b
  | PyInt z => negb (z =? 0)%Z
  | PyFloat q => negb (Qeq_bool q 0)
  | PyNonFinite _ => true
  | PyStr s => truthy s
  | PyList items => match items with [] => false | _ => true end
  | PyDict items => match items with [] => false | _ => true end
  end.

(** The list comprehension that builds a [Cls] from each item of [v]: [v]
    has to be a list, and each item a mapping. *)
Definition build_all {A : Type} (new : dict -> except A) (v : pyval)
  : except (list A) :=
  match v with
  | PyList items =>
      map_except
        (fun item =>
           match item with
           | PyDict kw => new kw
           | _ => Raise (type_error (U "argument after ** must be a mapping"))
           end)
        items
  | PyStr _ | PyDict _ =>
      Raise (type_error (U "argument after ** must be a mapping"))
  | _ => Raise (type_error (U "object is not iterable"))
  end.

End Entities.
(** ** The validator: [RPDDataExtractor._validate_rpd_data] *)

Module Validator.
Import RPDData.

Definition valid_degrees : list pystr := [U "bachelor"; U "master"; U "phd"].

Definition msg_subject_title : pystr := U "Subject title is required".
Definition msg_profession : pystr := U "Profession/direction is required".
Definition msg_total_hours : pystr := U "Total hours must be positive".
Definition msg_degree : pystr :=
  U "Invalid academic degree, defaulted to 'bachelor'".
Definition msg_theme_title (n : nat) : pystr :=
  U "Lecture theme " ++ str_of_nat n ++ U " has empty title".
Definition msg_theme_hours (n : nat) : pystr :=
  U "Lecture theme " ++ str_of_nat n ++ U " hours corrected to 2.0".

(** [max(a, b)] of Python on two numbers: [b] when [b > a], else [a]. *)
Definition py_max (a b : Q) : Q := if Qle_bool b a then a else b.

(** One turn of the loop over [enumerate(rpd_data.lecture_themes)]: the theme
    as it is left and the warnings appended for it. *)
Definition validate_theme (i : nat) (theme : LectureTheme.t)
  : LectureTheme.t * list pystr :=
  let e_title :=
    if truthy (strip (LectureTheme.title theme)) then []
    else [msg_theme_title (i + 1)] in
  if Qle_bool (LectureTheme.hours theme) 0%Q
  then (LectureTheme.set_hours theme 2%Q, e_title ++ [msg_theme_hours (i + 1)])
  else (theme, e_title).

Fixpoint validate_themes (i : nat) (themes : list LectureTheme.t)
  : list LectureTheme.t * list pystr :=
  match themes with
  | [] => ([], [])
  | theme :: rest =>
      let (theme', e) := validate_theme i theme in
      let (rest', es) := validate_themes (S i) rest in
      (theme' :: rest', e ++ es)
  end.

(** The local list [errors] as it stands before the loop over the themes. *)
Definition field_warnings (rpd_data : t) : list pystr :=
  (if truthy (strip (subject_title rpd_data)) then [] else [msg_subject_title])
  ++ (if truthy (strip (profession rpd_data)) then [] else [msg_profession])
  ++ (if (total_hours rpd_data <=? 0)%Z then [msg_total_hours] else [])
  ++ (if mem (academic_degree rpd_data) valid_degrees then [] else [msg_degree]).

(** The local list [errors] at the end of one pass. *)
Definition warnings (rpd_data : t) : list pystr :=
  field_warnings rpd_data ++ snd (validate_themes 0 (lecture_themes rpd_data)).

Definition confidence_of (errors : list pystr) : Q :=
  match errors with
  | [] => 1%Q
  | _ => py_max (1 # 10) (1 - inject_Z (Z.of_nat (List.length errors)) * (1 # 10))%Q
  end.

Definition _validate_rpd_data (rpd_data : t) : t :=
  let errors := warnings rpd_data in
  mk (subject_title rpd_data)
     (if mem (academic_degree rpd_data) valid_degrees
      then academic_degree rpd_data else U "bachelor")
     (profession rpd_data)
     (total_hours rpd_data)
     (department rpd_data)
     (faculty rpd_data)
     (year rpd_data)
     (semester rpd_data)
     (fst (validate_themes 0 (lecture_themes rpd_data)))
     (lab_examples rpd_data)
     (literature_references rpd_data)
     (Some (confidence_of errors))
     (extraction_errors rpd_data ++ errors).

End Validator.

(** ** The response parser: [RPDDataExtractor._parse_json_response] *)

Module ResponseParser.
Import Json.

Definition _parse_json_response (json_text : pystr) : except (option pyval) :=
  try_except
    (let json_text := strip json_text in
     let start_idx := find json_text 123 in
     let end_idx := rfind json_text 125 in
     if negb (start_idx =? -1)%Z && negb (end_idx =? -1)%Z then
       let json_text := slice json_text start_idx (end_idx + 1) in
       match loads json_text with
       | Ok v => Ok (Some v)
       | Raise e => Raise e
       end
     else Ok None)
    JSONDecodeError
    (fun _ => Ok None).

End ResponseParser.
(** ** The rule-based fallback extractors *)

Module Fallback.
Import Json Re.

(** The number of groups of a pattern: [len(match.groups())]. *)
Fixpoint ngroups (r : regex) : nat :=
  match r with
  | Chr _ | Eps | EndZ => 0
  | Cat r1 r2 | Alt r1 r2 => Nat.max (ngroups r1) (ngroups r2)
  | Star _ r1 | Ahead r1 => ngroups r1
  | Group n r1 => Nat.max n (ngroups r1)
  end.

(** [m.group(n)] where a [str] is needed: a method called on [None] raises
    [AttributeError], [int(None)] and [float(None)] raise [TypeError]. *)
Definition group_str (m : match_obj) (n : nat) : except pystr :=
  match group m n with
  | Some g => Ok g
  | None => Raise (mk_exn AttributeError (U "'NoneType' object has no attribute 'strip'"))
  end.

Definition group_arg (m : match_obj) (n : nat) : except pystr :=
  match group m n with
  | Some g => Ok g
  | None => Raise (mk_exn TypeError (U "argument must be a string or a number, not 'NoneType'"))
  end.

Definition all_digits (s : pystr) : bool :=
  match s with [] => false | _ => forallb isdigit s end.

(** [int(s)] and [float(s)] on a run of digits, which is all the extractor
    passes to them; any other text is taken to raise [ValueError]. *)
Definition py_int (s : pystr) : except Z :=
  if all_digits s then Ok (int_of_digits s)
  else Raise (mk_exn ValueError (U "invalid literal for int() with base 10")).

Definition py_float (s : pystr) : except Q :=
  if all_digits s then Ok (inject_Z (int_of_digits s))
  else Raise (mk_exn ValueError (U "could not convert string to float")).

(** The first pattern of the list that is found in the text. *)
Fixpoint first_search (patterns : list regex) (text : pystr) : option match_obj :=
  match patterns with
  | [] => None
  | p :: rest =>
      match search p text with
      | Some m => Some m
      | None => first_search rest text
      end
  end.

(** [any(word in s for word in words)] *)
Definition any_in (words : list pystr) (s : pystr) : bool :=
  existsb (fun w => contains_str w s) words.

(** *** Basic information *)

(** The separators [\s*[:\-]?\s*] and the optional opening or closing quote. *)
Definition separator : regex := seq [star space; opt (set_i (U ":-")); star space].
Definition quote : regex := opt (set_i (U "«" ++ [34])).
Definition quoted_value : regex :=
  seq [quote; Group 1 (plus (notin (U "«»" ++ [34; 10]))); quote].
Definition to_end_of_line : regex := plus (notin [10]).

Definition title_patterns : list regex :=
  [ seq [word_i (U "дисциплин"); opt (set_i (U "аы")); separator; quoted_value];
    seq [word_i (U "предмет"); separator; quoted_value];
    seq [word_i (U "курс"); separator; quoted_value] ].

Definition profession_patterns : list regex :=
  [ seq [word_i (U "направлени"); set_i (U "ею"); plus space;
         word_i (U "подготовки"); separator; Group 1 to_end_of_line];
    seq [word_i (U "специальность"); separator; Group 1 to_end_of_line];
    seq [word_i (U "профиль"); separator; Group 1 to_end_of_line] ].

Definition hours_patterns : list regex :=
  [ seq [word_i (U "общ"); set_i (U "ая"); word_i (U "я"); plus space;
         word_i (U "трудоемкость"); separator; Group 1 (plus digit);
         star space; word_i (U "час")];
    seq [word_i (U "всего"); plus space; word_i (U "часов"); separator;
         Group 1 (plus digit)];
    seq [Group 1 (plus digit); star space; word_i (U "час"); set_i (U "ао");
         opt (lit_i 1074); plus space; word_i (U "всего")] ].

Definition _extract_basic_info_fallback (text : pystr) : except dict :=
  let result :=
    [(U "subject_title", PyStr []); (U "academic_degree", PyStr (U "bachelor"));
     (U "profession", PyStr []); (U "total_hours", PyInt 0)] in
  result <-
    match first_search title_patterns text with
    | Some m =>
        g <- group_str m 1 ;;
        Ok (set result (U "subject_title") (PyStr (strip g)))
    | None => Ok result
    end ;;
  let result :=
    if any_in [U "магистр"; U "master"] (lower text)
    then set result (U "academic_degree") (PyStr (U "master"))
    else if any_in [U "аспирант"; U "phd"; U "докторант"] (lower text)
    then set result (U "academic_degree") (PyStr (U "phd"))
    else result in
  result <-
    match first_search profession_patterns text with
    | Some m =>
        g <- group_str m 1 ;;
        Ok (set result (U "profession") (PyStr (strip g)))
    | None => Ok result
    end ;;
  result <-
    match first_search hours_patterns text with
    | Some m =>
        g <- group_arg m 1 ;;
        n <- py_int g ;;
        Ok (set result (U "total_hours") (PyInt n))
    | None => Ok result
    end ;;
  Ok result.

(** *** Lecture themes *)

Definition numbered (prefix : regex) : regex :=
  seq [prefix; plus space; Group 1 (plus digit); opt (lit 46); star space;
       Group 2 to_end_of_line].

Definition lecture_patterns : list regex :=
  [ numbered (word_i (U "тема"));
    numbered (word_i (U "лекция"));
    seq [Group 1 (plus digit); opt (lit 46); star space;
         Group 2 (lazy_plus (notin [10])); star space; lit 40;
         Group 3 (plus digit); star space; word_i (U "час")] ].

(** The body of the loop over the matches of one pattern. *)
Definition theme_of_match (pattern : regex) (m : match_obj) : except (list dict) :=
  if Nat.leb 2 (ngroups pattern) then
    g1 <- group_arg m 1 ;;
    order <- py_int g1 ;;
    g2 <- group_str m 2 ;;
    let title := strip g2 in
    hours <-
      (if Nat.leb 3 (ngroups pattern)
       then try_except (g3 <- group_arg m 3 ;; py_float g3) ValueError
                       (fun _ => Ok 2%Q)
       else Ok 2%Q) ;;
    Ok [[(U "title", PyStr title); (U "order", PyInt order);
         (U "hours", PyFloat hours)]]
  else Ok [].

(** The entries appended for every match of every pattern, in that order. *)
Definition collect (entry : regex -> match_obj -> except (list dict))
  (patterns : list regex) (text : pystr) : except (list dict) :=
  per_pattern <-
    map_except
      (fun pattern =>
         per_match <- map_except (entry pattern) (finditer pattern text) ;;
         Ok (List.concat per_match))
      patterns ;;
  Ok (List.concat per_pattern).

Definition _extract_lecture_themes_fallback (text : pystr) : except (list dict) :=
  collect theme_of_match lecture_patterns text.

(** *** Lab examples *)

Definition lab_patterns : list regex :=
  [ numbered (seq [word_i (U "лабораторн"); set_i (U "ая"); word_i (U "я");
                   plus space; word_i (U "работа")]);
    numbered (word_i (U "лр"));
    numbered (seq [word_i (U "практическ"); set_i (U "ая"); word_i (U "я");
                   plus space; word_i (U "работа")]) ].

Definition lab_of_match (pattern : regex) (m : match_obj) : except (list dict) :=
  g2 <- group_str m 2 ;;
  let title := strip g2 in
  Ok [[(U "title", PyStr title); (U "description", PyStr title);
       (U "estimated_hours", PyFloat 2)]].

Definition _extract_lab_examples_fallback (text : pystr) : except (list dict) :=
  collect lab_of_match lab_patterns text.

(** *** Literature *)

(** The heading, what follows it up to a blank line or the end of the text. *)
Definition lit_section : regex :=
  seq [Group 1 (Alt (seq [word_i (U "список"); plus space; word_i (U "литературы")])
                    (Alt (word_i (U "библиография")) (word_i (U "литература"))));
       star space; opt (lit 58); star space;
       Group 2 (lazy_star dot_all);
       Ahead (Alt (seq [lit 10; star space; lit 10]) EndZ)].

(** An optional ordinal, the author and title segment, the rest of the line. *)
Definition ref_line : regex :=
  seq [opt (Group 1 (seq [plus digit; opt (lit 46); star space]));
       Group 2 (plus (notin [46]));
       opt (lit 46); star space;
       Group 3 (plus (notin [47]))].

Definition four_digits : regex := Group 1 (seq [digit; digit; digit; digit]).

(** [s.split('.', 1)] *)
Fixpoint split_once (sep : char) (s : pystr) : list pystr :=
  match s with
  | [] => [[]]
  | c :: t =>
      if c =? sep then [[]; t]
      else match split_once sep t with
           | w :: ws => (c :: w) :: ws
           | [] => [[c]]
           end
  end.

(** The choice of authors and title from the segment and the rest. *)
Definition authors_and_title (author_title rest : pystr) : pystr * pystr :=
  if contains author_title 46 then
    let parts := split_once 46 author_title in
    (strip (nth 0 parts []),
     if Nat.ltb 1 (List.length parts) then strip (nth 1 parts [])
     else author_title)
  else (author_title, rest).

(** The body of the loop over the lines, for a stripped line that is long
    enough: nothing is appended when the line does not match. *)
Definition reference_of_line (line : pystr) : except (list dict) :=
  match re_match ref_line line with
  | Some ref_match =>
      g2 <- group_str ref_match 2 ;;
      let author_title := strip g2 in
      let rest :=
        match group ref_match 3 with
        | Some (c :: g3) => strip (c :: g3)
        | _ => []
        end in
      let (authors, title) := authors_and_title author_title rest in
      year <-
        match search four_digits line with
        | Some year_match =>
            g <- group_arg year_match 1 ;;
            y <- py_int g ;;
            Ok (PyInt y)
        | None => Ok PyNone
        end ;;
      Ok [[(U "authors", PyStr authors); (U "title", PyStr title);
           (U "year", year)]]
  | None => Ok []
  end.

(** The lines of the section that are kept: stripped, longer than 20. *)
Definition kept_lines (lit_text : pystr) : list pystr :=
  filter (fun line => Nat.ltb 20 (List.length line))
         (map strip (split 10 lit_text)).

Definition _extract_literature_fallback (text : pystr) : except (list dict) :=
  match search lit_section text with
  | Some lit_section_match =>
      lit_text <- group_str lit_section_match 2 ;;
      per_line <- map_except reference_of_line (kept_lines lit_text) ;;
      Ok (List.concat per_line)
  | None => Ok []
  end.

End Fallback.
(** ** Prompts and [str.format] *)

Module Prompts.

(** The double quote is written as a backquote in the literals below; the
    templates hold no backquote of their own. *)
Definition quoted (s : pystr) : pystr :=
  map (fun c => if c =? 96 then 34 else c) s.

Definition basic_info : pystr := quoted (U "
Извлеки основную информацию из РПД документа. Верни результат в JSON формате:

{
    `subject_title`: `название дисциплины`,
    `academic_degree`: `bachelor/master/phd`,
    `profession`: `направление подготовки`,
    `total_hours`: число_часов,
    `department`: `кафедра (если указана)`,
    `faculty`: `факультет (если указан)`,
    `year`: год_составления,
    `semester`: `семестр (если указан)`
}

Текст РПД:
{text}

JSON:").

Definition lecture_themes : pystr := quoted (U "
Извлеки темы лекций из РПД документа. Верни результат в JSON формате:

{
    `lecture_themes`: [
        {
            `title`: `название темы`,
            `order`: порядковый_номер,
            `hours`: количество_часов,
            `description`: `описание (если есть)`
        }
    ]
}

Текст РПД:
{text}

JSON:").

Definition lab_examples : pystr := quoted (U "
Извлеки примеры лабораторных работ из РПД документа. Верни результат в JSON формате:

{
    `lab_examples`: [
        {
            `title`: `название лабораторной работы`,
            `description`: `описание работы`,
            `theme_relation`: `связанная тема лекции (если указана)`,
            `estimated_hours`: количество_часов
        }
    ]
}

Текст РПД:
{text}

JSON:").

Definition literature : pystr := quoted (U "
Извлеки список литературы из РПД документа. Верни результат в JSON формате:

{
    `literature_references`: [
        {
            `authors`: `авторы`,
            `title`: `название книги/статьи`,
            `year`: год_издания,
            `pages`: `страницы (если указаны)`,
            `publisher`: `издательство (если указано)`,
            `isbn`: `ISBN (если указан)`
        }
    ]
}

Текст РПД:
{text}

JSON:").

(** The replacement field that opens at the head of [s] (the text after its
    opening brace): its content up to the closing brace that matches, and the
    text after that brace. *)
Fixpoint field_end (s : pystr) (depth : nat) (acc : pystr)
  : option (pystr * pystr) :=
  match s with
  | [] => None
  | c :: t =>
      if c =? 123 then field_end t (S depth) (c :: acc)
      else if c =? 125 then
        match depth with
        | O => Some (rev acc, t)
        | S depth' => field_end t depth' (c :: acc)
        end
      else field_end t depth (c :: acc)
  end.

(** The name of a field: its content up to the first [!] or [:]. *)
Fixpoint field_name (content : pystr) : pystr :=
  match content with
  | [] => []
  | c :: t => if (c =? 33) || (c =? 58) then [] else c :: field_name t
  end.

Definition value_error (msg : pystr) : exn := mk_exn ValueError msg.

(** [template.format(text=text)]: the only keyword is [text]; a field of
    another name raises [KeyError], or [IndexError] when the name is empty or a
    number.  A conversion or format specification on [text], which the
    templates do not use, is taken to raise [ValueError]. *)
Fixpoint format_from (fuel : nat) (template text out : pystr) : except pystr :=
  match fuel with
  | O => Ok (rev out)
  | S fuel' =>
      match template with
      | [] => Ok (rev out)
      | c :: t =>
          if c =? 123 then
            match t with
            | c' :: t' =>
                if c' =? 123 then format_from fuel' t' text (123 :: out)
                else
                  match field_end t 0 [] with
                  | None =>
                      Raise (value_error (U "expected '}' before end of string"))
                  | Some (content, rest) =>
                      let name := field_name content in
                      if contains name 123 then
                        Raise (value_error (U "unexpected '{' in field name"))
                      else if eqb name (U "text") then
                        if eqb content name
                        then format_from fuel' rest text (rev text ++ out)
                        else Raise (value_error (U "Invalid format specifier"))
                      else if forallb isdigit name then
                        Raise (mk_exn IndexError
                                 (U "Replacement index out of range"))
                      else Raise (mk_exn KeyError (U "'" ++ name ++ U "'"))
                  end
            | [] => Raise (value_error (U "Single '{' encountered in format string"))
            end
          else if c =? 125 then
            match t with
            | c' :: t' =>
                if c' =? 125 then format_from fuel' t' text (125 :: out)
                else Raise (value_error (U "Single '}' encountered in format string"))
            | [] => Raise (value_error (U "Single '}' encountered in format string"))
            end
          else format_from fuel' t text (c :: out)
      end
  end.

Definition format (template text : pystr) : except pystr :=
  format_from (S (List.length template)) template text [].

End Prompts.

(** ** The extractor: [RPDDataExtractor] *)

Module Extractor.
Import Json Entities Fallback ResponseParser.

(** The text completion service, an external collaborator: the model the
    manager hands out, and its [generate], which answers with the [response]
    entry of its reply when there is one. *)
Record LLMModel := mk_llm {
  generate : pystr -> pystr -> Q -> Z -> except (option pystr)
}.

Record ModelManager := mk_manager {
  get_llm_model : except LLMModel
}.

Definition model_name : pystr := U "llama3.1:8b".

(** The completion path shared by the four groups: the prompt rendered on the
    truncated text, the reply stripped and parsed. *)
Definition ask (manager : ModelManager) (template text : pystr)
  (budget : nat) (num_predict : Z) : except (option pyval) :=
  llm_model <- get_llm_model manager ;;
  prompt <- Prompts.format template (firstn budget text) ;;
  response <- generate llm_model model_name prompt (1 # 10) num_predict ;;
  let json_text :=
    strip (match response with Some r => r | None => [] end) in
  _parse_json_response json_text.

(** [result.get(key, []) if result else []] *)
Definition sub_key (result : option pyval) (key : pystr) : except pyval :=
  match result with
  | Some (PyDict items) =>
      match items with
      | [] => Ok (PyList [])
      | _ => Ok (match get items key with Some v => v | None => PyList [] end)
      end
  | Some v =>
      if truthy_val v
      then Raise (mk_exn AttributeError (U "object has no attribute 'get'"))
      else Ok (PyList [])
  | None => Ok (PyList [])
  end.

Definition dicts (items : list dict) : pyval := PyList (map PyDict items).

Definition _extract_basic_info (model_manager : option ModelManager)
  (text : pystr) : except (option pyval) :=
  try_except
    (match model_manager with
     | Some manager => ask manager Prompts.basic_info text 3000 500
     | None =>
         d <- _extract_basic_info_fallback text ;; Ok (Some (PyDict d))
     end)
    Exception
    (fun _ => d <- _extract_basic_info_fallback text ;; Ok (Some (PyDict d))).

Definition _extract_lecture_themes (model_manager : option ModelManager)
  (text : pystr) : except pyval :=
  try_except
    (match model_manager with
     | Some manager =>
         result <- ask manager Prompts.lecture_themes text 4000 1000 ;;
         sub_key result (U "lecture_themes")
     | None =>
         l <- _extract_lecture_themes_fallback text ;; Ok (dicts l)
     end)
    Exception
    (fun _ => l <- _extract_lecture_themes_fallback text ;; Ok (dicts l)).

Definition _extract_lab_examples (model_manager : option ModelManager)
  (text : pystr) : except pyval :=
  try_except
    (match model_manager with
     | Some manager =>
         result <- ask manager Prompts.lab_examples text 4000 1000 ;;
         sub_key result (U "lab_examples")
     | None =>
         l <- _extract_lab_examples_fallback text ;; Ok (dicts l)
     end)
    Exception
    (fun _ => l <- _extract_lab_examples_fallback text ;; Ok (dicts l)).

Definition _extract_literature (model_manager : option ModelManager)
  (text : pystr) : except pyval :=
  try_except
    (match model_manager with
     | Some manager =>
         result <- ask manager Prompts.literature text 4000 1500 ;;
         sub_key result (U "literature_references")
     | None =>
         l <- _extract_literature_fallback text ;; Ok (dicts l)
     end)
    Exception
    (fun _ => l <- _extract_literature_fallback text ;; Ok (dicts l)).

(** The methods [extract_rpd_data] calls on [self]. *)
Record methods := mk_methods {
  extract_basic_info : pystr -> except (option pyval);
  extract_lecture_themes : pystr -> except pyval;
  extract_lab_examples : pystr -> except pyval;
  extract_literature : pystr -> except pyval;
  validate_rpd_data : RPDData.t -> RPDData.t
}.

(** The methods of the class as it is written. *)
Definition RPDDataExtractor (model_manager : option ModelManager) : methods :=
  mk_methods (_extract_basic_info model_manager)
             (_extract_lecture_themes model_manager)
             (_extract_lab_examples model_manager)
             (_extract_literature model_manager)
             Validator._validate_rpd_data.

(** The body of the [try] block of [extract_rpd_data] works on the record
    [rpd_data] in place: a step yields the record as it has left it, and the
    exception it raised if it did. *)
Definition step := RPDData.t -> RPDData.t * option exn.

Definition then_ (a b : step) : step :=
  fun r => match a r with
           | (r', None) => b r'
           | (r', Some e) => (r', Some e)
           end.

(** An assignment [rpd_data.field = value]: the record is left as it was when
    computing the value raises. *)
Definition assign {A : Type} (value : except A)
  (store : RPDData.t -> A -> RPDData.t) : step :=
  fun r => match value with
           | Ok a => (store r a, None)
           | Raise e => (r, Some e)
           end.

Definition skip : step := fun r => (r, None).

Import RPDData.

Definition set_subject_title r v :=
  mk v (academic_degree r) (profession r) (total_hours r) (department r)
     (faculty r) (year r) (semester r) (lecture_themes r) (lab_examples r)
     (literature_references r) (extraction_confidence r) (extraction_errors r).
Definition set_academic_degree r v :=
  mk (subject_title r) v (profession r) (total_hours r) (department r)
     (faculty r) (year r) (semester r) (lecture_themes r) (lab_examples r)
     (literature_references r) (extraction_confidence r) (extraction_errors r).
Definition set_profession r v :=
  mk (subject_title r) (academic_degree r) v (total_hours r) (department r)
     (faculty r) (year r) (semester r) (lecture_themes r) (lab_examples r)
     (literature_references r) (extraction_confidence r) (extraction_errors r).
Definition set_total_hours r v :=
  mk (subject_title r) (academic_degree r) (profession r) v (department r)
     (faculty r) (year r) (semester r) (lecture_themes r) (lab_examples r)
     (literature_references r) (extraction_confidence r) (extraction_errors r).
Definition set_department r v :=
  mk (subject_title r) (academic_degree r) (profession r) (total_hours r) v
     (faculty r) (year r) (semester r) (lecture_themes r) (lab_examples r)
     (literature_references r) (extraction_confidence r) (extraction_errors r).
Definition set_faculty r v :=
  mk (subject_title r) (academic_degree r) (profession r) (total_hours r)
     (department r) v (year r) (semester r) (lecture_themes r) (lab_examples r)
     (literature_references r) (extraction_confidence r) (extraction_errors r).
Definition set_year r v :=
  mk (subject_title r) (academic_degree r) (profession r) (total_hours r)
     (department r) (faculty r) v (semester r) (lecture_themes r)
     (lab_examples r) (literature_references r) (extraction_confidence r)
     (extraction_errors r).
Definition set_semester r v :=
  mk (subject_title r) (academic_degree r) (profession r) (total_hours r)
     (department r) (faculty r) (year r) v (lecture_themes r) (lab_examples r)
     (literature_references r) (extraction_confidence r) (extraction_errors r).
Definition set_lecture_themes r v :=
  mk (subject_title r) (academic_degree r) (profession r) (total_hours r)
     (department r) (faculty r) (year r) (semester r) v (lab_examples r)
     (literature_references r) (extraction_confidence r) (extraction_errors r).
Definition set_lab_examples r v :=
  mk (subject_title r) (academic_degree r) (profession r) (total_hours r)
     (department r) (faculty r) (year r) (semester r) (lecture_themes r) v
     (literature_references r) (extraction_confidence r) (extraction_errors r).
Definition set_literature_references r v :=
  mk (subject_title r) (academic_degree r) (profession r) (total_hours r)
     (department r) (faculty r) (year r) (semester r) (lecture_themes r)
     (lab_examples r) v (extraction_confidence r) (extraction_errors r).

(** [rpd_data.extraction_errors.append(msg)] *)
Definition append_error r (msg : pystr) :=
  mk (subject_title r) (academic_degree r) (profession r) (total_hours r)
     (department r) (faculty r) (year r) (semester r) (lecture_themes r)
     (lab_examples r) (literature_references r) (extraction_confidence r)
     (extraction_errors r ++ [msg]).

(** [basic_info.get(key, default)] read at the type of the field. *)
Definition field {A : Type} (cast : pyval -> option A) (d : dict)
  (key : pystr) (default : A) : except A :=
  defaulted (U "RPDData") cast d key default.

Definition opt_field {A : Type} (cast : pyval -> option A) (d : dict)
  (key : pystr) : except (option A) :=
  optional (U "RPDData") cast d key.

(** The assignments made from a non-empty [basic_info]. *)
Definition merge_basic_info (basic_info : option pyval) : step :=
  match basic_info with
  | Some (PyDict d) =>
      match d with
      | [] => skip
      | _ =>
          then_ (assign (field as_str d (U "subject_title") []) set_subject_title)
         (then_ (assign (field as_str d (U "academic_degree") (U "bachelor"))
                        set_academic_degree)
         (then_ (assign (field as_str d (U "profession") []) set_profession)
         (then_ (assign (field as_int d (U "total_hours") 0%Z) set_total_hours)
         (then_ (assign (opt_field as_str d (U "department")) set_department)
         (then_ (assign (opt_field as_str d (U "faculty")) set_faculty)
         (then_ (assign (opt_field as_int d (U "year")) set_year)
                (assign (opt_field as_str d (U "semester")) set_semester)))))))
      end
  | Some v =>
      if truthy_val v
      then fun r => (r, Some (mk_exn AttributeError (U "object has no attribute 'get'")))
      else skip
  | None => skip
  end.

(** One content group: its extraction, then, when the result is not empty,
    the list built from it and assigned. *)
Definition merge_group {A : Type} (extracted : except pyval)
  (new : dict -> except A) (store : RPDData.t -> list A -> RPDData.t) : step :=
  fun r =>
    match extracted with
    | Raise e => (r, Some e)
    | Ok v =>
        if truthy_val v then assign (build_all new v) store r else (r, None)
    end.

(** The steps of the [try] block, in the order in which they run. *)
Definition basic_step (self : methods) (raw_text : pystr) : step :=
  fun r =>
    match extract_basic_info self raw_text with
    | Raise e => (r, Some e)
    | Ok basic_info => merge_basic_info basic_info r
    end.

Definition themes_step (self : methods) (raw_text : pystr) : step :=
  merge_group (extract_lecture_themes self raw_text)
              new_LectureTheme set_lecture_themes.

Definition labs_step (self : methods) (raw_text : pystr) : step :=
  merge_group (extract_lab_examples self raw_text)
              new_LabExample set_lab_examples.

Definition literature_step (self : methods) (raw_text : pystr) : step :=
  merge_group (extract_literature self raw_text)
              new_LiteratureReference set_literature_references.

Definition validation_step (self : methods) : step :=
  fun r => (validate_rpd_data self r, None).

(** The body of the [try] block. *)
Definition extract_body (self : methods) (raw_text : pystr) : step :=
  then_ (basic_step self raw_text)
 (then_ (themes_step self raw_text)
 (then_ (labs_step self raw_text)
 (then_ (literature_step self raw_text)
        (validation_step self)))).

(** The record [extract_rpd_data] starts from. *)
Definition initial : RPDData.t :=
  mk [] (U "bachelor") [] 0%Z None None None None [] [] [] None [].

(** [parsed_document.get('raw_text', '')] *)
Definition raw_text_of (parsed_document : dict) : pyval :=
  match get parsed_document (U "raw_text") with
  | Some v => v
  | None => PyStr []
  end.

Definition extract_rpd_data_with (self : methods) (parsed_document : dict)
  : except RPDData.t :=
  match raw_text_of parsed_document with
  | PyStr raw_text =>
      if negb (truthy (strip raw_text)) then
        Raise (mk_exn ValueError (U "No text content found in document"))
      else
        match extract_body self raw_text initial with
        | (rpd_data, None) => Ok rpd_data
        | (rpd_data, Some e) => Ok (append_error rpd_data (exn_msg e))
        end
  | _ => Raise (mk_exn AttributeError (U "object has no attribute 'strip'"))
  end.

(** [RPDDataExtractor(model_manager).extract_rpd_data(parsed_document)] *)
Definition extract_rpd_data (model_manager : option ModelManager)
  (parsed_document : dict) : except RPDData.t :=
  extract_rpd_data_with (RPDDataExtractor model_manager) parsed_document.

End Extractor.

(** ** [RPDDataExtractor.to_dict]

    [dataclasses.asdict] turns a data class into the dict of its fields, in
    the order of their declaration, and does the same with the data classes
    inside its lists; the other values are copied. *)

Module ToDict.
Import Json.

Definition opt_str (v : option pystr) : pyval :=
  match v with Some s => PyStr s | None => PyNone end.

Definition opt_int (v : option Z) : pyval :=
  match v with Some z => PyInt z | None => PyNone end.

Definition opt_float (v : option Q) : pyval :=
  match v with Some q => PyFloat q | None => PyNone end.

Definition asdict_LectureTheme (th : LectureTheme.t) : dict :=
  [(U "title", PyStr (LectureTheme.title th));
   (U "order", PyInt (LectureTheme.order th));
   (U "hours", PyFloat (LectureTheme.hours th));
   (U "description", opt_str (LectureTheme.description th))].

Definition asdict_LabExample (lab : LabExample.t) : dict :=
  [(U "title", PyStr (LabExample.title lab));
   (U "description", PyStr (LabExample.description lab));
   (U "theme_relation", opt_str (LabExample.theme_relation lab));
   (U "estimated_hours", opt_float (LabExample.estimated_hours lab))].

Definition asdict_LiteratureReference (ref : LiteratureReference.t) : dict :=
  [(U "authors", PyStr (LiteratureReference.authors ref));
   (U "title", PyStr (LiteratureReference.title ref));
   (U "year", opt_int (LiteratureReference.year ref));
   (U "pages", opt_str (LiteratureReference.pages ref));
   (U "publisher", opt_str (LiteratureReference.publisher ref));
   (U "isbn", opt_str (LiteratureReference.isbn ref));
   (U "kpfu_available", PyBool (LiteratureReference.kpfu_available ref));
   (U "kpfu_book_id", opt_str (LiteratureReference.kpfu_book_id ref))].

(** [to_dict(rpd_data)], that is [asdict(rpd_data)] *)
Definition to_dict (rpd_data : RPDData.t) : dict :=
  [(U "subject_title", PyStr (RPDData.subject_title rpd_data));
   (U "academic_degree", PyStr (RPDData.academic_degree rpd_data));
   (U "profession", PyStr (RPDData.profession rpd_data));
   (U "total_hours", PyInt (RPDData.total_hours rpd_data));
   (U "department", opt_str (RPDData.department rpd_data));
   (U "faculty", opt_str (RPDData.faculty rpd_data));
   (U "year", opt_int (RPDData.year rpd_data));
   (U "semester", opt_str (RPDData.semester rpd_data));
   (U "lecture_themes",
    PyList (map (fun th => PyDict (asdict_LectureTheme th))
                (RPDData.lecture_themes rpd_data)));
   (U "lab_examples",
    PyList (map (fun lab => PyDict (asdict_LabExample lab))
                (RPDData.lab_examples rpd_data)));
   (U "literature_references",
    PyList (map (fun ref => PyDict (asdict_LiteratureReference ref))
                (RPDData.literature_references rpd_data)));
   (U "extraction_confidence", opt_float (RPDData.extraction_confidence rpd_data));
   (U "extraction_errors", PyList (map PyStr (RPDData.extraction_errors rpd_data)))].

End ToDict.
(** ** The completeness scorer: [RPDProcessor._calculate_completeness_score] *)

Module Processor.
Import RPDData.
Import PrimFloat.
Local Open Scope float_scope.

(** [len(xs)] converted to [float], as the true division by [5.0] does. *)
Definition float_len {A : Type} (xs : list A) : float :=
  of_uint63 (Uint63.of_Z (Z.of_nat (List.length xs))).

(** [min(a, b)] of Python on two numbers: [b] when [b < a], else [a]. *)
Definition py_min (a b : float) : float := if ltb b a then b else a.

Definition nonempty {A : Type} (xs : list A) : bool :=
  match xs with [] => false | _ => true end.

Definition _calculate_completeness_score (rpd_data : t) : float :=
  let score := 0 in
  let max_score := 10 in
  let score := if truthy (subject_title rpd_data) then score + 1 else score in
  let score := if truthy (profession rpd_data) then score + 1 else score in
  let score := if (0 <? total_hours rpd_data)%Z then score + 1 else score in
  let score :=
    if mem (academic_degree rpd_data) [U "bachelor"; U "master"; U "phd"]
    then score + 1 else score in
  let score :=
    if nonempty (lecture_themes rpd_data)
    then score + py_min 3 (float_len (lecture_themes rpd_data) / 5 * 3)
    else score in
  let score :=
    if nonempty (literature_references rpd_data)
    then score + py_min 2 (float_len (literature_references rpd_data) / 5 * 2)
    else score in
  let score :=
    if nonempty (lab_examples rpd_data)
    then score + py_min 1 (float_len (lab_examples rpd_data) / 3 * 1)
    else score in
  py_min 1 (score / max_score).

End Processor.

(** ** The processor: [RPDProcessor]

    The float [extraction_confidence] is the rational it denotes: the
    literal [0.7] is the binary64 number nearest to 7/10, a comparison of
    floats is the comparison of their values, and [f"{x:.2f}"] rounds the
    value to two decimals, a tie to the even digit. *)

Module Pipeline.
Import Json Entities Extractor ToDict.
Import RPDData.

(** The integer nearest to [q], a tie going to the even one. *)
Definition round_half_even (q : Q) : Z :=
  let n := Qnum q in
  let d := Zpos (Qden q) in
  let below := (n / d)%Z in
  let twice := (2 * (n mod d))%Z in
  if (twice <? d)%Z then below
  else if (d <? twice)%Z then (below + 1)%Z
  else if Z.even below then below else (below + 1)%Z.

(** [f"{x:.2f}"] *)
Definition format_2f (x : Q) : pystr :=
  let hundredths := round_half_even (Qabs x * 100) in
  (if Qle_bool 0 x then [] else [45])
  ++ str_of_Z (hundredths / 100) ++ [46]
  ++ [48 + Z.to_N ((hundredths mod 100) / 10);
      48 + Z.to_N ((hundredths mod 100) mod 10)].

(** The literal [0.7]. *)
Definition float_0_7 : Q := 3152519739159347 # 4503599627370496.

Definition msg_no_subject_title : pystr := U "Subject title not found".
Definition msg_no_profession : pystr := U "Profession/direction not found".
Definition msg_no_total_hours : pystr := U "Total hours not found or invalid".
Definition msg_no_lecture_themes : pystr := U "No lecture themes found".
Definition msg_few_lecture_themes (n : nat) : pystr :=
  U "Only " ++ str_of_nat n ++ U " lecture themes found (expected 3+)".
Definition msg_no_literature : pystr := U "No literature references found".
Definition msg_few_literature (n : nat) : pystr :=
  U "Only " ++ str_of_nat n ++ U " literature references found (expected 3+)".
Definition msg_low_confidence (c : Q) : pystr :=
  U "Low extraction confidence: " ++ format_2f c.
Definition msg_extraction_error (error : pystr) : pystr :=
  U "Extraction error: " ++ error.

(** The warnings on the content of one list. *)
Definition count_warnings {A : Type} (xs : list A) (none : pystr)
  (few : nat -> pystr) : list pystr :=
  match xs with
  | [] => [none]
  | _ => if Nat.ltb (List.length xs) 3 then [few (List.length xs)] else []
  end.

(** [extraction_confidence and extraction_confidence < 0.7] *)
Definition low_confidence (confidence : option Q) : list pystr :=
  match confidence with
  | Some c =>
      if negb (Qeq_bool c 0) && negb (Qle_bool float_0_7 c)
      then [msg_low_confidence c] else []
  | None => []
  end.

(** The list [warnings] of [_validate_completeness]. *)
Definition completeness_warnings (rpd_data : RPDData.t) : list pystr :=
  (if truthy (subject_title rpd_data) then [] else [msg_no_subject_title])
  ++ (if truthy (profession rpd_data) then [] else [msg_no_profession])
  ++ (if (total_hours rpd_data <=? 0)%Z then [msg_no_total_hours] else [])
  ++ count_warnings (lecture_themes rpd_data) msg_no_lecture_themes
                    msg_few_lecture_themes
  ++ count_warnings (literature_references rpd_data) msg_no_literature
                    msg_few_literature
  ++ low_confidence (extraction_confidence rpd_data)
  ++ map msg_extraction_error (extraction_errors rpd_data).

(** The dict [_validate_completeness] returns. *)
Record validation_result := mk_validation_result {
  warnings : list pystr;
  completeness_score : PrimFloat.float
}.

Definition _validate_completeness (rpd_data : RPDData.t) : validation_result :=
  mk_validation_result (completeness_warnings rpd_data)
                       (Processor._calculate_completeness_score rpd_data).

(** *** One file *)

(** What [parse_rpd_document] does with the file: it returns the parsed
    document or raises, an [RPDParsingError] or something else. *)
Inductive parse_outcome :=
| Parsed (parsed_data : dict)
| RPDParsingError (msg : pystr)
| OtherException (e : exn).

(** [result[key].extend(items)], for a key that holds a list. *)
Definition extend (result : dict) (key : pystr) (items : list pyval) : dict :=
  match get result key with
  | Some (PyList old) => set result key (PyList (old ++ items))
  | _ => result
  end.

(** [key in result] *)
Definition has_key (result : dict) (key : pystr) : bool :=
  match get result key with Some _ => true | None => false end.

Section Clock.

(** The clock is read twice for a file; [datetime] stands for what
    [datetime.now()] returns, with its [isoformat] and the
    [total_seconds] of the difference of two readings. *)
Variable datetime : Type.
Variable isoformat : datetime -> pystr.
Variable total_seconds : datetime -> datetime -> Q.

Definition initial_result (file_path : pystr) (processing_start : datetime)
  : dict :=
  [(U "file_path", PyStr file_path);
   (U "processing_start", PyStr (isoformat processing_start));
   (U "success", PyBool false);
   (U "errors", PyList []);
   (U "warnings", PyList []);
   (U "parsed_data", PyNone);
   (U "extracted_data", PyNone);
   (U "processing_time_seconds", PyInt 0)].

(** The processing time and the end, as they are stored. *)
Definition stamp (result : dict) (processing_start processing_end : datetime)
  : dict :=
  set (set result (U "processing_time_seconds")
           (PyFloat (total_seconds processing_start processing_end)))
      (U "processing_end") (PyStr (isoformat processing_end)).

(** What was raised in the [try] block. *)
Inductive raised :=
| ParsingError (msg : pystr)
| AnyException (e : exn).

(** The [try] block: [result] as it is left, and what was raised. *)
Definition process_body (model_manager : option ModelManager)
  (parse : parse_outcome) (processing_start processing_end : datetime)
  (result : dict) : dict * option raised :=
  match parse with
  | RPDParsingError msg => (result, Some (ParsingError msg))
  | OtherException e => (result, Some (AnyException e))
  | Parsed parsed_data =>
      let result := set result (U "parsed_data") (PyDict parsed_data) in
      match extract_rpd_data model_manager parsed_data with
      | Raise e => (result, Some (AnyException e))
      | Ok rpd_data =>
          let result :=
            set result (U "extracted_data") (PyDict (to_dict rpd_data)) in
          let validation_result := _validate_completeness rpd_data in
          let result :=
            extend result (U "warnings")
                   (map PyStr (warnings validation_result)) in
          let result := stamp result processing_start processing_end in
          let result := set result (U "success") (PyBool true) in
          (result, None)
      end
  end.

(** [process_rpd_file(file_path)]: [file_path] is the text of the path,
    [parse] what [parse_rpd_document] does with it, [processing_start] and
    [processing_end] the two readings of the clock. *)
Definition process_rpd_file (model_manager : option ModelManager)
  (file_path : pystr) (parse : parse_outcome)
  (processing_start processing_end : datetime) : dict :=
  let result := initial_result file_path processing_start in
  let (result, exc) :=
    process_body model_manager parse processing_start processing_end result in
  let result :=
    match exc with
    | Some (ParsingError msg) =>
        extend result (U "errors") [PyStr (U "RPD parsing failed: " ++ msg)]
    | Some (AnyException e) =>
        extend result (U "errors")
               [PyStr (U "RPD processing failed: " ++ exn_msg e)]
    | None => result
    end in
  if has_key result (U "processing_end") then result
  else stamp result processing_start processing_end.

(** One file of [process_multiple_rpd_files], with what happens to it. *)
Record file_run := mk_file_run {
  run_path : pystr;
  run_parse : parse_outcome;
  run_start : datetime;
  run_end : datetime
}.

(** [process_multiple_rpd_files(file_paths)]: [process_rpd_file] raises
    nothing for a path, so the handler of the loop is not entered. *)
Definition process_multiple_rpd_files (model_manager : option ModelManager)
  (runs : list file_run) : list dict :=
  map (fun run =>
         process_rpd_file model_manager (run_path run) (run_parse run)
                          (run_start run) (run_end run))
      runs.

End Clock.

(** *** The summary *)

(** The numbers [sum] adds up. *)
Inductive number :=
| NInt (z : Z)
| NFloat (q : Q)
| NNonFinite (x : nonfinite).

Definition as_number (v : pyval) : option number :=
  match v with
  | PyBool b => Some (NInt (if b then 1 else 0))
  | PyInt z => Some (NInt z)
  | PyFloat q => Some (NFloat q)
  | PyNonFinite x => Some (NNonFinite x)
  | _ => None
  end.

Definition of_number (n : number) : pyval :=
  match n with
  | NInt z => PyInt z
  | NFloat q => PyFloat q
  | NNonFinite x => PyNonFinite x
  end.

Definition number_add (a b : number) : number :=
  match a, b with
  | NInt x, NInt y => NInt (x + y)
  | NInt x, NFloat y => NFloat (inject_Z x + y)
  | NFloat x, NInt y => NFloat (x + inject_Z y)
  | NFloat x, NFloat y => NFloat (x + y)
  | NNonFinite NaN, _ | _, NNonFinite NaN => NNonFinite NaN
  | NNonFinite PosInf, NNonFinite NegInf
  | NNonFinite NegInf, NNonFinite PosInf => NNonFinite NaN
  | NNonFinite x, _ | _, NNonFinite x => NNonFinite x
  end.

(** [a / n] for a positive integer [n] *)
Definition number_div (a : number) (n : Z) : number :=
  match a with
  | NInt x => NFloat (Qmake x (Z.to_pos n))
  | NFloat x => NFloat (x / inject_Z n)
  | NNonFinite x => NNonFinite x
  end.

Definition not_a_number : exn :=
  mk_exn TypeError (U "unsupported operand type(s) for +").

(** [sum(values)] *)
Fixpoint py_sum (acc : number) (values : list pyval) : except number :=
  match values with
  | [] => Ok acc
  | v :: rest =>
      match as_number v with
      | Some n => py_sum (number_add acc n) rest
      | None => Raise not_a_number
      end
  end.

(** [for x in v] *)
Definition iterate (v : pyval) : except (list pyval) :=
  match v with
  | PyList items => Ok items
  | PyStr s => Ok (map (fun c => PyStr [c]) s)
  | PyDict items => Ok (map (fun kv => PyStr (fst kv)) items)
  | _ => Raise (mk_exn TypeError (U "object is not iterable"))
  end.

(** [r[key]] *)
Definition item (r : dict) (key : pystr) : except pyval :=
  match get r key with
  | Some v => Ok v
  | None => Raise (mk_exn KeyError (U "'" ++ key ++ U "'"))
  end.

(** [r.get(key, default)] *)
Definition get_default (r : dict) (key : pystr) (default : pyval) : pyval :=
  match get r key with Some v => v | None => default end.

(** [[x for r in results for x in r.get(key, [])]] *)
Definition gather (results : list dict) (key : pystr) : except (list pyval) :=
  per_result <-
    map_except (fun r => iterate (get_default r key (PyList []))) results ;;
  Ok (List.concat per_result).

(** [get_processing_summary(results)] *)
Definition get_processing_summary (results : list dict) : except dict :=
  let total_files := Z.of_nat (List.length results) in
  flags <- map_except (fun r => item r (U "success")) results ;;
  let successful_files :=
    Z.of_nat (List.length (filter truthy_val flags)) in
  let failed_files := (total_files - successful_files)%Z in
  total_time <-
    py_sum (NInt 0)
           (map (fun r => get_default r (U "processing_time_seconds") (PyInt 0))
                results) ;;
  let avg_time :=
    if (0 <? total_files)%Z then of_number (number_div total_time total_files)
    else PyInt 0 in
  let success_rate :=
    if (0 <? total_files)%Z
    then of_number (number_div (NInt successful_files) total_files)
    else PyInt 0 in
  errors <- gather results (U "errors") ;;
  warnings <- gather results (U "warnings") ;;
  Ok [(U "total_files", PyInt total_files);
      (U "successful_files", PyInt successful_files);
      (U "failed_files", PyInt failed_files);
      (U "success_rate", success_rate);
      (U "total_processing_time_seconds", of_number total_time);
      (U "average_processing_time_seconds", avg_time);
      (U "errors", PyList errors);
      (U "warnings", PyList warnings)].

(** *** The global processor *)

Record RPDProcessor := mk_processor {
  model_manager : option ModelManager;
  extractor : methods
}.

(** [RPDProcessor(model_manager)] *)
Definition new_RPDProcessor (model_manager : option ModelManager)
  : RPDProcessor :=
  mk_processor model_manager (Extractor.RPDDataExtractor model_manager).

(** [get_rpd_processor(model_manager)] on the global [rpd_processor]: the
    processor returned, and the global as it is left. *)
Definition get_rpd_processor (rpd_processor : option RPDProcessor)
  (model_manager : option ModelManager)
  : RPDProcessor * option RPDProcessor :=
  match rpd_processor with
  | None =>
      let p := new_RPDProcessor model_manager in (p, Some p)
  | Some p => (p, Some p)
  end.

End Pipeline.

(** ** The parsers of [parsers.py]

    The files and the libraries that read them are outside the program: a
    parser is given what the library returns for the file.  Paths are POSIX
    paths. *)

Module Parsers.
Import Json Pipeline.

(** [Path(file_path).name]: the last component, empty components and single
    dots left aside. *)
Definition path_name (file_path : pystr) : pystr :=
  last (filter (fun part => negb (eqb part []) && negb (eqb part [46]))
               (split 47 file_path))
       [].

(** [PurePath.suffix]: the name from its last dot on, when that dot is
    neither its first nor its last character. *)
Definition suffix (name : pystr) : pystr :=
  match rindex 46 name with
  | Some i =>
      if Nat.ltb 0 i && Nat.ltb i (List.length name - 1) then skipn i name
      else []
  | None => []
  end.

(** [m.get(k)] for a dict of strings. *)
Fixpoint lookup (m : list (pystr * pystr)) (k : pystr) : option pystr :=
  match m with
  | [] => None
  | (k', v) :: m' => if eqb k' k then Some v else lookup m' k
  end.

Definition extension_map : list (pystr * pystr) :=
  [(U ".pdf", U "pdf"); (U ".docx", U "docx"); (U ".doc", U "doc");
   (U ".xlsx", U "xlsx"); (U ".xls", U "xls")].

Definition mime_map : list (pystr * pystr) :=
  [(U "application/pdf", U "pdf");
   (U "application/vnd.openxmlformats-officedocument.wordprocessingml.document",
    U "docx");
   (U "application/msword", U "doc");
   (U "application/vnd.openxmlformats-officedocument.spreadsheetml.sheet",
    U "xlsx");
   (U "application/vnd.ms-excel", U "xls")].

(** [FileTypeDetector.detect_file_type(file_path)]; [magic] is [None] when
    the [magic] module is missing or the file does not exist, and else what
    [magic.from_file] does for the file. *)
Definition detect_file_type (file_path : pystr)
  (magic : option (except pystr)) : pystr :=
  let extension := lower (suffix (path_name file_path)) in
  match lookup extension_map extension with
  | Some file_type => file_type
  | None =>
      match magic with
      | Some (Ok mime_type) =>
          match lookup mime_map mime_type with
          | Some file_type => file_type
          | None => U "unknown"
          end
      | Some (Raise _) => U "unknown"
      | None => U "unknown"
      end
  end.

(** *** The parser classes and the factory *)

Inductive parser_class := PDFRPDParser | WordRPDParser | ExcelRPDParser.

Definition supported_extensions (parser : parser_class) : list pystr :=
  match parser with
  | PDFRPDParser => [U "pdf"]
  | WordRPDParser => [U "docx"; U "doc"]
  | ExcelRPDParser => [U "xlsx"; U "xls"]
  end.

(** [parser.can_parse(file_path)] *)
Definition can_parse (parser : parser_class) (file_path : pystr)
  (magic : option (except pystr)) : bool :=
  mem (detect_file_type file_path magic) (supported_extensions parser).

(** The libraries that could be imported. *)
Record libraries := mk_libraries {
  has_PyPDF2 : bool;
  has_docx : bool;
  has_pandas : bool
}.

(** The constructor of a parser class: the message of the [ImportError] it
    raises when its library is missing. *)
Definition import_error (libs : libraries) (parser : parser_class)
  : option pystr :=
  match parser with
  | PDFRPDParser =>
      if has_PyPDF2 libs then None
      else Some (U "PyPDF2 is required for PDF parsing")
  | WordRPDParser =>
      if has_docx libs then None
      else Some (U "python-docx is required for Word document parsing")
  | ExcelRPDParser =>
      if has_pandas libs then None
      else Some (U "pandas is required for Excel parsing")
  end.

(** [RPDParserFactory.parsers] *)
Definition parsers : list (pystr * parser_class) :=
  [(U "pdf", PDFRPDParser); (U "docx", WordRPDParser); (U "doc", WordRPDParser);
   (U "xlsx", ExcelRPDParser); (U "xls", ExcelRPDParser)].

Fixpoint parser_of (m : list (pystr * parser_class)) (file_type : pystr)
  : option parser_class :=
  match m with
  | [] => None
  | (k, v) :: m' => if eqb k file_type then Some v else parser_of m' file_type
  end.

(** [get_parser(file_path)]: the parser, or the message of the
    [RPDParsingError] raised. *)
Definition get_parser (libs : libraries) (file_path : pystr)
  (magic : option (except pystr)) : parser_class + pystr :=
  let file_type := detect_file_type file_path magic in
  match parser_of parsers file_type with
  | None => inr (U "Unsupported file type: " ++ file_type)
  | Some parser =>
      match import_error libs parser with
      | None => inl parser
      | Some msg => inr (U "Parser dependencies not available: " ++ msg)
      end
  end.

(** [get_supported_formats()] *)
Definition get_supported_formats : list pystr := map fst parsers.

(** *** PDF documents *)

(** What [PyPDF2.PdfReader] gives for a file: its metadata, and for every
    page what [extract_text] does. *)
Record pdf_reader := mk_pdf_reader {
  pdf_metadata : option dict;
  pdf_pages : list (except pystr)
}.

Definition pdf_metadata_of (reader : pdf_reader) : dict :=
  match pdf_metadata reader with
  | Some (item :: items) =>
      let metadata := item :: items in
      [(U "title", get_default metadata (U "/Title") (PyStr []));
       (U "author", get_default metadata (U "/Author") (PyStr []));
       (U "subject", get_default metadata (U "/Subject") (PyStr []));
       (U "creator", get_default metadata (U "/Creator") (PyStr []));
       (U "creation_date", get_default metadata (U "/CreationDate") (PyStr []))]
  | _ => []
  end.

(** The loop over the pages, from the page number [page_num] on: a page
    whose text is blank or cannot be extracted is left out. *)
Fixpoint text_content (page_num : nat) (pages : list (except pystr))
  : list (nat * pystr) :=
  match pages with
  | [] => []
  | page :: rest =>
      match page with
      | Ok page_text =>
          if truthy (strip page_text)
          then (page_num + 1, strip page_text)%nat :: text_content (S page_num) rest
          else text_content (S page_num) rest
      | Raise _ => text_content (S page_num) rest
      end
  end.

(** [sep.join(parts)] *)
Definition join_lines (parts : list pystr) : pystr := join [10] parts.

(** [PDFRPDParser.parse(file_path)]: [file_exists] is [file_path.exists()],
    [reader] what opening the file and reading it with [PdfReader] does. *)
Definition parse_pdf (file_path : pystr) (file_exists : bool)
  (reader : except pdf_reader) : parse_outcome :=
  if negb file_exists then RPDParsingError (U "File not found: " ++ file_path)
  else
    match reader with
    | Raise e =>
        RPDParsingError (U "Failed to parse PDF file " ++ file_path ++ U ": "
                           ++ exn_msg e)
    | Ok pdf_reader =>
        let content := text_content 0 (pdf_pages pdf_reader) in
        Parsed
          [(U "file_type", PyStr (U "pdf"));
           (U "file_path", PyStr file_path);
           (U "metadata", PyDict (pdf_metadata_of pdf_reader));
           (U "pages", PyInt (Z.of_nat (List.length (pdf_pages pdf_reader))));
           (U "content",
            PyList (map (fun page =>
                           PyDict [(U "page", PyInt (Z.of_nat (fst page)));
                                   (U "text", PyStr (snd page))])
                        content));
           (U "raw_text", PyStr (join_lines (map snd content)))]
    end.

(** *** Word documents *)

(** What [docx.Document] gives for a file: the core properties, the
    paragraphs with their text and the name of their style, and the text of
    the cells of the tables. *)
Record docx_document := mk_docx_document {
  core_title : option pystr;
  core_author : option pystr;
  core_subject : option pystr;
  core_created : option pystr;
  core_modified : option pystr;
  docx_paragraphs : list (pystr * option pystr);
  docx_tables : list (list (list pystr))
}.

(** [value or ''] *)
Definition or_empty (value : option pystr) : pyval :=
  match value with
  | Some (c :: s) => PyStr (c :: s)
  | _ => PyStr []
  end.

(** [str(value) if value else ''] for a date. *)
Definition date_or_empty (value : option pystr) : pyval :=
  match value with Some s => PyStr s | None => PyStr [] end.

(** The loop over the paragraphs, from the index [i] on. *)
Fixpoint paragraphs_of (i : nat) (paragraphs : list (pystr * option pystr))
  : list (nat * pystr * pystr) :=
  match paragraphs with
  | [] => []
  | (text, style) :: rest =>
      if truthy (strip text)
      then (i, strip text,
            match style with Some name => name | None => U "Normal" end)
           :: paragraphs_of (S i) rest
      else paragraphs_of (S i) rest
  end.

(** The loop over the tables, from the index [table_idx] on. *)
Fixpoint tables_of (table_idx : nat) (tables : list (list (list pystr)))
  : list pyval :=
  match tables with
  | [] => []
  | table :: rest =>
      let table_data := map (map strip) table in
      PyDict
        [(U "index", PyInt (Z.of_nat table_idx));
         (U "data", PyList (map (fun row => PyList (map PyStr row)) table_data));
         (U "rows", PyInt (Z.of_nat (List.length table_data)));
         (U "columns",
          PyInt (match table_data with
                 | row :: _ => Z.of_nat (List.length row)
                 | [] => 0%Z
                 end))]
      :: tables_of (S table_idx) rest
  end.

(** [WordRPDParser.parse(file_path)] *)
Definition parse_word (file_path : pystr) (file_exists : bool)
  (document : except docx_document) : parse_outcome :=
  if negb file_exists then RPDParsingError (U "File not found: " ++ file_path)
  else
    match document with
    | Raise e =>
        RPDParsingError (U "Failed to parse Word file " ++ file_path ++ U ": "
                           ++ exn_msg e)
    | Ok doc =>
        let paragraphs := paragraphs_of 0 (docx_paragraphs doc) in
        Parsed
          [(U "file_type", PyStr (U "docx"));
           (U "file_path", PyStr file_path);
           (U "metadata",
            PyDict [(U "title", or_empty (core_title doc));
                    (U "author", or_empty (core_author doc));
                    (U "subject", or_empty (core_subject doc));
                    (U "created", date_or_empty (core_created doc));
                    (U "modified", date_or_empty (core_modified doc))]);
           (U "paragraphs",
            PyList (map (fun p =>
                           PyDict [(U "index", PyInt (Z.of_nat (fst (fst p))));
                                   (U "text", PyStr (snd (fst p)));
                                   (U "style", PyStr (snd p))])
                        paragraphs));
           (U "tables", PyList (tables_of 0 (docx_tables doc)));
           (U "raw_text",
            PyStr (join_lines (map (fun p => snd (fst p)) paragraphs)))]
    end.

(** *** Any document *)

(** What is found for one file. *)
Record file_env := mk_file_env {
  env_magic : option (except pystr);
  env_exists : bool;
  env_pdf : except pdf_reader;
  env_docx : except docx_document;
  env_excel : parse_outcome
}.

(** [parse_rpd_document(file_path)]; what [ExcelRPDParser.parse] does with
    the file is taken from [env]. *)
Definition parse_rpd_document (libs : libraries) (file_path : pystr)
  (env : file_env) : parse_outcome :=
  match get_parser libs file_path (env_magic env) with
  | inr msg => RPDParsingError msg
  | inl PDFRPDParser => parse_pdf file_path (env_exists env) (env_pdf env)
  | inl WordRPDParser => parse_word file_path (env_exists env) (env_docx env)
  | inl ExcelRPDParser => env_excel env
  end.

(** The extensions the upload routes of [rpd_routes.py] accept. *)
Definition allowed_extensions : list pystr :=
  [U ".pdf"; U ".docx"; U ".doc"; U ".xlsx"; U ".xls"].

End Parsers.
(** ** Notions used to state the properties *)

Module Statements.
Import Json Entities Re Fallback ResponseParser Extractor.
Import RPDData.

(** The prose around the object holds no brace. *)
Definition brace_free (s : pystr) : Prop := ~ In 123%N s /\ ~ In 125%N s.

(** The value holds no [NaN] and no infinity: they are not JSON, and [NaN]
    is not equal to itself. *)
Fixpoint finite (v : pyval) : bool :=
  match v with
  | PyNonFinite _ => false
  | PyList items => forallb finite items
  | PyDict items => forallb (fun kv => finite (snd kv)) items
  | PyNone | PyBool _ | PyInt _ | PyFloat _ | PyStr _ => true
  end.

(** A value is JSON-safe when it is finite and the encoder and the decoder of
    the library take it back to itself. *)
Definition json_safe (v : pyval) : Prop :=
  finite v = true /\ loads (dumps v) = Ok v.

(** A Unicode scalar value: a code point that is not a surrogate. *)
Definition scalar (c : char) : bool :=
  (c <? 55296) || ((57344 <=? c) && (c <? 1114112)).

Fixpoint keys_distinct (items : list (pystr * pyval)) : bool :=
  match items with
  | [] => true
  | (k, _) :: rest =>
      negb (existsb (fun kv => eqb (fst kv) k) rest) && keys_distinct rest
  end.

(** The values made of [None], booleans, integers, strings of scalar values,
    lists, and dicts with distinct keys. *)
Fixpoint plain (v : pyval) : bool :=
  match v with
  | PyNone | PyBool _ | PyInt _ => true
  | PyStr s => forallb scalar s
  | PyList items => forallb plain items
  | PyDict items =>
      forallb (fun kv => forallb scalar (fst kv) && plain (snd kv)) items
      && keys_distinct items
  | PyFloat _ | PyNonFinite _ => false
  end.

(** The fuel [scan_once] needs on the encoding of a value. *)
Fixpoint need (v : pyval) : nat :=
  match v with
  | PyList items => S (S (fold_right (fun x n => Nat.max (need x) (S n)) O items))
  | PyDict items =>
      S (S (fold_right (fun kv n => Nat.max (need (snd kv)) (S n)) O items))
  | _ => 1
  end.

(** The text after a value in an encoding: nothing, a comma or a closing
    bracket. *)
Definition ends_token (rest : pystr) : bool :=
  match rest with
  | [] => true
  | c :: _ => (c =? 44) || (c =? 93) || (c =? 125)
  end.

(** The decimal digits of a number, as the text of the encoding. *)
Definition digits (d : Decimal.uint) : pystr := U (NilEmpty.string_of_uint d).

(** What the induction gives for a value: it is read back with enough
    fuel, whatever follows it in the encoding. *)
Definition reads_back (v : pyval) : Prop :=
  plain v = true /\
  forall fuel rest,
    (need v <= fuel)%nat -> ends_token rest = true ->
    scan_once fuel (dumps v ++ rest) = Some (v, rest).

Definition items_need (items : list pyval) : nat :=
  fold_right (fun x n => Nat.max (need x) (S n)) O items.

Definition members_need (items : list (pystr * pyval)) : nat :=
  fold_right (fun kv n => Nat.max (need (snd kv)) (S n)) O items.

(** Every match object comes from a match of the pattern that starts with no
    group set. *)
Definition from_match (r : regex) (m : match_obj) : Prop :=
  exists s, Match r s [] (m_rest m) (m_caps m) /\ m_text m = consumed s (m_rest m).

(** The items the fallbacks return: the keys of each, and the types of the
    values. *)
Definition basic_shape (d : dict) : Prop :=
  exists a b c n,
    d = [(U "subject_title", PyStr a); (U "academic_degree", PyStr b);
         (U "profession", PyStr c); (U "total_hours", PyInt n)].

Definition theme_shape (d : dict) : Prop :=
  exists t o h,
    d = [(U "title", PyStr t); (U "order", PyInt o); (U "hours", PyFloat h)].

Definition lab_shape (d : dict) : Prop :=
  exists t,
    d = [(U "title", PyStr t); (U "description", PyStr t);
         (U "estimated_hours", PyFloat 2)].

Definition reference_shape (d : dict) : Prop :=
  exists a t y,
    d = [(U "authors", PyStr a); (U "title", PyStr t); (U "year", y)] /\
    (y = PyNone \/ exists n, y = PyInt n).

(** A step keeps what [f] reads of the record. *)
Definition keeps {X : Type} (f : RPDData.t -> X) (s : step) : Prop :=
  forall r, f (fst (s r)) = f r.

(** The items of a decoded list from which the data class can be built. *)
Fixpoint buildable {A : Type} (new : dict -> except A) (items : list pyval)
  : list A :=
  match items with
  | [] => []
  | PyDict kw :: rest =>
      match new kw with
      | Ok a => a :: buildable new rest
      | Raise _ => buildable new rest
      end
  | _ :: rest => buildable new rest
  end.

(** What skipping only the malformed items would give: every group holds the
    items that can be built, and the record is validated. *)
Definition skips_only_malformed_items (self : methods) (parsed_document : dict)
  : Prop :=
  forall raw_text themes labs refs,
    raw_text_of parsed_document = PyStr raw_text ->
    extract_lecture_themes self raw_text = Ok (PyList themes) ->
    extract_lab_examples self raw_text = Ok (PyList labs) ->
    extract_literature self raw_text = Ok (PyList refs) ->
    exists rpd_data,
      extract_rpd_data_with self parsed_document = Ok rpd_data /\
      map LectureTheme.title (lecture_themes rpd_data)
        = map LectureTheme.title (buildable new_LectureTheme themes) /\
      lab_examples rpd_data = buildable new_LabExample labs /\
      literature_references rpd_data = buildable new_LiteratureReference refs /\
      extraction_confidence rpd_data <> None.

(** What the claim says of a line the reference pattern matches, [segment]
    being the author and title segment (the second group). *)
Definition split_as_claimed (line : pystr) : Prop :=
  forall m segment,
    re_match ref_line line = Some m -> group m 2 = Some segment ->
    exists authors title year,
      reference_of_line line
        = Ok [[(U "authors", PyStr authors); (U "title", PyStr title);
               (U "year", year)]] /\
      (if contains (strip segment) 46
       then exists before after,
              strip segment = before ++ 46 :: after /\ ~ In 46 before /\
              authors = strip before /\ title = strip after
       else authors = strip segment /\ title = []).

(** The call raised a [KeyError]. *)
Definition raises_KeyError {A : Type} (x : except A) : bool :=
  match x with
  | Raise e => match exn_cls e with KeyError => true | _ => false end
  | Ok _ => false
  end.

(** The error of [extract_rpd_data] for a document without text. *)
Definition no_text_content : exn :=
  mk_exn ValueError (U "No text content found in document").

(** A string as [strip] leaves it, on one line. *)
Definition single_line (s : pystr) : Prop := strip s = s /\ ~ In 10%N s.

(** The dict the fallback for the basic information returns. *)
Definition basic_info_of (title degree profession : pystr) (hours : Z) : dict :=
  [(U "subject_title", PyStr title); (U "academic_degree", PyStr degree);
   (U "profession", PyStr profession); (U "total_hours", PyInt hours)].

(** The dicts the other fallbacks return. *)
Definition theme_of (title : pystr) (order : Z) (hours : Q) : dict :=
  [(U "title", PyStr title); (U "order", PyInt order); (U "hours", PyFloat hours)].

Definition lab_of (title : pystr) : dict :=
  [(U "title", PyStr title); (U "description", PyStr title);
   (U "estimated_hours", PyFloat 2)].

Definition reference_of (authors title : pystr) (year : pyval) : dict :=
  [(U "authors", PyStr authors); (U "title", PyStr title); (U "year", year)].

(** The keys of the result of [process_rpd_file], in their order. *)
Definition result_keys : list pystr :=
  [U "file_path"; U "processing_start"; U "success"; U "errors"; U "warnings";
   U "parsed_data"; U "extracted_data"; U "processing_time_seconds";
   U "processing_end"].

(** The result of a run that failed with the message [msg]. *)
Definition failed_result (file_path started ended : pystr) (seconds : Q)
  (msg : pystr) (parsed_data : pyval) : dict :=
  [(U "file_path", PyStr file_path);
   (U "processing_start", PyStr started);
   (U "success", PyBool false);
   (U "errors", PyList [PyStr msg]);
   (U "warnings", PyList []);
   (U "parsed_data", parsed_data);
   (U "extracted_data", PyNone);
   (U "processing_time_seconds", PyFloat seconds);
   (U "processing_end", PyStr ended)].

(** The result of a run that gave the record [rpd_data]. *)
Definition succeeded_result (file_path started ended : pystr) (seconds : Q)
  (parsed_data : dict) (rpd_data : RPDData.t) : dict :=
  [(U "file_path", PyStr file_path);
   (U "processing_start", PyStr started);
   (U "success", PyBool true);
   (U "errors", PyList []);
   (U "warnings", PyList (map PyStr (Pipeline.completeness_warnings rpd_data)));
   (U "parsed_data", PyDict parsed_data);
   (U "extracted_data", PyDict (ToDict.to_dict rpd_data));
   (U "processing_time_seconds", PyFloat seconds);
   (U "processing_end", PyStr ended)].

(** A result as [process_rpd_file] returns it. *)
Definition pipeline_result (result : dict) : Prop :=
  (exists file_path started ended seconds parsed_data rpd_data,
     result = succeeded_result file_path started ended seconds parsed_data
                rpd_data) \/
  (exists file_path started ended seconds msg parsed_data,
     result = failed_result file_path started ended seconds msg parsed_data).

(** The processors a sequence of calls of [get_rpd_processor] returns, from
    the global [rpd_processor] on. *)
Fixpoint get_rpd_processor_calls (rpd_processor : option Pipeline.RPDProcessor)
  (managers : list (option ModelManager)) : list Pipeline.RPDProcessor :=
  match managers with
  | [] => []
  | model_manager :: rest =>
      let (p, rpd_processor') :=
        Pipeline.get_rpd_processor rpd_processor model_manager in
      p :: get_rpd_processor_calls rpd_processor' rest
  end.

(** The page has text: [extract_text] returns, and not a blank text. *)
Definition has_text (page : except pystr) : bool :=
  match page with
  | Ok page_text => truthy (strip page_text)
  | Raise _ => false
  end.

End Statements.

(** ** Sample inputs *)

Module Samples.
Import Json Entities Extractor.

(** The record of the test of the validator, with an earlier error. *)
Definition record_with_issues : RPDData.t :=
  RPDData.mk [] (U "invalid") (U "Test Profession") (-10) None None None None
    [LectureTheme.mk [] 1 0%Q None;
     LectureTheme.mk (U "Valid Theme") 2 2%Q None]
    [] [] None [U "earlier failure"].

(** A record with a valid degree, one theme with positive hours and one
    without. *)
Definition valid_record : RPDData.t :=
  RPDData.mk (U "Programming") (U "master") (U "Software engineering") 144
    (Some (U "IT")) None (Some 2023%Z) None
    [LectureTheme.mk (U "Intro") 1 (4 # 1) (Some (U "first"));
     LectureTheme.mk [] 2 (-1 # 1) None]
    [LabExample.mk (U "Lab 1") (U "Lab 1") None (Some 2%Q)]
    [] None [U "earlier failure"].

(** A record with every line of the rubric at full credit. *)
Definition full_record : RPDData.t :=
  RPDData.mk (U "Programming") (U "bachelor") (U "Software engineering") 144
    None None None None
    (repeat (LectureTheme.mk (U "Theme") 1 2%Q None) 5)
    (repeat (LabExample.mk (U "Lab") (U "Lab") None None) 3)
    (repeat (LiteratureReference.mk (U "A") (U "T") None None None None false None) 5)
    None [].

(** The object of the scenario of the response parser. *)
Definition sample_dict : dict :=
  [(U "subject_title", PyStr (U "X")); (U "total_hours", PyInt 50)].

(** A document with total hours and two themes. *)
Definition sample_document : dict :=
  [(U "raw_text", PyStr (U "Общая трудоемкость: 144 часа
Тема 1. Введение в Python (2 часа)
Тема 2. Основы синтаксиса (4 часа)"))].

(** A completion service whose replies would not build a lecture theme. *)
Definition careless_manager : ModelManager :=
  mk_manager
    (Ok (mk_llm (fun _ _ _ _ =>
                   Ok (Some (Prompts.quoted
                               (U "{`lecture_themes`: [{`title`: `x`}]}")))))).

(** Decoded items, some of them without a required key. *)
Definition good_theme : dict :=
  [(U "title", PyStr (U "Intro")); (U "order", PyInt 1); (U "hours", PyFloat 2)].

Definition theme_without_order : dict :=
  [(U "title", PyStr (U "Syntax")); (U "hours", PyFloat 4)].

Definition good_lab : dict :=
  [(U "title", PyStr (U "Lab 1")); (U "description", PyStr (U "First program"))].

Definition good_reference : dict :=
  [(U "authors", PyStr (U "Ivanov")); (U "title", PyStr (U "Python"))].

Definition lab_without_description : dict := [(U "title", PyStr (U "Lab 2"))].

Definition reference_without_title : dict := [(U "authors", PyStr (U "Petrov"))].

(** The errors the constructors raise for them. *)
Definition missing_order : exn :=
  missing_argument (U "LectureTheme") (U "order").

Definition missing_description : exn :=
  missing_argument (U "LabExample") (U "description").

Definition missing_title : exn :=
  missing_argument (U "LiteratureReference") (U "title").

(** An extractor whose groups come back as decoded items. *)
Definition decoded_groups (themes labs refs : list dict) : methods :=
  mk_methods (fun _ => Ok None)
             (fun _ => Ok (dicts themes))
             (fun _ => Ok (dicts labs))
             (fun _ => Ok (dicts refs))
             Validator._validate_rpd_data.

Definition some_document : dict := [(U "raw_text", PyStr (U "some text"))].

(** A line of a literature section. *)
Definition ivanov_line : pystr := U "1. Ivanov I.I. Programming in Python. 2023.".

(** The text of [sample_document], and what is extracted from it. *)
Definition sample_text : pystr :=
  match raw_text_of sample_document with PyStr s => s | _ => [] end.

Definition sample_extraction : RPDData.t :=
  match extract_rpd_data (Some careless_manager) sample_document with
  | Ok r => r
  | Raise _ => initial
  end.

(** A PDF file of two pages, the second one without text, and what is
    found for it; the clock is counted in seconds. *)
Definition two_pages : Parsers.pdf_reader :=
  Parsers.mk_pdf_reader None [Ok (U " Тема 1. Введение  "); Ok (U "   ")].

Definition pdf_env : Parsers.file_env :=
  Parsers.mk_file_env None true (Ok two_pages)
    (Raise (mk_exn Exception (U "not a Word file")))
    (Pipeline.RPDParsingError (U "not an Excel file")).

Definition all_libraries : Parsers.libraries :=
  Parsers.mk_libraries true true true.

Definition seconds_between (a b : Z) : Q := inject_Z (b - a).

(** A dict with nested values and braces inside a string. *)
Definition nested_dict : dict :=
  [(U "lecture_themes",
    PyList [PyDict [(U "title", PyStr (U "Множества {a, b}"));
                    (U "order", PyInt 1); (U "done", PyBool false);
                    (U "description", PyNone)]]);
   (U "total_hours", PyInt (-144))].

End Samples.

(** * Properties *)

Import Statements Samples.


Module PyFacts.

Lemma eqb_eq a b : eqb a b = true <-> a = b.
Proof. unfold eqb. destruct (list_eq_dec N.eq_dec a b); split; congruence. Qed.

Lemma eqb_refl a : eqb a a = true.
Proof. now apply eqb_eq. Qed.

Lemma mem_In x xs : mem x xs = true <-> In x xs.
Proof.
  unfold mem. rewrite existsb_exists. split.
  - intros (y & Hy & E). apply eqb_eq in E. now subst.
  - intros H. exists x. split; [assumption | apply eqb_refl].
Qed.

Lemma mem_false_not_In x xs : mem x xs = false <-> ~ In x xs.
Proof.
  rewrite <- mem_In. destruct (mem x xs); split; congruence.
Qed.

End PyFacts.

Module ValidatorFacts.
Import RPDData Validator PyFacts.

(** The loop over the themes keeps their number, titles, orders and
    descriptions. *)
Lemma validate_theme_frame i th :
  let th' := fst (validate_theme i th) in
  LectureTheme.title th' = LectureTheme.title th /\
  LectureTheme.order th' = LectureTheme.order th /\
  LectureTheme.description th' = LectureTheme.description th /\
  LectureTheme.hours th' =
    (if Qle_bool (LectureTheme.hours th) 0 then 2%Q else LectureTheme.hours th).
Proof.
  unfold validate_theme.
  destruct (Qle_bool (LectureTheme.hours th) 0); cbn; auto.
Qed.

Lemma validate_themes_fst i ths :
  fst (validate_themes i ths) = map (fun th => fst (validate_theme 0 th)) ths.
Proof.
  revert i. induction ths as [|th ths IH]; intros i; cbn; [reflexivity|].
  specialize (IH (S i)).
  destruct (validate_themes (S i) ths) as [rest' es]. cbn in IH. subst rest'.
  unfold validate_theme.
  destruct (Qle_bool (LectureTheme.hours th) 0); cbn; reflexivity.
Qed.

Lemma validate_themes_snd_cons i th ths :
  snd (validate_themes i (th :: ths)) =
  snd (validate_theme i th) ++ snd (validate_themes (S i) ths).
Proof.
  cbn. destruct (validate_theme i th) as [th' e].
  destruct (validate_themes (S i) ths) as [rest' es]. reflexivity.
Qed.

Lemma validate_themes_fst_cons i th ths :
  fst (validate_themes i (th :: ths)) =
  fst (validate_theme i th) :: fst (validate_themes (S i) ths).
Proof.
  cbn. destruct (validate_theme i th) as [th' e].
  destruct (validate_themes (S i) ths) as [rest' es]. reflexivity.
Qed.

(** After one pass every theme has positive hours. *)
Lemma validate_theme_hours_pos i th :
  Qle_bool (LectureTheme.hours (fst (validate_theme i th))) 0 = false.
Proof.
  unfold validate_theme.
  destruct (Qle_bool (LectureTheme.hours th) 0) eqn:E; cbn; [reflexivity | exact E].
Qed.

Lemma validate_theme_fixed i th :
  Qle_bool (LectureTheme.hours th) 0 = false ->
  validate_theme i th =
  (th, if truthy (strip (LectureTheme.title th)) then []
       else [msg_theme_title (i + 1)]).
Proof. intros E. unfold validate_theme. now rewrite E. Qed.

Lemma last_app_cons {A} (l : list A) a l' d :
  last (l ++ a :: l') d = last (a :: l') d.
Proof.
  induction l as [|x l IH]; [reflexivity|].
  cbn [app]. rewrite <- IH.
  destruct (l ++ a :: l') eqn:E; [destruct l; discriminate|reflexivity].
Qed.

Lemma last_msg_theme_title n : last (msg_theme_title n) 0%N = 101%N.
Proof.
  unfold msg_theme_title. rewrite app_assoc.
  change (U " has empty title") with (32%N :: U "has empty title").
  rewrite last_app_cons. reflexivity.
Qed.

Lemma last_msg_theme_hours n : last (msg_theme_hours n) 0%N = 48%N.
Proof.
  unfold msg_theme_hours. rewrite app_assoc.
  change (U " hours corrected to 2.0") with (32%N :: U "hours corrected to 2.0").
  rewrite last_app_cons. reflexivity.
Qed.

(** The warnings of a pass over themes whose hours are all positive hold no
    hours-correction message. *)
Lemma no_hours_msg_when_positive ths : forall i n,
  Forall (fun th => Qle_bool (LectureTheme.hours th) 0 = false) ths ->
  ~ In (msg_theme_hours n) (snd (validate_themes i ths)) /\
  ~ In msg_degree (snd (validate_themes i ths)) /\
  fst (validate_themes i ths) = ths.
Proof.
  induction ths as [|th ths IH]; intros i n H.
  - cbn. tauto.
  - inversion H as [|? ? Hth Hths]; subst.
    rewrite validate_themes_snd_cons, validate_themes_fst_cons.
    rewrite (validate_theme_fixed i th Hth). cbn [fst snd].
    destruct (IH (S i) n Hths) as (I1 & I2 & I3).
    rewrite I3. repeat split.
    + rewrite in_app_iff. intros [Hin|Hin]; [|now apply I1].
      destruct (truthy (strip (LectureTheme.title th))); [exact Hin|].
      destruct Hin as [E|[]].
      apply (f_equal (fun s => last s 0%N)) in E.
      rewrite last_msg_theme_title, last_msg_theme_hours in E. discriminate.
    + rewrite in_app_iff. intros [Hin|Hin]; [|now apply I2].
      destruct (truthy (strip (LectureTheme.title th))); [exact Hin|].
      destruct Hin as [E|[]].
      apply (f_equal (fun s => last s 0%N)) in E.
      rewrite last_msg_theme_title in E. vm_compute in E. discriminate.
Qed.

Lemma validated_themes_positive i ths :
  Forall (fun th => Qle_bool (LectureTheme.hours th) 0 = false)
         (fst (validate_themes i ths)).
Proof.
  revert i. induction ths as [|th ths IH]; intros i.
  - constructor.
  - rewrite validate_themes_fst_cons. constructor; [|apply IH].
    apply validate_theme_hours_pos.
Qed.

Lemma py_max_Qmax a b : (py_max a b == Qmax a b)%Q.
Proof.
  unfold py_max. destruct (Qle_bool b a) eqn:E.
  - apply Qle_bool_iff in E. symmetry. now apply Q.max_l.
  - assert (~ (b <= a)%Q) by (rewrite <- Qle_bool_iff; congruence).
    symmetry. apply Q.max_r. apply Qlt_le_weak. now apply Qnot_le_lt.
Qed.

Lemma confidence_of_formula errors :
  (confidence_of errors ==
   Qmax (1 # 10) (1 - (1 # 10) * inject_Z (Z.of_nat (List.length errors))))%Q.
Proof.
  destruct errors as [|e errors].
  - cbn [confidence_of List.length Z.of_nat]. rewrite Q.max_r.
    + vm_compute. reflexivity.
    + vm_compute. discriminate.
  - unfold confidence_of. rewrite py_max_Qmax.
    apply Q.max_compat; [reflexivity|]. ring.
Qed.

Lemma confidence_of_bounds errors :
  (1 # 10 <= confidence_of errors /\ confidence_of errors <= 1)%Q.
Proof.
  rewrite confidence_of_formula. split.
  - apply Q.le_max_l.
  - apply Q.max_lub; [discriminate|].
    set (n := inject_Z (Z.of_nat (List.length errors))).
    assert (0 <= n)%Q.
    { unfold n. change 0%Q with (inject_Z 0). rewrite <- Zle_Qle. lia. }
    assert (0 <= (1 # 10) * n)%Q by (apply Qmult_le_0_compat; [discriminate|assumption]).
    lra.
Qed.

End ValidatorFacts.

Module ValidatorClaims.
Import RPDData Validator PyFacts ValidatorFacts.

Lemma msg_degree_not_field_warning r :
  mem (academic_degree r) valid_degrees = true ->
  ~ In msg_degree (field_warnings r).
Proof.
  intros Hd. unfold field_warnings. rewrite Hd.
  destruct (truthy (strip (subject_title r))),
           (truthy (strip (profession r))),
           (total_hours r <=? 0)%Z; cbn; intuition discriminate.
Qed.

Lemma msg_theme_hours_not_field_warning r n :
  ~ In (msg_theme_hours n) (field_warnings r).
Proof.
  intros Hin.
  assert (L : forall m, In m (field_warnings r) -> last m 0%N <> 48%N).
  { unfold field_warnings. intros m.
    destruct (truthy (strip (subject_title r))),
             (truthy (strip (profession r))),
             (total_hours r <=? 0)%Z,
             (mem (academic_degree r) valid_degrees); cbn;
      intuition (subst; discriminate). }
  apply (L _ Hin). apply last_msg_theme_hours.
Qed.

Lemma validate_degree r :
  academic_degree (_validate_rpd_data r) =
  if mem (academic_degree r) valid_degrees then academic_degree r
  else U "bachelor".
Proof. reflexivity. Qed.

Lemma validate_errors r :
  extraction_errors (_validate_rpd_data r) = extraction_errors r ++ warnings r.
Proof. reflexivity. Qed.

Lemma validate_lecture_themes r :
  lecture_themes (_validate_rpd_data r) =
  fst (validate_themes 0 (lecture_themes r)).
Proof. reflexivity. Qed.

Lemma validate_confidence r :
  extraction_confidence (_validate_rpd_data r) =
  Some (confidence_of (warnings r)).
Proof. reflexivity. Qed.

Lemma validated_degree_mem r :
  mem (academic_degree (_validate_rpd_data r)) valid_degrees = true.
Proof.
  rewrite validate_degree.
  destruct (mem (academic_degree r) valid_degrees) eqn:E;
    [exact E | reflexivity].
Qed.

(** C3. After the validator has run, [academic_degree] is one of bachelor,
    master, phd whatever the extracted value was: a value outside that set is
    replaced by "bachelor" and the warning about it is recorded in
    [extraction_errors]. *)
Theorem validated_degree_is_valid (r : RPDData.t) :
  In (academic_degree (_validate_rpd_data r)) valid_degrees /\
  (~ In (academic_degree r) valid_degrees ->
   academic_degree (_validate_rpd_data r) = U "bachelor" /\
   In msg_degree (extraction_errors (_validate_rpd_data r))).
Proof.
  split.
  - apply mem_In, validated_degree_mem.
  - intros H. apply mem_false_not_In in H.
    rewrite validate_degree, validate_errors, H. split; [reflexivity|].
    apply in_or_app. right. unfold warnings, field_warnings. rewrite H.
    apply in_or_app. left.
    repeat (apply in_or_app; right). now left.
Qed.

Lemma validated_degree_is_valid_witness :
  ~ In (academic_degree record_with_issues) valid_degrees /\
  academic_degree (_validate_rpd_data record_with_issues) = U "bachelor" /\
  In msg_degree (extraction_errors (_validate_rpd_data record_with_issues)).
Proof.
  assert (H : ~ In (academic_degree record_with_issues) valid_degrees).
  { vm_compute. intuition discriminate. }
  split; [exact H|].
  exact (proj2 (validated_degree_is_valid record_with_issues) H).
Defined.


(** C5. A second run of the validator on a validated record keeps
    [academic_degree], keeps every lecture theme (so every corrected [hours])
    and appends neither the degree warning nor any hours-correction warning
    again. *)
Theorem validate_again_is_stable (r : RPDData.t) :
  academic_degree (_validate_rpd_data (_validate_rpd_data r))
    = academic_degree (_validate_rpd_data r) /\
  lecture_themes (_validate_rpd_data (_validate_rpd_data r))
    = lecture_themes (_validate_rpd_data r) /\
  exists ws : list pystr,
    extraction_errors (_validate_rpd_data (_validate_rpd_data r))
      = extraction_errors (_validate_rpd_data r) ++ ws /\
    ~ In msg_degree ws /\
    forall n : nat, ~ In (msg_theme_hours n) ws.
Proof.
  set (r1 := _validate_rpd_data r).
  pose proof (validated_degree_mem r) as Hd. fold r1 in Hd.
  assert (Hpos : Forall (fun th => Qle_bool (LectureTheme.hours th) 0 = false)
                        (lecture_themes r1)) by apply validated_themes_positive.
  pose proof (fun n => no_hours_msg_when_positive _ 0%nat n Hpos) as K.
  split; [|split].
  - rewrite validate_degree. now rewrite Hd.
  - rewrite validate_lecture_themes. apply (K 0%nat).
  - exists (warnings r1). split; [reflexivity|]. unfold warnings. split.
    + rewrite in_app_iff. intros [H|H].
      * now apply (msg_degree_not_field_warning r1).
      * now apply (proj1 (proj2 (K 0%nat))).
    + intros n. rewrite in_app_iff. intros [H|H].
      * now apply (msg_theme_hours_not_field_warning r1 n).
      * now apply (proj1 (K n)).
Qed.

(** C9. The validator changes [academic_degree] only when it is outside the
    valid set and a theme's [hours] only when they are not positive; it sets
    [extraction_confidence], appends to [extraction_errors], and leaves every
    other field, and the title, order and description of every theme, as they
    were. *)
Theorem validate_frame (r : RPDData.t) :
  subject_title (_validate_rpd_data r) = subject_title r /\
  profession (_validate_rpd_data r) = profession r /\
  total_hours (_validate_rpd_data r) = total_hours r /\
  department (_validate_rpd_data r) = department r /\
  faculty (_validate_rpd_data r) = faculty r /\
  year (_validate_rpd_data r) = year r /\
  semester (_validate_rpd_data r) = semester r /\
  lab_examples (_validate_rpd_data r) = lab_examples r /\
  literature_references (_validate_rpd_data r) = literature_references r /\
  Forall2 (fun th th' =>
             LectureTheme.title th' = LectureTheme.title th /\
             LectureTheme.order th' = LectureTheme.order th /\
             LectureTheme.description th' = LectureTheme.description th /\
             ((0 < LectureTheme.hours th)%Q -> th' = th))
          (lecture_themes r) (lecture_themes (_validate_rpd_data r)) /\
  (In (academic_degree r) valid_degrees ->
   academic_degree (_validate_rpd_data r) = academic_degree r) /\
  exists ws : list pystr,
    extraction_errors (_validate_rpd_data r) = extraction_errors r ++ ws.
Proof.
  repeat (split; [reflexivity|]). split; [|split].
  - rewrite validate_lecture_themes.
    generalize 0%nat. induction (lecture_themes r) as [|th ths IH]; intros i.
    + constructor.
    + rewrite validate_themes_fst_cons. constructor; [|apply IH].
      destruct (validate_theme_frame i th) as (T & O & D & _).
      repeat (split; [assumption|]).
      intros Hpos. rewrite validate_theme_fixed; [reflexivity|].
      destruct (Qle_bool (LectureTheme.hours th) 0) eqn:E; [|reflexivity].
      apply Qle_bool_iff in E. exfalso. apply (Qlt_not_le _ _ Hpos E).
  - intros H. apply mem_In in H. rewrite validate_degree. now rewrite H.
  - exists (warnings r). reflexivity.
Qed.

Lemma validate_frame_witness :
  In (academic_degree valid_record) valid_degrees /\
  academic_degree (_validate_rpd_data valid_record) = academic_degree valid_record.
Proof.
  assert (H : In (academic_degree valid_record) valid_degrees).
  { vm_compute. tauto. }
  split; [exact H|].
  destruct (validate_frame valid_record)
    as (_ & _ & _ & _ & _ & _ & _ & _ & _ & _ & D & _).
  exact (D H).
Defined.

End ValidatorClaims.

Module ProcessorClaims.
Import RPDData Processor PyFacts.

(** C8. A record with a subject title, a profession, positive total hours, a
    valid degree, five lecture themes, five literature references and three
    lab examples has completeness score exactly 1.0. *)
Theorem full_record_scores_one (r : RPDData.t) :
  subject_title r <> [] ->
  profession r <> [] ->
  (0 < total_hours r)%Z ->
  In (academic_degree r) [U "bachelor"; U "master"; U "phd"] ->
  List.length (lecture_themes r) = 5%nat ->
  List.length (literature_references r) = 5%nat ->
  List.length (lab_examples r) = 3%nat ->
  _calculate_completeness_score r = 1%float.
Proof.
  intros Ht Hp Hh Hd Hl Hr Hb. unfold _calculate_completeness_score, float_len.
  rewrite Hl, Hr, Hb.
  apply mem_In in Hd. rewrite Hd.
  apply Z.ltb_lt in Hh. rewrite Hh.
  destruct (subject_title r); [congruence|].
  destruct (profession r); [congruence|].
  destruct (lecture_themes r); [discriminate|].
  destruct (literature_references r); [discriminate|].
  destruct (lab_examples r); [discriminate|].
  reflexivity.
Qed.

Lemma full_record_scores_one_witness :
  _calculate_completeness_score full_record = 1%float.
Proof.
  apply full_record_scores_one;
    try reflexivity; try (vm_compute; discriminate).
  vm_compute. tauto.
Defined.

End ProcessorClaims.


Module StrFacts.

Lemma lstrip_app_nonspace p c x :
  isspace c = false -> lstrip (p ++ c :: x) = lstrip p ++ c :: x.
Proof.
  intros Hc. induction p as [|a p IH]; cbn.
  - now rewrite Hc.
  - destruct (isspace a); [exact IH | reflexivity].
Qed.

Lemma rstrip_app_nonspace x c p :
  isspace c = false -> rstrip (x ++ c :: p) = x ++ c :: rstrip p.
Proof.
  intros Hc. unfold rstrip.
  rewrite rev_app_distr. cbn [rev]. rewrite <- app_assoc. cbn [app].
  rewrite lstrip_app_nonspace by assumption.
  rewrite rev_app_distr. cbn [rev]. rewrite rev_involutive.
  now rewrite <- app_assoc.
Qed.

Lemma strip_around p c1 body c2 q :
  isspace c1 = false -> isspace c2 = false ->
  strip (p ++ (c1 :: body ++ [c2]) ++ q)
  = lstrip p ++ (c1 :: body ++ [c2]) ++ rstrip q.
Proof.
  intros H1 H2. unfold strip.
  assert (E1 : p ++ (c1 :: body ++ [c2]) ++ q = p ++ c1 :: (body ++ [c2] ++ q)).
  { cbn [app]. now rewrite <- app_assoc. }
  rewrite E1, lstrip_app_nonspace by assumption.
  assert (E2 : lstrip p ++ c1 :: body ++ [c2] ++ q
               = (lstrip p ++ c1 :: body) ++ c2 :: q).
  { rewrite <- app_assoc. reflexivity. }
  rewrite E2, rstrip_app_nonspace by assumption.
  rewrite <- app_assoc. cbn [app]. now rewrite <- app_assoc.
Qed.

Lemma lstrip_incl p : incl (lstrip p) p.
Proof.
  induction p as [|a p IH]; cbn; [apply incl_refl|].
  destruct (isspace a); [now apply incl_tl | apply incl_refl].
Qed.

Lemma rstrip_incl p : incl (rstrip p) p.
Proof.
  unfold rstrip. intros c Hc. apply in_rev in Hc. apply lstrip_incl in Hc.
  now apply in_rev in Hc.
Qed.

Lemma index_app_head c p x :
  ~ In c p -> index c (p ++ c :: x) = Some (List.length p).
Proof.
  induction p as [|a p IH]; intros Hn; cbn.
  - now rewrite N.eqb_refl.
  - destruct (N.eqb_spec a c) as [->|_]; [exfalso; apply Hn; now left|].
    rewrite IH; [reflexivity | intros H; apply Hn; now right].
Qed.

Lemma rindex_none c p : ~ In c p -> rindex c p = None.
Proof.
  induction p as [|a p IH]; intros Hn; cbn; [reflexivity|].
  rewrite IH by (intros H; apply Hn; now right).
  destruct (N.eqb_spec a c) as [->|_]; [exfalso; apply Hn; now left|reflexivity].
Qed.

Lemma rindex_app_last c x p :
  ~ In c p -> rindex c (x ++ c :: p) = Some (List.length x).
Proof.
  intros Hn. induction x as [|a x IH]; cbn.
  - rewrite (rindex_none c p Hn). now rewrite N.eqb_refl.
  - now rewrite IH.
Qed.

Lemma index_none c p : index c p = None <-> ~ In c p.
Proof.
  induction p as [|a p IH]; cbn; [tauto|].
  destruct (N.eqb_spec a c) as [->|Hne].
  - split; [discriminate | intros H; exfalso; apply H; now left].
  - destruct (index c p).
    + split; [discriminate|]. intros H. exfalso.
      assert (~ In c p) by (intros K; apply H; now right).
      apply IH in H0. discriminate.
    + split; [|reflexivity]. intros _ [E|H]; [congruence|].
      now apply (proj1 IH).
Qed.

Lemma rindex_none_iff c p : rindex c p = None <-> ~ In c p.
Proof.
  split; [|apply rindex_none].
  induction p as [|a p IH]; cbn; [tauto|].
  destruct (rindex c p); [discriminate|].
  destruct (N.eqb_spec a c) as [->|Hne]; [discriminate|].
  intros _ [E|H]; [congruence | now apply IH].
Qed.

Lemma contains_In s c : contains s c = true <-> In c s.
Proof.
  unfold contains. rewrite existsb_exists. split.
  - intros (x & Hx & E). apply N.eqb_eq in E. now subst.
  - intros H. exists c. split; [assumption | apply N.eqb_refl].
Qed.

Lemma slice_middle (p x q : pystr) :
  slice (p ++ x ++ q) (Z.of_nat (List.length p))
        (Z.of_nat (List.length p + List.length x)) = x.
Proof.
  unfold slice. rewrite Nat2Z.id.
  replace (Z.to_nat _) with (List.length x) by lia.
  rewrite skipn_app, skipn_all, Nat.sub_diag. cbn [skipn app].
  rewrite firstn_app, firstn_all, Nat.sub_diag. cbn. apply app_nil_r.
Qed.

(** Where [index] finds the character, the text from there on starts with it. *)
Lemma index_skipn c s i :
  index c s = Some i -> exists t, skipn i s = c :: t.
Proof.
  revert i. induction s as [|a s IH]; intros i; cbn; [discriminate|].
  destruct (N.eqb_spec a c) as [->|Hne].
  - intros [= <-]. now exists s.
  - destruct (index c s) as [j|]; [|discriminate].
    intros [= <-]. cbn. now apply IH.
Qed.

End StrFacts.

Module JsonFacts.
Import Json.

Lemma parse_members_dict fuel : forall s acc v r,
  parse_members fuel s acc = Some (v, r) -> exists items, v = PyDict items.
Proof.
  induction fuel as [|fuel IH]; intros s acc v r H; [discriminate|].
  cbn [parse_members] in H.
  destruct s as [|q t]; [discriminate|].
  destruct (q =? 34)%N; [|discriminate].
  destruct (scanstring t []) as [[key r0]|]; [|discriminate].
  destruct (skip_ws r0) as [|colon r1]; [discriminate|].
  destruct (colon =? 58)%N; [|discriminate].
  destruct (scan_once fuel (skip_ws r1)) as [[v1 r2]|]; [|discriminate].
  destruct (skip_ws r2) as [|x r3]; [discriminate|].
  destruct (x =? 125)%N.
  - injection H as <- _. eauto.
  - destruct (x =? 44)%N; [|discriminate]. eapply IH; eassumption.
Qed.

Lemma loads_raises_decode_error s e :
  loads s = Raise e -> exn_cls e = JSONDecodeError.
Proof.
  unfold loads.
  destruct (scan_once _ _) as [[v r]|].
  - destruct (skip_ws r); [discriminate|]. now intros [= <-].
  - now intros [= <-].
Qed.

Lemma loads_empty : exists e, loads [] = Raise e.
Proof. eexists. reflexivity. Qed.

(** A text that starts with an opening brace decodes to a [dict] or not at
    all. *)
Lemma loads_object t v :
  loads (123%N :: t) = Ok v -> exists items, v = PyDict items.
Proof.
  unfold loads. cbn [skip_ws]. change (json_ws 123) with false. cbv iota.
  cbn [scan_once].
  change (123 =? 34)%N with false. change (123 =? 123)%N with true. cbv iota.
  intros H.
  destruct (skip_ws t) as [|d t'] eqn:E; [discriminate|].
  destruct (d =? 125)%N.
  - destruct (skip_ws t'); [|discriminate]. injection H as <-. eauto.
  - match type of H with
    | context [parse_members ?f ?u ?a] =>
        destruct (parse_members f u a) as [[v' r]|] eqn:P; [|discriminate]
    end.
    destruct (skip_ws r); [|discriminate]. injection H as <-.
    eapply parse_members_dict; eassumption.
Qed.

Lemma dumps_dict items :
  exists body, dumps (PyDict items) = 123%N :: body ++ [125%N].
Proof. eexists. cbn [dumps app]. reflexivity. Qed.

End JsonFacts.

Module ParserClaims.
Import Json ResponseParser StrFacts JsonFacts.

Lemma parse_slices_object (before after body : pystr) :
  ~ In 123%N before -> ~ In 125%N after ->
  _parse_json_response (before ++ (123%N :: body ++ [125%N]) ++ after) =
  try_except
    (match loads (123%N :: body ++ [125%N]) with
     | Ok v => Ok (Some v)
     | Raise e => Raise e
     end)
    JSONDecodeError (fun _ => Ok None).
Proof.
  intros Hb Ha. set (text := 123%N :: body ++ [125%N]).
  unfold _parse_json_response.
  assert (Hs : strip (before ++ text ++ after)
               = lstrip before ++ text ++ rstrip after).
  { unfold text. apply strip_around; reflexivity. }
  rewrite Hs. clear Hs.
  set (p := lstrip before). set (q := rstrip after).
  assert (Hp : ~ In 123%N p) by (intros H; apply Hb; now apply lstrip_incl).
  assert (Hq : ~ In 125%N q) by (intros H; apply Ha; now apply rstrip_incl).
  assert (F : find (p ++ text ++ q) 123 = Z.of_nat (List.length p)).
  { unfold find, text. cbn [app]. now rewrite index_app_head. }
  assert (R : rfind (p ++ text ++ q) 125
              = Z.of_nat (List.length p + List.length text - 1)).
  { unfold rfind, text.
    replace (p ++ (123%N :: body ++ [125%N]) ++ q)
      with ((p ++ 123%N :: body) ++ 125%N :: q)
      by (cbn [app]; rewrite <- ?app_assoc; reflexivity).
    rewrite rindex_app_last by assumption.
    f_equal. cbn [List.length]. rewrite !length_app. cbn [List.length]. lia. }
  rewrite F, R.
  replace (Z.of_nat (List.length p + List.length text - 1) + 1)%Z
    with (Z.of_nat (List.length p + List.length text))
    by (unfold text; cbn [List.length]; lia).
  rewrite slice_middle.
  destruct (Z.eqb_spec (Z.of_nat (List.length p)) (-1)); [lia|].
  destruct (Z.eqb_spec (Z.of_nat (List.length p + List.length text - 1)) (-1));
    [lia|].
  reflexivity.
Qed.





End ParserClaims.


Module ReFacts.
Import Re.

(** Whatever [exec] accepts, the pattern matches. *)
Lemma exec_sound r : forall s cs k res,
  exec r s cs k = Some res ->
  exists s' cs', Match r s cs s' cs' /\ k s' cs' = Some res.
Proof.
  induction r as [cl| |r1 IH1 r2 IH2|r1 IH1 r2 IH2|g r IH|n r IH|r IH|];
    intros s cs k res H; cbn [exec] in H.
  - destruct s as [|c s]; [discriminate|].
    destruct (test cl c) eqn:T; [|discriminate].
    exists s, cs. split; [now constructor | assumption].
  - exists s, cs. split; [constructor | assumption].
  - apply IH1 in H. destruct H as (s1 & cs1 & M1 & H).
    apply IH2 in H. destruct H as (s2 & cs2 & M2 & H).
    exists s2, cs2. split; [econstructor; eassumption | assumption].
  - destruct (exec r1 s cs k) as [res1|] eqn:E.
    + injection H as <-. apply IH1 in E. destruct E as (s' & cs' & M & E).
      exists s', cs'. split; [now apply MAltL | assumption].
    + apply IH2 in H. destruct H as (s' & cs' & M & H).
      exists s', cs'. split; [now apply MAltR | assumption].
  - revert H. generalize (List.length s) as fuel. intros fuel. revert s cs res.
    induction fuel as [|fuel IHf]; intros s cs res H.
    + exists s, cs. split; [constructor | assumption].
    + cbn [repeat_loop] in H. cbv zeta in H.
      assert (Again : forall res',
        exec r s cs
          (fun s' cs' =>
             if Nat.eqb (List.length s') (List.length s) then None
             else repeat_loop g (exec r) k fuel s' cs') = Some res' ->
        exists s' cs', Match (Star g r) s cs s' cs' /\ k s' cs' = Some res').
      { intros res' E. apply IH in E. destruct E as (s1 & cs1 & M1 & E).
        destruct (Nat.eqb (List.length s1) (List.length s)); [discriminate|].
        apply IHf in E. destruct E as (s2 & cs2 & M2 & E).
        exists s2, cs2. split; [econstructor; eassumption | assumption]. }
      destruct g.
      * match type of H with
        | match ?x with _ => _ end = _ => destruct x as [res1|] eqn:E
        end.
        -- injection H as <-. now apply Again.
        -- exists s, cs. split; [constructor | assumption].
      * destruct (k s cs) as [res1|] eqn:E.
        -- injection H as <-. exists s, cs. split; [constructor | assumption].
        -- now apply Again.
  - apply IH in H. destruct H as (s' & cs' & M & H).
    exists s', ((n, consumed s s') :: cs'). split; [now constructor | assumption].
  - destruct (exec r s cs (fun s' cs' => Some (s', cs'))) as [[s1 cs1]|] eqn:E;
      [|discriminate].
    apply IH in E. destruct E as (s1' & cs1' & M & E). injection E as -> ->.
    exists s, cs1. split; [econstructor; eassumption | assumption].
  - destruct s; [|discriminate]. exists [], cs. split; [constructor | assumption].
Qed.

(** A match reads a prefix of the text. *)
Lemma Match_prefix {r s cs s' cs'} :
  Match r s cs s' cs' -> exists l, s = l ++ s'.
Proof.
  induction 1 as [k c s cs T|s cs|r1 r2 s cs s1 cs1 s2 cs2 _ [l1 E1] _ [l2 E2]
                 |r1 r2 s cs s' cs' _ IH|r1 r2 s cs s' cs' _ IH
                 |g r s cs|g r s cs s1 cs1 s2 cs2 _ [l1 E1] _ [l2 E2]
                 |n r s cs s' cs' _ IH|r s cs s1 cs1 _ _|cs].
  - now exists [c].
  - now exists [].
  - exists (l1 ++ l2). subst. now rewrite app_assoc.
  - exact IH.
  - exact IH.
  - now exists [].
  - exists (l1 ++ l2). subst. now rewrite app_assoc.
  - exact IH.
  - now exists [].
  - now exists [].
Qed.

Lemma consumed_app l s' : consumed (l ++ s') s' = l.
Proof.
  unfold consumed. rewrite length_app.
  replace (List.length l + List.length s' - List.length s')%nat
    with (List.length l) by lia.
  rewrite firstn_app, Nat.sub_diag, firstn_all. cbn. apply app_nil_r.
Qed.

Lemma consumed_nil s : consumed s s = [].
Proof. unfold consumed. now rewrite Nat.sub_diag. Qed.

Lemma consumed_cat l1 l2 s :
  consumed (l1 ++ l2 ++ s) s = consumed (l1 ++ l2 ++ s) (l2 ++ s) ++ consumed (l2 ++ s) s.
Proof.
  rewrite (consumed_app l2 s), (consumed_app l1 (l2 ++ s)).
  rewrite app_assoc. apply consumed_app.
Qed.

End ReFacts.

Module CaptureFacts.
Import Re ReFacts.

Lemma eqb_true_eq a b : eqb a b = true -> a = b.
Proof. unfold eqb. destruct (list_eq_dec N.eq_dec a b); congruence. Qed.

Lemma cls_eqb_eq a b : cls_eqb a b = true -> a = b.
Proof.
  destruct a, b; cbn; try discriminate; try reflexivity; intros H;
    try (apply N.eqb_eq in H; now subst);
    try (apply eqb_true_eq in H; now subst).
Qed.

(** A pattern without group that reads one class leaves the groups alone and
    reads characters of that class. *)
Lemma reads_only_run {k r s cs s' cs'} :
  Match r s cs s' cs' -> reads_only k r = true ->
  cs' = cs /\ exists l, s = l ++ s' /\ Forall (fun c => test k c = true) l.
Proof.
  induction 1 as [k' c s cs T|s cs|r1 r2 s cs s1 cs1 s2 cs2 _ IH1 _ IH2
                 |r1 r2 s cs s' cs' _ IH|r1 r2 s cs s' cs' _ IH
                 |g r s cs|g r s cs s1 cs1 s2 cs2 _ IH1 _ IH2
                 |n r s cs s' cs' _ IH|r s cs s1 cs1 _ _|cs];
    cbn [reads_only]; intros R; try discriminate.
  - apply cls_eqb_eq in R. subst k'. split; [reflexivity|].
    exists [c]. split; [reflexivity | now constructor].
  - split; [reflexivity|]. exists []. split; [reflexivity | constructor].
  - apply andb_prop in R. destruct R as [R1 R2].
    destruct (IH1 R1) as (-> & l1 & -> & F1).
    destruct (IH2 R2) as (-> & l2 & -> & F2).
    split; [reflexivity|]. exists (l1 ++ l2).
    split; [now rewrite app_assoc | now apply Forall_app].
  - apply andb_prop in R. now apply IH.
  - apply andb_prop in R. now apply IH.
  - split; [reflexivity|]. exists []. split; [reflexivity | constructor].
  - destruct (IH1 R) as (-> & l1 & -> & F1).
    destruct (IH2 R) as (-> & l2 & -> & F2).
    split; [reflexivity|]. exists (l1 ++ l2).
    split; [now rewrite app_assoc | now apply Forall_app].
Qed.

Lemma Match_length {r s cs s' cs'} :
  Match r s cs s' cs' -> (List.length s' <= List.length s)%nat.
Proof.
  intros M. destruct (Match_prefix M) as [l ->]. rewrite length_app. lia.
Qed.

Lemma never_empty_reads {r s cs s' cs'} :
  Match r s cs s' cs' -> never_empty r = true ->
  (List.length s' < List.length s)%nat.
Proof.
  induction 1 as [k' c s cs T|s cs|r1 r2 s cs s1 cs1 s2 cs2 M1 IH1 M2 IH2
                 |r1 r2 s cs s' cs' _ IH|r1 r2 s cs s' cs' _ IH
                 |g r s cs|g r s cs s1 cs1 s2 cs2 _ IH1 _ IH2
                 |n r s cs s' cs' _ IH|r s cs s1 cs1 _ _|cs];
    cbn [never_empty]; intros R; try discriminate.
  - cbn. lia.
  - apply Match_length in M1 as L1. apply Match_length in M2 as L2.
    apply orb_prop in R. destruct R as [R|R]; [apply IH1 in R | apply IH2 in R]; lia.
  - apply andb_prop in R. now apply IH.
  - apply andb_prop in R. now apply IH.
  - now apply IH.
Qed.

(** A capture of group [n] after the match was there before or is a
    non-empty run of the class of the group. *)
Lemma group_reads_capture n k {r s cs s' cs'} :
  Match r s cs s' cs' -> group_reads n k r = true ->
  forall g, get_cap n cs' = Some g ->
  get_cap n cs = Some g \/
  (g <> [] /\ Forall (fun c => test k c = true) g).
Proof.
  induction 1 as [k' c s cs T|s cs|r1 r2 s cs s1 cs1 s2 cs2 _ IH1 _ IH2
                 |r1 r2 s cs s' cs' _ IH|r1 r2 s cs s' cs' _ IH
                 |g0 r s cs|g0 r s cs s1 cs1 s2 cs2 _ IH1 _ IH2
                 |n' r s cs s' cs' M IH|r s cs s1 cs1 _ IH|cs];
    cbn [group_reads]; intros R g G; try (now left).
  - apply andb_prop in R. destruct R as [R1 R2].
    destruct (IH2 R2 g G) as [G1|Good]; [|now right]. now apply IH1.
  - apply andb_prop in R. now apply IH.
  - apply andb_prop in R. now apply IH.
  - destruct (IH2 R g G) as [G1|Good]; [|now right]. now apply IH1.
  - cbn [get_cap] in G. destruct (Nat.eqb n' n) eqn:E.
    + injection G as <-. apply andb_prop in R. destruct R as [R1 R2]. right.
      destruct (reads_only_run M R1) as (_ & l & -> & F).
      rewrite consumed_app. split; [|exact F].
      apply (never_empty_reads M) in R2. rewrite length_app in R2.
      destruct l; [cbn in R2; lia | discriminate].
    + now apply IH.
  - now apply IH.
Qed.

(** The groups that are set stay set. *)
Lemma Match_keeps_caps n {r s cs s' cs'} :
  Match r s cs s' cs' -> get_cap n cs <> None -> get_cap n cs' <> None.
Proof.
  induction 1; intros G; auto.
  cbn [get_cap]. destruct (Nat.eqb n0 n); [discriminate | auto].
Qed.

Lemma sets_capture n {r s cs s' cs'} :
  Match r s cs s' cs' -> sets n r = true -> get_cap n cs' <> None.
Proof.
  induction 1 as [k' c s cs T|s cs|r1 r2 s cs s1 cs1 s2 cs2 M1 IH1 M2 IH2
                 |r1 r2 s cs s' cs' _ IH|r1 r2 s cs s' cs' _ IH
                 |g0 r s cs|g0 r s cs s1 cs1 s2 cs2 _ IH1 _ IH2
                 |n' r s cs s' cs' M IH|r s cs s1 cs1 _ IH|cs];
    cbn [sets]; intros R; try discriminate.
  - apply orb_prop in R. destruct R as [R|R].
    + apply (Match_keeps_caps n M2). now apply IH1.
    + now apply IH2.
  - apply andb_prop in R. now apply IH.
  - apply andb_prop in R. now apply IH.
  - cbn [get_cap]. destruct (Nat.eqb n' n) eqn:E; [discriminate|].
    cbn in R. now apply IH.
  - now apply IH.
Qed.

Lemma match_at_from r s pos m : match_at r s pos = Some m -> from_match r m.
Proof.
  unfold match_at.
  destruct (exec r s [] (fun s' cs' => Some (s', cs'))) as [[s' cs']|] eqn:E;
    [|discriminate].
  intros [= <-]. apply exec_sound in E. destruct E as (s1 & cs1 & M & [= -> ->]).
  exists s. now split.
Qed.

Lemma search_from_match r s : forall pos m,
  search_from r s pos = Some m -> from_match r m.
Proof.
  induction s as [|c s IH]; intros pos m; cbn [search_from].
  - destruct (match_at r [] pos) eqn:E; [|discriminate].
    intros [= <-]. eapply match_at_from; eassumption.
  - destruct (match_at r (c :: s) pos) eqn:E.
    + intros [= <-]. eapply match_at_from; eassumption.
    + apply IH.
Qed.

Lemma finditer_from_match r fuel : forall s pos,
  Forall (from_match r) (finditer_from fuel r s pos).
Proof.
  induction fuel as [|fuel IH]; intros s pos; cbn [finditer_from]; [constructor|].
  destruct (search_from r s pos) as [m|] eqn:E; [|constructor].
  constructor; [eapply search_from_match; eassumption|].
  destruct (m_text m); [destruct (m_rest m); [constructor|]|]; apply IH.
Qed.

(** A group that the pattern always sets can be read from any match. *)
Lemma from_match_group r m n :
  from_match r m -> sets n r = true -> exists g, group m n = Some g.
Proof.
  intros (s & M & _) S. pose proof (sets_capture n M S) as G.
  unfold group. destruct (get_cap n (m_caps m)) as [g|]; [now exists g | congruence].
Qed.

Lemma from_match_group_run r m n k g :
  from_match r m -> group_reads n k r = true -> group m n = Some g ->
  g <> [] /\ Forall (fun c => test k c = true) g.
Proof.
  intros (s & M & _) R G.
  destruct (group_reads_capture n k M R g G) as [G0|Good]; [discriminate | exact Good].
Qed.

End CaptureFacts.


Module FallbackFacts.
Import Json Re ReFacts CaptureFacts Fallback.

Lemma map_except_ok {A B : Type} (f : A -> except B) (P : B -> Prop) xs :
  (forall x, In x xs -> exists y, f x = Ok y /\ P y) ->
  exists ys, map_except f xs = Ok ys /\ Forall P ys.
Proof.
  induction xs as [|x xs IH]; intros H; cbn [map_except].
  - exists []. split; [reflexivity | constructor].
  - destruct (H x (or_introl eq_refl)) as (y & -> & Py).
    destruct IH as (ys & -> & Pys); [intros x' Hx'; apply H; now right|].
    exists (y :: ys). split; [reflexivity | now constructor].
Qed.

Lemma Forall_concat {A : Type} (P : A -> Prop) (xss : list (list A)) :
  Forall (Forall P) xss -> Forall P (List.concat xss).
Proof.
  induction 1; cbn; [constructor | now apply Forall_app].
Qed.

Lemma group_str_ok r m n :
  from_match r m -> sets n r = true -> exists g, group_str m n = Ok g.
Proof.
  intros F S. destruct (from_match_group r m n F S) as [g G].
  exists g. unfold group_str. now rewrite G.
Qed.

Lemma digits_run g :
  g <> [] -> Forall (fun c => test Digit c = true) g -> all_digits g = true.
Proof.
  intros Hne F. unfold all_digits. destruct g; [congruence|].
  apply forallb_forall. now apply Forall_forall.
Qed.

Lemma group_int_ok r m n :
  from_match r m -> sets n r = true -> group_reads n Digit r = true ->
  exists g, group_arg m n = Ok g /\ py_int g = Ok (int_of_digits g)
            /\ py_float g = Ok (inject_Z (int_of_digits g)).
Proof.
  intros F S R. destruct (from_match_group r m n F S) as [g G].
  destruct (from_match_group_run r m n Digit g F R G) as [Hne Hd].
  exists g. unfold group_arg, py_int, py_float. rewrite G.
  now rewrite (digits_run g Hne Hd).
Qed.

Lemma first_search_from patterns text m :
  first_search patterns text = Some m ->
  exists p, In p patterns /\ from_match p m.
Proof.
  induction patterns as [|p rest IH]; cbn [first_search]; [discriminate|].
  destruct (search p text) as [m'|] eqn:E.
  - intros [= <-]. exists p. split; [now left|].
    eapply search_from_match; eassumption.
  - intros H. destruct (IH H) as (q & Hq & F). exists q. split; [now right | exact F].
Qed.

(** *** The shapes of the items the fallbacks return *)

Lemma basic_set_title d x :
  basic_shape d -> basic_shape (set d (U "subject_title") (PyStr x)).
Proof. intros (a & b & c & n & ->). now exists x, b, c, n. Qed.

Lemma basic_set_degree d x :
  basic_shape d -> basic_shape (set d (U "academic_degree") (PyStr x)).
Proof. intros (a & b & c & n & ->). now exists a, x, c, n. Qed.

Lemma basic_set_profession d x :
  basic_shape d -> basic_shape (set d (U "profession") (PyStr x)).
Proof. intros (a & b & c & n & ->). now exists a, b, x, n. Qed.

Lemma basic_set_hours d x :
  basic_shape d -> basic_shape (set d (U "total_hours") (PyInt x)).
Proof. intros (a & b & c & n & ->). now exists a, b, c, x. Qed.

Lemma title_patterns_set : forallb (sets 1) title_patterns = true.
Proof. reflexivity. Qed.

Lemma profession_patterns_set : forallb (sets 1) profession_patterns = true.
Proof. reflexivity. Qed.

Lemma hours_patterns_set :
  forallb (fun p => sets 1 p && group_reads 1 Digit p) hours_patterns = true.
Proof. reflexivity. Qed.

(** The fallback for the basic information never raises and returns the four
    keys with a string, a string, a string and an integer. *)
Lemma basic_info_fallback_ok text :
  exists d, _extract_basic_info_fallback text = Ok d /\ basic_shape d.
Proof.
  unfold _extract_basic_info_fallback.
  set (d0 := [(U "subject_title", PyStr []); _; _; _]).
  assert (S0 : basic_shape d0) by (now exists [], (U "bachelor"), [], 0%Z).
  clearbody d0.
  assert (S1 : exists d1,
    match first_search title_patterns text with
    | Some m => g <- group_str m 1 ;; Ok (set d0 (U "subject_title") (PyStr (strip g)))
    | None => Ok d0
    end = Ok d1 /\ basic_shape d1).
  { destruct (first_search title_patterns text) as [m|] eqn:E; [|now exists d0].
    destruct (first_search_from _ _ _ E) as (p & Hp & F).
    pose proof (proj1 (forallb_forall _ _) title_patterns_set p Hp) as S.
    destruct (group_str_ok p m 1 F S) as [g ->]. cbn [bind].
    eexists. split; [reflexivity | now apply basic_set_title]. }
  destruct S1 as (d1 & -> & S1). cbn [bind]. clear S0 d0.
  set (d2 := if any_in _ _ then _ else _).
  assert (S2 : basic_shape d2).
  { unfold d2. destruct (any_in [U "магистр"; U "master"] (lower text));
      [now apply basic_set_degree|].
    destruct (any_in _ (lower text)); [now apply basic_set_degree | exact S1]. }
  clearbody d2. clear S1 d1.
  assert (S3 : exists d3,
    match first_search profession_patterns text with
    | Some m => g <- group_str m 1 ;; Ok (set d2 (U "profession") (PyStr (strip g)))
    | None => Ok d2
    end = Ok d3 /\ basic_shape d3).
  { destruct (first_search profession_patterns text) as [m|] eqn:E; [|now exists d2].
    destruct (first_search_from _ _ _ E) as (p & Hp & F).
    pose proof (proj1 (forallb_forall _ _) profession_patterns_set p Hp) as S.
    destruct (group_str_ok p m 1 F S) as [g ->]. cbn [bind].
    eexists. split; [reflexivity | now apply basic_set_profession]. }
  destruct S3 as (d3 & -> & S3). cbn [bind]. clear S2 d2.
  destruct (first_search hours_patterns text) as [m|] eqn:E.
  - destruct (first_search_from _ _ _ E) as (p & Hp & F).
    pose proof (proj1 (forallb_forall _ _) hours_patterns_set p Hp) as S.
    apply andb_prop in S. destruct S as [S R].
    destruct (group_int_ok p m 1 F S R) as (g & Hg & Hi & _).
    rewrite Hg. cbn [bind]. rewrite Hi. cbn [bind].
    eexists. split; [reflexivity | now apply basic_set_hours].
  - cbn [bind]. now exists d3.
Qed.

Lemma collect_ok (entry : regex -> match_obj -> except (list dict))
  (P : dict -> Prop) patterns text :
  (forall p m, In p patterns -> from_match p m ->
               exists ds, entry p m = Ok ds /\ Forall P ds) ->
  exists ds, collect entry patterns text = Ok ds /\ Forall P ds.
Proof.
  intros H. unfold collect.
  destruct (map_except_ok
              (fun pattern =>
                 per_match <- map_except (entry pattern) (finditer pattern text) ;;
                 Ok (List.concat per_match))
              (Forall P) patterns) as (dss & -> & F).
  - intros p Hp.
    destruct (map_except_ok (entry p) (Forall P) (finditer p text))
      as (per_match & -> & Fm).
    + intros m Hm. apply (H p m Hp).
      pose proof (finditer_from_match p (S (List.length text)) text 0) as Fi.
      rewrite Forall_forall in Fi. now apply Fi.
    + cbn [bind]. eexists. split; [reflexivity | now apply Forall_concat].
  - cbn [bind]. eexists. split; [reflexivity | now apply Forall_concat].
Qed.

Lemma lecture_patterns_shape :
  forallb (fun p => Nat.leb 2 (ngroups p) && sets 1 p && group_reads 1 Digit p
                    && sets 2 p && (negb (Nat.leb 3 (ngroups p)) || sets 3 p))
          lecture_patterns = true.
Proof. reflexivity. Qed.

Lemma lab_patterns_shape : forallb (sets 2) lab_patterns = true.
Proof. reflexivity. Qed.

(** The fallback for the lecture themes never raises and returns items with
    a title, an order and hours. *)
Lemma lecture_themes_fallback_ok text :
  exists ds, _extract_lecture_themes_fallback text = Ok ds /\ Forall theme_shape ds.
Proof.
  apply collect_ok. intros p m Hp F.
  pose proof (proj1 (forallb_forall _ _) lecture_patterns_shape p Hp) as S.
  repeat (apply andb_prop in S; destruct S as [S ?]).
  unfold theme_of_match. rewrite S.
  destruct (group_int_ok p m 1 F) as (g1 & Hg & Hi & _); [assumption..|].
  rewrite Hg. cbn [bind]. rewrite Hi. cbn [bind].
  destruct (group_str_ok p m 2 F) as [g2 ->]; [assumption|]. cbn [bind].
  destruct (Nat.leb 3 (ngroups p)) eqn:N3.
  - cbn in H. destruct (from_match_group p m 3 F H) as [g3 G3].
    unfold group_arg. rewrite G3. cbn [bind]. unfold py_float, try_except.
    destruct (all_digits g3); cbn [bind];
      (eexists; split; [reflexivity|]; constructor; [|constructor]);
      eexists _, _, _; reflexivity.
  - cbn [bind]. eexists; split; [reflexivity|]. constructor; [|constructor].
    eexists _, _, _; reflexivity.
Qed.

(** The fallback for the lab examples never raises and returns items with a
    title, a description and estimated hours. *)
Lemma lab_examples_fallback_ok text :
  exists ds, _extract_lab_examples_fallback text = Ok ds /\ Forall lab_shape ds.
Proof.
  apply collect_ok. intros p m Hp F.
  pose proof (proj1 (forallb_forall _ _) lab_patterns_shape p Hp) as S.
  unfold lab_of_match.
  destruct (group_str_ok p m 2 F S) as [g2 ->]. cbn [bind].
  eexists; split; [reflexivity|]. constructor; [|constructor].
  eexists; reflexivity.
Qed.

Lemma re_match_from r s m : re_match r s = Some m -> from_match r m.
Proof. apply match_at_from. Qed.

Lemma search_from_match_top r s m : search r s = Some m -> from_match r m.
Proof. apply search_from_match. Qed.

(** The body of the loop over the lines never raises and appends at most one
    item with authors, title and year. *)
Lemma reference_of_line_ok line :
  exists ds, reference_of_line line = Ok ds /\ Forall reference_shape ds.
Proof.
  unfold reference_of_line.
  destruct (re_match ref_line line) as [m|] eqn:E;
    [|exists []; split; [reflexivity | constructor]].
  apply re_match_from in E.
  destruct (group_str_ok ref_line m 2 E eq_refl) as [g2 ->]. cbn [bind].
  destruct (authors_and_title _ _) as [authors title].
  destruct (search four_digits line) as [ym|] eqn:Y.
  - apply search_from_match_top in Y.
    destruct (group_int_ok four_digits ym 1 Y eq_refl eq_refl) as (g & Hg & Hi & _).
    rewrite Hg. cbn [bind]. rewrite Hi. cbn [bind]. eexists; split; [reflexivity|]. constructor; [|constructor].
    eexists _, _, _. split; [reflexivity|]. right. now eexists.
  - cbn [bind]. eexists; split; [reflexivity|]. constructor; [|constructor].
    eexists _, _, _. split; [reflexivity|]. now left.
Qed.

(** The fallback for the literature never raises and returns items with
    authors, a title and a year. *)
Lemma literature_fallback_ok text :
  exists ds, _extract_literature_fallback text = Ok ds /\ Forall reference_shape ds.
Proof.
  unfold _extract_literature_fallback.
  destruct (search lit_section text) as [m|] eqn:E;
    [|exists []; split; [reflexivity | constructor]].
  apply search_from_match_top in E.
  destruct (group_str_ok lit_section m 2 E eq_refl) as [g2 ->]. cbn [bind].
  destruct (map_except_ok reference_of_line (Forall reference_shape) (kept_lines g2))
    as (per_line & -> & F).
  - intros line _. apply reference_of_line_ok.
  - cbn [bind]. eexists. split; [reflexivity | now apply Forall_concat].
Qed.

End FallbackFacts.


Module ExtractorFacts.
Import Json Entities Fallback ResponseParser Extractor FallbackFacts.
Import RPDData.

(** Rendering a prompt raises whatever the text is: the first brace of the
    JSON example opens a replacement field whose name is not [text]. *)
Lemma format_basic_info_raises text :
  raises (Prompts.format Prompts.basic_info text) = true.
Proof. vm_compute. reflexivity. Qed.

Lemma format_lecture_themes_raises text :
  raises (Prompts.format Prompts.lecture_themes text) = true.
Proof. vm_compute. reflexivity. Qed.

Lemma format_lab_examples_raises text :
  raises (Prompts.format Prompts.lab_examples text) = true.
Proof. vm_compute. reflexivity. Qed.

Lemma format_literature_raises text :
  raises (Prompts.format Prompts.literature text) = true.
Proof. vm_compute. reflexivity. Qed.

Lemma ask_raises manager template text budget num_predict :
  raises (Prompts.format template (firstn budget text)) = true ->
  exists e, ask manager template text budget num_predict = Raise e.
Proof.
  intros H. unfold ask.
  destruct (get_llm_model manager) as [llm|e]; [|now exists e].
  cbn [bind]. destruct (Prompts.format _ _) as [p|e]; [discriminate|].
  now exists e.
Qed.

(** So every group extractor answers with its fallback, with or without a
    model manager. *)
Lemma extract_basic_info_is_fallback mm text :
  _extract_basic_info mm text =
  (d <- _extract_basic_info_fallback text ;; Ok (Some (PyDict d))).
Proof.
  unfold _extract_basic_info. destruct mm as [manager|].
  - destruct (ask_raises manager Prompts.basic_info text 3000 500
                (format_basic_info_raises _)) as [e ->].
    reflexivity.
  - destruct (basic_info_fallback_ok text) as (d & -> & _). reflexivity.
Qed.

Lemma extract_lecture_themes_is_fallback mm text :
  _extract_lecture_themes mm text =
  (l <- _extract_lecture_themes_fallback text ;; Ok (dicts l)).
Proof.
  unfold _extract_lecture_themes. destruct mm as [manager|].
  - destruct (ask_raises manager Prompts.lecture_themes text 4000 1000
                (format_lecture_themes_raises _)) as [e ->].
    reflexivity.
  - destruct (lecture_themes_fallback_ok text) as (d & -> & _). reflexivity.
Qed.

Lemma extract_lab_examples_is_fallback mm text :
  _extract_lab_examples mm text =
  (l <- _extract_lab_examples_fallback text ;; Ok (dicts l)).
Proof.
  unfold _extract_lab_examples. destruct mm as [manager|].
  - destruct (ask_raises manager Prompts.lab_examples text 4000 1000
                (format_lab_examples_raises _)) as [e ->].
    reflexivity.
  - destruct (lab_examples_fallback_ok text) as (d & -> & _). reflexivity.
Qed.

Lemma extract_literature_is_fallback mm text :
  _extract_literature mm text =
  (l <- _extract_literature_fallback text ;; Ok (dicts l)).
Proof.
  unfold _extract_literature. destruct mm as [manager|].
  - destruct (ask_raises manager Prompts.literature text 4000 1500
                (format_literature_raises _)) as [e ->].
    reflexivity.
  - destruct (literature_fallback_ok text) as (d & -> & _). reflexivity.
Qed.

(** The items of the fallbacks build their data classes. *)
Lemma build_all_ok {A : Type} (new : dict -> except A) (P : dict -> Prop) ds :
  (forall d, P d -> exists a, new d = Ok a) ->
  Forall P ds -> exists xs, build_all new (dicts ds) = Ok xs.
Proof.
  intros H F. unfold build_all, dicts.
  induction F as [|d ds Pd _ IH]; cbn [map map_except].
  - now exists [].
  - destruct (H d Pd) as [a ->]. cbn [bind]. destruct IH as [xs ->].
    cbn [bind]. now eexists.
Qed.

Lemma new_LectureTheme_ok d : theme_shape d -> exists a, new_LectureTheme d = Ok a.
Proof. intros (t & o & h & ->). eexists. reflexivity. Qed.

Lemma new_LabExample_ok d : lab_shape d -> exists a, new_LabExample d = Ok a.
Proof. intros (t & ->). eexists. reflexivity. Qed.

Lemma new_LiteratureReference_ok d :
  reference_shape d -> exists a, new_LiteratureReference d = Ok a.
Proof.
  intros (a & t & y & -> & [-> | [n ->]]); eexists; reflexivity.
Qed.

Lemma merge_group_ok {A : Type} (new : dict -> except A) store (P : dict -> Prop)
  ds r :
  (forall d, P d -> exists a, new d = Ok a) -> Forall P ds ->
  exists r', merge_group (Ok (dicts ds)) new store r = (r', None).
Proof.
  intros H F. unfold merge_group.
  destruct (truthy_val (dicts ds)); [|now exists r].
  unfold assign. destruct (build_all_ok new P ds H F) as [xs ->]. now eexists.
Qed.

Lemma merge_basic_info_ok d r :
  basic_shape d -> exists r', merge_basic_info (Some (PyDict d)) r = (r', None).
Proof. intros (a & b & c & n & ->). eexists. reflexivity. Qed.

(** With the methods of the class, no step of the body raises. *)
Lemma extract_body_validates mm raw_text r :
  exists r', extract_body (RPDDataExtractor mm) raw_text r
             = (Validator._validate_rpd_data r', None).
Proof.
  unfold extract_body, then_, basic_step, themes_step, labs_step,
    literature_step, validation_step.
  cbn [RPDDataExtractor extract_basic_info extract_lecture_themes
       extract_lab_examples extract_literature validate_rpd_data].
  rewrite extract_basic_info_is_fallback.
  destruct (basic_info_fallback_ok raw_text) as (d & -> & Sd). cbn [bind].
  destruct (merge_basic_info_ok d r Sd) as [r1 ->].
  rewrite extract_lecture_themes_is_fallback.
  destruct (lecture_themes_fallback_ok raw_text) as (ts & -> & St). cbn [bind].
  destruct (merge_group_ok new_LectureTheme set_lecture_themes theme_shape ts r1
              new_LectureTheme_ok St) as [r2 ->].
  rewrite extract_lab_examples_is_fallback.
  destruct (lab_examples_fallback_ok raw_text) as (ls & -> & Sl). cbn [bind].
  destruct (merge_group_ok new_LabExample set_lab_examples lab_shape ls r2
              new_LabExample_ok Sl) as [r3 ->].
  rewrite extract_literature_is_fallback.
  destruct (literature_fallback_ok raw_text) as (rs & -> & Sr). cbn [bind].
  destruct (merge_group_ok new_LiteratureReference set_literature_references
              reference_shape rs r3 new_LiteratureReference_ok Sr) as [r4 ->].
  now exists r4.
Qed.

End ExtractorFacts.

Module ExtractorClaims.
Import Json Entities Fallback ResponseParser Extractor ExtractorFacts.
Import RPDData ValidatorFacts.



End ExtractorClaims.


Module BodyFacts.
Import Json Entities Extractor.
Import RPDData.

Lemma keeps_skip {X : Type} (f : RPDData.t -> X) : keeps f skip.
Proof. intros r. reflexivity. Qed.

Lemma keeps_assign {X A : Type} (f : RPDData.t -> X) (value : except A) store :
  (forall r a, f (store r a) = f r) -> keeps f (assign value store).
Proof. intros H r. unfold assign. destruct value; cbn; auto. Qed.

Lemma keeps_then {X : Type} (f : RPDData.t -> X) a b :
  keeps f a -> keeps f b -> keeps f (then_ a b).
Proof.
  intros Ha Hb r. unfold then_. specialize (Ha r).
  destruct (a r) as [r' [e|]]; cbn in *; [assumption|].
  now rewrite Hb.
Qed.

Lemma keeps_merge_basic_info {X : Type} (f : RPDData.t -> X) basic_info :
  (forall r v, f (set_subject_title r v) = f r) ->
  (forall r v, f (set_academic_degree r v) = f r) ->
  (forall r v, f (set_profession r v) = f r) ->
  (forall r v, f (set_total_hours r v) = f r) ->
  (forall r v, f (set_department r v) = f r) ->
  (forall r v, f (set_faculty r v) = f r) ->
  (forall r v, f (set_year r v) = f r) ->
  (forall r v, f (set_semester r v) = f r) ->
  keeps f (merge_basic_info basic_info).
Proof.
  intros. unfold merge_basic_info.
  destruct basic_info as [[| | | | | | |[|kv d]]|];
    try apply keeps_skip;
    try (destruct (truthy_val _); [intros r; reflexivity | apply keeps_skip]).
  repeat (apply keeps_then; [now apply keeps_assign|]).
  now apply keeps_assign.
Qed.

Lemma keeps_basic_step {X : Type} (f : RPDData.t -> X) self raw_text :
  (forall basic_info, keeps f (merge_basic_info basic_info)) ->
  keeps f (basic_step self raw_text).
Proof.
  intros H r. unfold basic_step.
  destruct (extract_basic_info self raw_text); [apply H | reflexivity].
Qed.

Lemma keeps_merge_group {X A : Type} (f : RPDData.t -> X) extracted
  (new : dict -> except A) store :
  (forall r a, f (store r a) = f r) -> keeps f (merge_group extracted new store).
Proof.
  intros H r. unfold merge_group. destruct extracted as [v|e]; [|reflexivity].
  destruct (truthy_val v); [|reflexivity]. now apply keeps_assign.
Qed.

(** A group whose list cannot be built leaves the record as it was. *)
Lemma merge_group_raises {A : Type} v (new : dict -> except A) store r e :
  truthy_val v = true -> build_all new v = Raise e ->
  merge_group (Ok v) new store r = (r, Some e).
Proof. intros T B. unfold merge_group, assign. now rewrite T, B. Qed.

(** What the steps before the validation leave untouched. *)
Lemma basic_step_keeps self raw_text r :
  let r' := fst (basic_step self raw_text r) in
  lecture_themes r' = lecture_themes r /\
  lab_examples r' = lab_examples r /\
  literature_references r' = literature_references r /\
  extraction_confidence r' = extraction_confidence r /\
  extraction_errors r' = extraction_errors r.
Proof.
  cbv zeta. repeat split;
    apply (keeps_basic_step _ self raw_text); intros;
    apply keeps_merge_basic_info; reflexivity.
Qed.

Lemma themes_step_keeps self raw_text r :
  let r' := fst (themes_step self raw_text r) in
  lab_examples r' = lab_examples r /\
  literature_references r' = literature_references r /\
  extraction_confidence r' = extraction_confidence r /\
  extraction_errors r' = extraction_errors r.
Proof.
  cbv zeta. unfold themes_step. repeat split;
    apply (keeps_merge_group _ _ new_LectureTheme set_lecture_themes); reflexivity.
Qed.

Lemma labs_step_keeps self raw_text r :
  let r' := fst (labs_step self raw_text r) in
  literature_references r' = literature_references r /\
  extraction_confidence r' = extraction_confidence r /\
  extraction_errors r' = extraction_errors r.
Proof.
  cbv zeta. unfold labs_step. repeat split;
    apply (keeps_merge_group _ _ new_LabExample set_lab_examples); reflexivity.
Qed.

Lemma then_ok a b r r1 :
  then_ a b r = (r1, None) ->
  exists r0, a r = (r0, None) /\ b r0 = (r1, None).
Proof.
  unfold then_. destruct (a r) as [r0 [e|]]; [discriminate|]. eauto.
Qed.

End BodyFacts.

Module BodyClaims.
Import Json Entities Extractor BodyFacts.
Import RPDData.

(** C2, as stated, fails: with a theme that lacks [order] next to a
    well-formed one, no theme at all, no lab and no reference is kept and the
    record is not validated. *)
Lemma malformed_item_is_not_skipped_alone :
  ~ skips_only_malformed_items
      (decoded_groups [good_theme; theme_without_order] [good_lab] [good_reference])
      some_document.
Proof.
  intros H.
  destruct (H (U "some text") _ _ _ eq_refl eq_refl eq_refl eq_refl)
    as (rpd & E & T & _).
  vm_compute in E. injection E as <-. vm_compute in T. discriminate.
Qed.

(** C2, amended. When an item of the themes, labs or literature group cannot
    be built, the error is caught by the handler around the whole body and its
    message is appended to [extraction_errors]; the list of that group is not
    assigned, the groups after it are not extracted and the record is returned
    without validation, its [extraction_confidence] unset. *)
Theorem failed_item_ends_extraction
  (self : methods) (parsed_document : dict) (raw_text : pystr) :
  raw_text_of parsed_document = PyStr raw_text ->
  strip raw_text <> [] ->
  (forall r items e,
     basic_step self raw_text initial = (r, None) ->
     extract_lecture_themes self raw_text = Ok items ->
     truthy_val items = true ->
     build_all new_LectureTheme items = Raise e ->
     exists rpd_data,
       extract_rpd_data_with self parsed_document = Ok rpd_data /\
       extraction_errors rpd_data = [exn_msg e] /\
       extraction_confidence rpd_data = None /\
       lecture_themes rpd_data = [] /\
       lab_examples rpd_data = [] /\
       literature_references rpd_data = []) /\
  (forall r items e,
     then_ (basic_step self raw_text) (themes_step self raw_text) initial
       = (r, None) ->
     extract_lab_examples self raw_text = Ok items ->
     truthy_val items = true ->
     build_all new_LabExample items = Raise e ->
     exists rpd_data,
       extract_rpd_data_with self parsed_document = Ok rpd_data /\
       extraction_errors rpd_data = [exn_msg e] /\
       extraction_confidence rpd_data = None /\
       lecture_themes rpd_data = lecture_themes r /\
       lab_examples rpd_data = [] /\
       literature_references rpd_data = []) /\
  (forall r items e,
     then_ (basic_step self raw_text)
       (then_ (themes_step self raw_text) (labs_step self raw_text)) initial
       = (r, None) ->
     extract_literature self raw_text = Ok items ->
     truthy_val items = true ->
     build_all new_LiteratureReference items = Raise e ->
     exists rpd_data,
       extract_rpd_data_with self parsed_document = Ok rpd_data /\
       extraction_errors rpd_data = [exn_msg e] /\
       extraction_confidence rpd_data = None /\
       lecture_themes rpd_data = lecture_themes r /\
       lab_examples rpd_data = lab_examples r /\
       literature_references rpd_data = []).
Proof.
  intros Hdoc Htext.
  assert (Run : forall r e,
    extract_body self raw_text initial = (r, Some e) ->
    extract_rpd_data_with self parsed_document = Ok (append_error r (exn_msg e))).
  { intros r e B. unfold extract_rpd_data_with. rewrite Hdoc.
    destruct (strip raw_text); [congruence|]. cbn [truthy negb]. now rewrite B. }
  split; [|split].
  - intros r items e B X T F.
    exists (append_error r (exn_msg e)).
    destruct (basic_step_keeps self raw_text initial) as (K1 & K2 & K3 & K4 & K5).
    rewrite B in *. cbn [fst] in *.
    split; [|cbn; rewrite K1, K2, K3, K4, K5; repeat split; reflexivity].
    apply Run. unfold extract_body, then_ at 1. rewrite B.
    unfold then_ at 1, themes_step. rewrite X.
    now rewrite (merge_group_raises items new_LectureTheme _ r e T F).
  - intros r items e B X T F.
    exists (append_error r (exn_msg e)).
    destruct (then_ok _ _ _ _ B) as (r0 & B0 & B1).
    destruct (basic_step_keeps self raw_text initial) as (_ & K2 & K3 & K4 & K5).
    destruct (themes_step_keeps self raw_text r0) as (L2 & L3 & L4 & L5).
    rewrite B0 in *. rewrite B1 in *. cbn [fst] in *.
    split; [|cbn; rewrite L2, L3, L4, L5, K2, K3, K4, K5; repeat split; reflexivity].
    apply Run. unfold extract_body, then_ at 1. rewrite B0.
    unfold then_ at 1. rewrite B1.
    unfold then_ at 1, labs_step. rewrite X.
    now rewrite (merge_group_raises items new_LabExample _ r e T F).
  - intros r items e B X T F.
    exists (append_error r (exn_msg e)).
    destruct (then_ok _ _ _ _ B) as (r0 & B0 & B').
    destruct (then_ok _ _ _ _ B') as (r1 & B1 & B2).
    destruct (basic_step_keeps self raw_text initial) as (_ & _ & K3 & K4 & K5).
    destruct (themes_step_keeps self raw_text r0) as (_ & L3 & L4 & L5).
    destruct (labs_step_keeps self raw_text r1) as (M3 & M4 & M5).
    rewrite B0 in *. rewrite B1 in *. rewrite B2 in *. cbn [fst] in *.
    split; [|cbn; rewrite M3, M4, M5, L3, L4, L5, K3, K4, K5;
             repeat split; reflexivity].
    apply Run. unfold extract_body, then_ at 1. rewrite B0.
    unfold then_ at 1. rewrite B1.
    unfold then_ at 1. rewrite B2.
    unfold then_ at 1, literature_step. rewrite X.
    now rewrite (merge_group_raises items new_LiteratureReference _ r e T F).
Qed.

Lemma failed_item_ends_extraction_witness :
  (exists rpd_data,
     extract_rpd_data_with
       (decoded_groups [good_theme; theme_without_order] [good_lab] [good_reference])
       some_document = Ok rpd_data /\
     extraction_errors rpd_data = [exn_msg missing_order] /\
     extraction_confidence rpd_data = None /\
     lecture_themes rpd_data = [] /\
     lab_examples rpd_data = [] /\
     literature_references rpd_data = []) /\
  (exists rpd_data,
     extract_rpd_data_with
       (decoded_groups [good_theme] [good_lab; lab_without_description] [good_reference])
       some_document = Ok rpd_data /\
     extraction_errors rpd_data = [exn_msg missing_description] /\
     extraction_confidence rpd_data = None /\
     List.length (lecture_themes rpd_data) = 1%nat /\
     lab_examples rpd_data = [] /\
     literature_references rpd_data = []) /\
  (exists rpd_data,
     extract_rpd_data_with
       (decoded_groups [good_theme] [good_lab] [reference_without_title; good_reference])
       some_document = Ok rpd_data /\
     extraction_errors rpd_data = [exn_msg missing_title] /\
     extraction_confidence rpd_data = None /\
     List.length (lecture_themes rpd_data) = 1%nat /\
     List.length (lab_examples rpd_data) = 1%nat /\
     literature_references rpd_data = []).
Proof.
  assert (Htext : strip (U "some text") <> []) by (vm_compute; discriminate).
  split; [|split].
  - destruct (failed_item_ends_extraction
                (decoded_groups [good_theme; theme_without_order] [good_lab]
                   [good_reference])
                some_document (U "some text") eq_refl Htext) as (T & _ & _).
    exact (T initial (dicts [good_theme; theme_without_order]) missing_order
             eq_refl eq_refl eq_refl eq_refl).
  - destruct (failed_item_ends_extraction
                (decoded_groups [good_theme] [good_lab; lab_without_description]
                   [good_reference])
                some_document (U "some text") eq_refl Htext) as (_ & L & _).
    destruct (L _ (dicts [good_lab; lab_without_description]) missing_description
                eq_refl eq_refl eq_refl eq_refl)
      as (rpd & E & Er & C & Th & La & Li).
    exists rpd. rewrite Th. repeat split; assumption || reflexivity.
  - destruct (failed_item_ends_extraction
                (decoded_groups [good_theme] [good_lab]
                   [reference_without_title; good_reference])
                some_document (U "some text") eq_refl Htext) as (_ & _ & R).
    destruct (R _ (dicts [reference_without_title; good_reference]) missing_title
                eq_refl eq_refl eq_refl eq_refl)
      as (rpd & E & Er & C & Th & La & Li).
    exists rpd. rewrite Th, La. repeat split; assumption || reflexivity.
Defined.

End BodyClaims.


Module LiteratureClaims.
Import Json Re ReFacts CaptureFacts Fallback FallbackFacts StrFacts.


Lemma notin_run c g :
  Forall (fun x => test (NotIn [c]) x = true) g -> ~ In c g.
Proof.
  intros F Hin. rewrite Forall_forall in F. specialize (F c Hin).
  cbn in F. now rewrite N.eqb_refl in F.
Qed.

Lemma contains_false s c : ~ In c s -> contains s c = false.
Proof.
  intros H. destruct (contains s c) eqn:E; [|reflexivity].
  apply contains_In in E. contradiction.
Qed.

Lemma split_once_first_period s :
  In 46 s ->
  exists before after,
    s = before ++ 46 :: after /\ ~ In 46 before /\
    split_once 46 s = [before; after].
Proof.
  induction s as [|c s IH]; intros Hin; [destruct Hin|].
  cbn [split_once]. destruct (N.eqb_spec c 46) as [->|Hne].
  - exists [], s. repeat split. intros [].
  - destruct Hin as [E|Hin]; [congruence|].
    destruct (IH Hin) as (b & a & -> & Hb & ->).
    exists (c :: b), a. repeat split. intros [E|K]; [congruence | contradiction].
Qed.



End LiteratureClaims.


Module RoundTrip.
Import Json.

(** *** Strings *)

Lemma hex_digit_value d : d < 16 -> hex_value (hex_digit d) = Some d.
Proof.
  intros H.
  assert (C : d = 0 \/ d = 1 \/ d = 2 \/ d = 3 \/ d = 4 \/ d = 5 \/ d = 6 \/ d = 7
              \/ d = 8 \/ d = 9 \/ d = 10 \/ d = 11 \/ d = 12 \/ d = 13 \/ d = 14
              \/ d = 15) by lia.
  repeat (destruct C as [->|C]; [reflexivity|]). subst. reflexivity.
Qed.

Lemma nibbles n :
  n < 65536 ->
  ((n / 4096 * 16 + (n / 256) mod 16) * 16 + (n / 16) mod 16) * 16 + n mod 16 = n
  /\ n / 4096 < 16.
Proof.
  intros H.
  assert (E1 : n / 256 = n / 16 / 16) by (rewrite N.Div0.div_div; reflexivity).
  assert (E2 : n / 4096 = n / 16 / 16 / 16)
    by (rewrite !N.Div0.div_div; reflexivity).
  rewrite E2, E1.
  set (a := n / 16). set (b := a / 16).
  pose proof (N.div_mod n 16 ltac:(lia)) as H0. fold a in H0.
  pose proof (N.div_mod a 16 ltac:(lia)) as H1. fold b in H1.
  pose proof (N.div_mod b 16 ltac:(lia)) as H2.
  pose proof (N.mod_lt n 16 ltac:(lia)).
  pose proof (N.mod_lt a 16 ltac:(lia)).
  pose proof (N.mod_lt b 16 ltac:(lia)).
  generalize dependent (n mod 16). generalize dependent (a mod 16).
  generalize dependent (b mod 16). generalize dependent (b / 16).
  intros. clearbody a b. clear E1 E2. lia.
Qed.

Lemma hex4_u_escape n :
  n < 65536 ->
  hex4 (hex_digit (n / 4096)) (hex_digit ((n / 256) mod 16))
       (hex_digit ((n / 16) mod 16)) (hex_digit (n mod 16)) = Some n.
Proof.
  intros H. destruct (nibbles n H) as [E L]. unfold hex4.
  rewrite !hex_digit_value by (assumption || (apply N.mod_lt; lia)).
  now rewrite E.
Qed.

(** A character that is written as it is. *)
Lemma scanstring_plain c t acc :
  c <> 34 -> c <> 92 -> 32 <= c ->
  scanstring (c :: t) acc = scanstring t (c :: acc).
Proof.
  intros H1 H2 H3. cbn [scanstring].
  destruct (N.eqb_spec c 34); [contradiction|].
  destruct (N.eqb_spec c 92); [contradiction|].
  destruct (N.ltb_spec c 32); [lia | reflexivity].
Qed.

(** A two-character escape. *)
Lemma scanstring_short e ch t acc :
  e <> 117 -> unescape e = Some ch ->
  scanstring (92 :: e :: t) acc = scanstring t (ch :: acc).
Proof.
  intros H1 H2. cbn [scanstring]. change (92 =? 34) with false.
  change (92 =? 92) with true. cbv iota.
  destruct (N.eqb_spec e 117); [contradiction|]. now rewrite H2.
Qed.

(** A [\u] escape of a code point that is not a high surrogate. *)
Lemma scanstring_u n t acc :
  n < 65536 -> (n < 55296 \/ 56319 < n) ->
  scanstring (u_escape n ++ t) acc = scanstring t (n :: acc).
Proof.
  intros H1 H2. unfold u_escape. cbn [app scanstring].
  change (92 =? 34) with false. change (92 =? 92) with true.
  change (117 =? 117) with true. cbv iota.
  rewrite (hex4_u_escape n H1).
  destruct (N.leb_spec 55296 n); cbn [andb]; [|reflexivity].
  destruct (N.leb_spec n 56319); [lia | reflexivity].
Qed.

(** The pair of escapes of a code point above the basic plane. *)
Lemma scanstring_pair c t acc :
  65536 <= c -> c < 1114112 ->
  scanstring
    (u_escape (55296 + (c - 65536) / 1024)
       ++ u_escape (56320 + (c - 65536) mod 1024) ++ t) acc
  = scanstring t (c :: acc).
Proof.
  intros H1 H2.
  assert (Q : (c - 65536) / 1024 < 1024)
    by (apply N.Div0.div_lt_upper_bound; lia).
  assert (M : (c - 65536) mod 1024 < 1024) by (apply N.mod_lt; lia).
  assert (D : c - 65536 = 1024 * ((c - 65536) / 1024) + (c - 65536) mod 1024)
    by (apply N.div_mod; lia).
  revert Q M D.
  generalize ((c - 65536) / 1024), ((c - 65536) mod 1024). intros q m Q M D.
  set (hi := 55296 + q). set (lo := 56320 + m).
  assert (Hhi : hi < 65536) by (subst hi; lia).
  assert (Hlo : lo < 65536) by (subst lo; lia).
  unfold u_escape at 1. cbn [app scanstring].
  change (92 =? 34) with false. change (92 =? 92) with true.
  change (117 =? 117) with true. cbv iota.
  rewrite (hex4_u_escape hi Hhi).
  destruct (N.leb_spec 55296 hi); [|subst hi lo; lia].
  destruct (N.leb_spec hi 56319); [|subst hi lo; lia].
  cbn [andb]. unfold u_escape. cbn [app].
  change (92 =? 92) with true. change (117 =? 117) with true. cbn [andb].
  rewrite (hex4_u_escape lo Hlo).
  destruct (N.leb_spec 56320 lo); [|subst hi lo; lia].
  destruct (N.leb_spec lo 57343); [|subst hi lo; lia].
  cbn [andb]. f_equal. f_equal. subst hi lo. lia.
Qed.

Lemma scanstring_escape_char c t acc :
  scalar c = true ->
  scanstring (escape_char c ++ t) acc = scanstring t (c :: acc).
Proof.
  intros S. unfold escape_char.
  destruct (N.eqb_spec c 34) as [->|N1]; [reflexivity|].
  destruct (N.eqb_spec c 92) as [->|N2]; [reflexivity|].
  destruct (N.eqb_spec c 10) as [->|N3]; [reflexivity|].
  destruct (N.eqb_spec c 13) as [->|N4]; [reflexivity|].
  destruct (N.eqb_spec c 9) as [->|N5]; [reflexivity|].
  destruct (N.eqb_spec c 12) as [->|N6]; [reflexivity|].
  destruct (N.eqb_spec c 8) as [->|N7]; [reflexivity|].
  destruct (N.leb_spec 32 c) as [L|L]; cbn [andb].
  - destruct (N.leb_spec c 126) as [L'|L'].
    + now apply scanstring_plain.
    + destruct (N.ltb_spec c 65536) as [B|B].
      * apply scanstring_u; [assumption|].
        unfold scalar in S. apply orb_prop in S. destruct S as [S|S].
        -- apply N.ltb_lt in S. now left.
        -- apply andb_prop in S. destruct S as [S _]. apply N.leb_le in S.
           right. lia.
      * rewrite <- app_assoc. apply scanstring_pair; [assumption|].
        unfold scalar in S. apply orb_prop in S. destruct S as [S|S].
        -- apply N.ltb_lt in S. lia.
        -- apply andb_prop in S. destruct S as [_ S]. now apply N.ltb_lt in S.
  - destruct (N.ltb_spec c 65536) as [B|B]; [|lia].
    apply scanstring_u; [assumption | left; lia].
Qed.

(** The decoder reads back what the encoder wrote of a string. *)
Lemma scanstring_escaped s : forall rest acc,
  forallb scalar s = true ->
  scanstring (flat_map escape_char s ++ 34 :: rest) acc = Some (rev acc ++ s, rest).
Proof.
  induction s as [|c s IH]; intros rest acc S.
  - cbn. now rewrite app_nil_r.
  - cbn [forallb] in S. apply andb_prop in S. destruct S as [Sc Ss].
    cbn [flat_map]. rewrite <- app_assoc.
    rewrite scanstring_escape_char by assumption.
    rewrite IH by assumption. cbn [rev]. now rewrite <- app_assoc.
Qed.

(** *** Integers *)

Lemma ends_token_cases rest :
  ends_token rest = true ->
  rest = [] \/ exists c t, rest = c :: t /\ (c = 44 \/ c = 93 \/ c = 125).
Proof.
  destruct rest as [|c t]; [now left|]. cbn. intros H. right. exists c, t.
  split; [reflexivity|].
  destruct (N.eqb_spec c 44); [now left|].
  destruct (N.eqb_spec c 93); [right; now left|].
  destruct (N.eqb_spec c 125); [right; now right | discriminate].
Qed.

Lemma U_cons a s :
  N_of_ascii a < 128 -> U (String a s) = N_of_ascii a :: U s.
Proof.
  intros H. unfold U. cbn [list_ascii_of_string map utf8_decode].
  destruct (N.ltb_spec (N_of_ascii a) 128); [reflexivity | lia].
Qed.

(** The digits of a decimal number, as [str] writes them. *)
Lemma digits_step d :
  match d with
  | Decimal.Nil => digits d = []
  | Decimal.D0 l => digits d = 48 :: digits l
  | Decimal.D1 l => digits d = 49 :: digits l
  | Decimal.D2 l => digits d = 50 :: digits l
  | Decimal.D3 l => digits d = 51 :: digits l
  | Decimal.D4 l => digits d = 52 :: digits l
  | Decimal.D5 l => digits d = 53 :: digits l
  | Decimal.D6 l => digits d = 54 :: digits l
  | Decimal.D7 l => digits d = 55 :: digits l
  | Decimal.D8 l => digits d = 56 :: digits l
  | Decimal.D9 l => digits d = 57 :: digits l
  end.
Proof.
  destruct d; unfold digits; cbn [NilEmpty.string_of_uint];
    try reflexivity; now rewrite U_cons.
Qed.

Lemma digits_all d : forallb isdigit (digits d) = true.
Proof.
  induction d; [reflexivity|..];
    (match goal with |- context [digits (?D d)] =>
       pose proof (digits_step (D d)) as E'; cbv beta iota in E'; rewrite E' end;
     cbn [forallb]; now rewrite IHd).
Qed.

Lemma int_of_digits_acc d : forall acc,
  fold_left (fun a c => (a * 10 + Z.of_N (c - 48))%Z) (digits d) (Z.pos acc)
  = Z.pos (Pos.of_uint_acc d acc).
Proof.
  induction d; intros acc; [reflexivity|..];
    (match goal with |- context [digits (?D d)] =>
       pose proof (digits_step (D d)) as E'; cbv beta iota in E'; rewrite E' end;
     cbn [fold_left Pos.of_uint_acc]; rewrite <- IHd; f_equal; lia).
Qed.

Lemma int_of_digits_uint d : int_of_digits (digits d) = Z.of_N (Pos.of_uint d).
Proof.
  unfold int_of_digits.
  induction d; [reflexivity|..];
    (match goal with |- context [digits (?D d)] =>
       pose proof (digits_step (D d)) as E'; cbv beta iota in E'; rewrite E' end;
     cbn [fold_left Pos.of_uint];
     first [ exact IHd
           | etransitivity; [apply (int_of_digits_acc d) | reflexivity] ]).
Qed.

Lemma nzhead_no_zero d l : Decimal.nzhead d <> Decimal.D0 l.
Proof. induction d; cbn; try discriminate. exact IHd. Qed.

(** The decimal writing of a positive number starts with a digit other than
    zero. *)
Lemma digits_to_uint p :
  exists c t, digits (Pos.to_uint p) = c :: t /\ isdigit c = true /\ c <> 48.
Proof.
  pose proof (DecimalPos.Unsigned.to_of (Pos.to_uint p)) as E.
  rewrite DecimalPos.Unsigned.of_to in E. cbn [N.to_uint] in E.
  pose proof (DecimalPos.Unsigned.to_uint_nonnil p) as NN.
  pose proof (DecimalPos.Unsigned.to_uint_nonzero p) as NZ.
  destruct (Pos.to_uint p) as [|l|l|l|l|l|l|l|l|l|l] eqn:D; [congruence|..];
    try (match goal with |- context [digits (?D l)] =>
           pose proof (digits_step (D l)) as E'; cbv beta iota in E';
           rewrite E' end;
         do 2 eexists; split; [reflexivity|]; split; [reflexivity | discriminate]).
  exfalso. unfold Decimal.unorm in E. cbn [Decimal.nzhead] in E.
  destruct (Decimal.nzhead l) eqn:Hd; try discriminate.
  - injection E as E. subst l. now apply NZ.
  - injection E as E. subst l. now apply (nzhead_no_zero u u).
Qed.

Lemma span_digits_run ds rest :
  forallb isdigit ds = true ->
  match rest with [] => True | c :: _ => isdigit c = false end ->
  span_digits (ds ++ rest) = (ds, rest).
Proof.
  intros D R. induction ds as [|c ds IH]; cbn [app].
  - destruct rest as [|c t]; [reflexivity|]. cbn [span_digits]. now rewrite R.
  - cbn [forallb] in D. apply andb_prop in D. destruct D as [Dc Ds].
    cbn [span_digits]. rewrite Dc, IH by assumption. reflexivity.
Qed.

Lemma after_number rest :
  ends_token rest = true ->
  match rest with [] => True | c :: _ => isdigit c = false end /\
  scan_frac rest = None /\ scan_exp rest = None.
Proof.
  intros H. destruct (ends_token_cases rest H) as [->|(c & t & -> & C)].
  - repeat split.
  - destruct C as [-> | [-> | ->]]; repeat split; destruct t; reflexivity.
Qed.

Lemma str_of_Z_cases z :
  (z = 0%Z /\ str_of_Z z = [48]) \/
  (exists p, z = Z.pos p /\ str_of_Z z = digits (Pos.to_uint p)) \/
  (exists p, z = Z.neg p /\ str_of_Z z = 45 :: digits (Pos.to_uint p)).
Proof.
  destruct z as [|p|p].
  - left. split; reflexivity.
  - right. left. exists p. split; reflexivity.
  - right. right. exists p. split; [reflexivity|].
    unfold str_of_Z, digits. cbn [Z.to_int NilEmpty.string_of_int].
    now rewrite U_cons.
Qed.

Lemma int_of_digits_to_uint p :
  int_of_digits (digits (Pos.to_uint p)) = Z.pos p.
Proof. rewrite int_of_digits_uint, DecimalPos.Unsigned.of_to. reflexivity. Qed.

(** The decoder reads back the number the encoder wrote. *)
Lemma scan_number_int z rest :
  ends_token rest = true ->
  scan_number (str_of_Z z ++ rest) = Some (PyInt z, rest).
Proof.
  intros H. destruct (after_number rest H) as (R & F & X).
  destruct (str_of_Z_cases z) as [[-> ->]|[(p & -> & ->)|(p & -> & ->)]].
  - unfold scan_number. cbn [app]. change (48 =? 45) with false. cbv iota.
    change (isdigit 48) with true. change (48 =? 48) with true. cbv iota beta.
    now rewrite F, X.
  - destruct (digits_to_uint p) as (c & t & E & Dc & Nc).
    pose proof (digits_all (Pos.to_uint p)) as A.
    pose proof (int_of_digits_to_uint p) as V.
    pose proof (span_digits_run (digits (Pos.to_uint p)) rest A R) as Sp.
    rewrite E in *. unfold scan_number. cbn [app] in *.
    assert ((c =? 45) = false) as ->.
    { apply N.eqb_neq. intros ->. discriminate Dc. }
    rewrite Dc. destruct (N.eqb_spec c 48); [contradiction|].
    rewrite Sp, F, X, V. reflexivity.
  - destruct (digits_to_uint p) as (c & t & E & Dc & Nc).
    pose proof (digits_all (Pos.to_uint p)) as A.
    pose proof (int_of_digits_to_uint p) as V.
    pose proof (span_digits_run (digits (Pos.to_uint p)) rest A R) as Sp.
    rewrite E in *. unfold scan_number. cbn [app] in *.
    change (45 =? 45) with true. cbv iota.
    rewrite Dc. destruct (N.eqb_spec c 48); [contradiction|].
    rewrite Sp, F, X, V. reflexivity.
Qed.

(** *** Values *)

(** Induction over values, lists and dicts included. *)
Lemma pyval_nested_ind (P : pyval -> Prop) :
  P PyNone -> (forall b, P (PyBool b)) -> (forall z, P (PyInt z)) ->
  (forall q, P (PyFloat q)) -> (forall x, P (PyNonFinite x)) ->
  (forall s, P (PyStr s)) ->
  (forall items, Forall P items -> P (PyList items)) ->
  (forall items, Forall (fun kv => P (snd kv)) items -> P (PyDict items)) ->
  forall v, P v.
Proof.
  intros HN HB HI HF HX HS HL HD.
  fix IH 1. intros [| b | z | q | x | s | items | items].
  - exact HN.
  - apply HB.
  - apply HI.
  - apply HF.
  - apply HX.
  - apply HS.
  - apply HL. induction items as [|v items IHitems]; constructor.
    + apply IH.
    + exact IHitems.
  - apply HD. induction items as [|[k v] items IHitems]; constructor.
    + apply IH.
    + exact IHitems.
Qed.

Lemma skip_ws_head c t : json_ws c = false -> skip_ws (c :: t) = c :: t.
Proof. intros H. cbn [skip_ws]. now rewrite H. Qed.

(** An encoding starts with a character that is neither white space nor a
    closing bracket. *)
Lemma dumps_head v :
  plain v = true ->
  exists c t, dumps v = c :: t /\ json_ws c = false /\ c <> 93 /\ c <> 125.
Proof.
  destruct v as [| [|] | z | q | x | s | items | items]; cbn [plain];
    intros H; try discriminate;
    try (do 2 eexists; split; [reflexivity|]; repeat split; discriminate).
  cbn [dumps].
  destruct (str_of_Z_cases z) as [[-> ->]|[(p & -> & ->)|(p & -> & ->)]].
  - do 2 eexists; split; [reflexivity|]; repeat split; discriminate.
  - destruct (digits_to_uint p) as (c & t & -> & Dc & _).
    exists c, t. split; [reflexivity|].
    unfold isdigit in Dc. apply andb_prop in Dc. destruct Dc as [L1 L2].
    apply N.leb_le in L1, L2.
    repeat split; [|lia|lia].
    unfold json_ws.
    destruct (N.eqb_spec c 32); [lia|]. destruct (N.eqb_spec c 9); [lia|].
    destruct (N.eqb_spec c 10); [lia|]. destruct (N.eqb_spec c 13); [lia|].
    reflexivity.
  - do 2 eexists; split; [reflexivity|]; repeat split; discriminate.
Qed.

Lemma skip_ws_dumps v rest :
  plain v = true -> skip_ws (dumps v ++ rest) = dumps v ++ rest.
Proof.
  intros H. destruct (dumps_head v H) as (c & t & -> & W & _).
  now apply skip_ws_head.
Qed.

(** A scalar is read back with any fuel. *)
Lemma scan_once_int fuel z rest :
  ends_token rest = true ->
  scan_once (S fuel) (str_of_Z z ++ rest) = Some (PyInt z, rest).
Proof.
  intros H. pose proof (scan_number_int z rest H) as N.
  assert (Hd : exists c t, str_of_Z z = c :: t /\ (isdigit c = true \/ c = 45)).
  { destruct (str_of_Z_cases z) as [[-> ->]|[(p & -> & ->)|(p & -> & ->)]].
    - exists 48, []. split; [reflexivity | now left].
    - destruct (digits_to_uint p) as (c & t & -> & Dc & _).
      exists c, t. split; [reflexivity | now left].
    - do 2 eexists. split; [reflexivity | now right]. }
  destruct Hd as (c & t & E & C). rewrite E in *. cbn [app] in *.
  cbn [scan_once].
  assert (c <> 34 /\ c <> 123 /\ c <> 91 /\ c <> 110 /\ c <> 116 /\ c <> 102)
    as (N1 & N2 & N3 & N4 & N5 & N6).
  { destruct C as [Dc| ->]; [|repeat split; discriminate].
    unfold isdigit in Dc. apply andb_prop in Dc. destruct Dc as [L1 L2].
    apply N.leb_le in L1, L2. repeat split; lia. }
  destruct (N.eqb_spec c 34); [contradiction|].
  destruct (N.eqb_spec c 123); [contradiction|].
  destruct (N.eqb_spec c 91); [contradiction|].
  change (U "null") with [110; 117; 108; 108].
  change (U "true") with [116; 114; 117; 101].
  change (U "false") with [102; 97; 108; 115; 101].
  cbn [strip_prefix].
  destruct (N.eqb_spec 110 c); [congruence|].
  destruct (N.eqb_spec 116 c); [congruence|].
  destruct (N.eqb_spec 102 c); [congruence|].
  now rewrite N.
Qed.

Lemma scan_once_str fuel s rest :
  forallb scalar s = true ->
  scan_once (S fuel) (encode_string s ++ rest) = Some (PyStr s, rest).
Proof.
  intros H. unfold encode_string. cbn [app scan_once].
  change (34 =? 34) with true. cbv iota.
  rewrite <- app_assoc. cbn [app].
  now rewrite (scanstring_escaped s rest [] H).
Qed.

Lemma join_more sep a b l : join sep (a :: b :: l) = a ++ sep ++ join sep (b :: l).
Proof. reflexivity. Qed.

Lemma parse_elements_join xs :
  Forall reads_back xs -> xs <> [] ->
  forall fuel acc rest,
    (S (items_need xs) <= fuel)%nat ->
    parse_elements fuel (join (U ", ") (map dumps xs) ++ 93 :: rest) acc
    = Some (PyList (acc ++ xs), rest).
Proof.
  induction 1 as [|x xs [Px Rx] F IH]; intros NE fuel acc rest Hf; [congruence|].
  destruct fuel as [|fuel]; [lia|]. cbn [items_need fold_right] in Hf.
  fold (items_need xs) in Hf.
  destruct xs as [|y ys].
  - cbn [map join parse_elements].
    rewrite Rx by (reflexivity || lia).
    cbn [skip_ws]. change (json_ws 93) with false. cbv iota.
    change (93 =? 93) with true. reflexivity.
  - cbn [map]. rewrite join_more. rewrite <- !app_assoc.
    change (U ", ") with [44; 32]. cbn [app].
    cbn [parse_elements].
    rewrite Rx by (reflexivity || lia).
    cbn [skip_ws]. change (json_ws 44) with false. cbv iota.
    change (44 =? 93) with false. change (44 =? 44) with true. cbv iota.
    cbn [skip_ws]. change (json_ws 32) with true. cbv iota.
    assert (Py : plain y = true) by (inversion F as [|? ? [Py _] _]; exact Py).
    change (join [44; 32] (dumps y :: map dumps ys))
      with (join (U ", ") (map dumps (y :: ys))).
    assert (Hs : forall tail,
      skip_ws (join (U ", ") (map dumps (y :: ys)) ++ tail)
      = join (U ", ") (map dumps (y :: ys)) ++ tail).
    { intros tail. destruct (dumps_head y Py) as (c & t & E & W & _).
      cbn [map]. destruct ys as [|z zs].
      - cbn [map join]. rewrite E. now apply skip_ws_head.
      - cbn [map]. rewrite join_more, E. cbn [app]. now apply skip_ws_head. }
    rewrite Hs. rewrite IH by (discriminate || lia).
    now rewrite <- app_assoc.
Qed.

Lemma parse_members_join items :
  Forall (fun kv => forallb scalar (fst kv) = true /\ reads_back (snd kv)) items ->
  items <> [] ->
  forall fuel acc rest,
    (S (members_need items) <= fuel)%nat ->
    parse_members fuel
      (join (U ", ")
         (map (fun kv => encode_string (fst kv) ++ U ": " ++ dumps (snd kv)) items)
       ++ 125 :: rest) acc
    = Some (PyDict (dict_of_pairs (acc ++ items)), rest).
Proof.
  induction 1 as [|[k x] items [Sk [Px Rx]] F IH]; intros NE fuel acc rest Hf;
    [congruence|].
  destruct fuel as [|fuel]; [lia|]. cbn [members_need fold_right snd] in Hf.
  fold (members_need items) in Hf. cbn [fst snd] in *.
  assert (Entry : forall tail f,
    (need x <= f)%nat -> ends_token tail = true ->
    forall acc',
    parse_members (S f)
      ((encode_string k ++ U ": " ++ dumps x) ++ tail) acc'
    = match skip_ws tail with
      | c :: r =>
          if c =? 125 then Some (PyDict (dict_of_pairs (acc' ++ [(k, x)])), r)
          else if c =? 44 then parse_members f (skip_ws r) (acc' ++ [(k, x)])
          else None
      | [] => None
      end).
  { intros tail f Hn Ht acc'. unfold encode_string.
    change (U ": ") with [58; 32]. rewrite <- !app_assoc. cbn [app].
    cbn [parse_members]. change (34 =? 34) with true. cbv iota.
    rewrite (scanstring_escaped k _ [] Sk). cbn [rev app].
    cbn [skip_ws]. change (json_ws 58) with false. cbv iota.
    change (58 =? 58) with true. cbv iota.
    cbn [skip_ws]. change (json_ws 32) with true. cbv iota.
    rewrite (skip_ws_dumps x tail Px). now rewrite (Rx f tail Hn Ht). }
  destruct items as [|[k2 y] ys].
  - cbn [map join fst snd]. rewrite Entry by (reflexivity || lia).
    cbn [skip_ws]. change (json_ws 125) with false. cbv iota.
    change (125 =? 125) with true. reflexivity.
  - specialize (IH ltac:(discriminate)). cbn [map fst snd] in IH |- *.
    rewrite join_more. rewrite <- app_assoc.
    rewrite Entry by (reflexivity || lia).
    change (U ", ") with [44; 32] in IH |- *. cbn [app].
    cbn [skip_ws]. change (json_ws 44) with false. cbv iota.
    change (44 =? 125) with false. change (44 =? 44) with true. cbv iota.
    cbn [skip_ws]. change (json_ws 32) with true. cbv iota.
    match goal with
    | |- context [skip_ws (join ?sep ?l ++ ?tail)] =>
        assert (Hs : skip_ws (join sep l ++ tail) = join sep l ++ tail)
    end.
    { destruct ys as [|z zs].
      - cbn [map join]. unfold encode_string. cbn [app]. reflexivity.
      - cbn [map]. rewrite join_more. unfold encode_string. cbn [app]. reflexivity. }
    rewrite Hs.
    cbn [members_need fold_right snd] in Hf |- *.
    rewrite IH by (cbn [members_need fold_right snd]; lia).
    now rewrite <- app_assoc.
Qed.

(** *** Dicts with distinct keys *)

Lemma eqb_sym (a b : list N) : eqb a b = eqb b a.
Proof.
  destruct (eqb a b) eqn:E1, (eqb b a) eqn:E2; try reflexivity.
  - apply PyFacts.eqb_eq in E1. subst. now rewrite PyFacts.eqb_refl in E2.
  - apply PyFacts.eqb_eq in E2. subst. now rewrite PyFacts.eqb_refl in E1.
Qed.

Lemma set_fresh d k v :
  existsb (fun kv => eqb (fst kv) k) d = false -> set d k v = d ++ [(k, v)].
Proof.
  induction d as [|[k' v'] d IH]; [reflexivity|].
  cbn [existsb fst set app]. intros H. apply orb_false_elim in H.
  destruct H as [H1 H2]. rewrite H1. now rewrite IH.
Qed.

Lemma keys_distinct_fresh d k v rest :
  keys_distinct (d ++ (k, v) :: rest) = true ->
  existsb (fun kv => eqb (fst kv) k) d = false.
Proof.
  induction d as [|[k' v'] d IH]; [reflexivity|].
  cbn [app keys_distinct existsb fst]. intros H. apply andb_prop in H.
  destruct H as [H1 H2]. rewrite (IH H2), orb_false_r.
  apply negb_true_iff in H1. rewrite existsb_app in H1.
  apply orb_false_elim in H1. destruct H1 as [_ H1].
  cbn [existsb fst] in H1. apply orb_false_elim in H1.
  rewrite eqb_sym. exact (proj1 H1).
Qed.

Lemma fold_set_distinct items : forall d,
  keys_distinct (d ++ items) = true ->
  fold_left (fun d kv => set d (fst kv) (snd kv)) items d = d ++ items.
Proof.
  induction items as [|[k v] items IH]; intros d H.
  - now rewrite app_nil_r.
  - cbn [fold_left fst snd].
    rewrite (set_fresh d k v (keys_distinct_fresh d k v items H)).
    rewrite IH; rewrite <- app_assoc; [reflexivity | exact H].
Qed.

Lemma dict_of_pairs_distinct items :
  keys_distinct items = true -> dict_of_pairs items = items.
Proof. intros H. unfold dict_of_pairs. now rewrite fold_set_distinct. Qed.

(** *** Every plain value is read back *)

Lemma open_list fuel text :
  (exists c t, text = c :: t /\ json_ws c = false /\ c <> 93) ->
  scan_once (S fuel) (91 :: text) = parse_elements fuel text [].
Proof.
  intros (c & t & -> & W & Hne). cbn [scan_once].
  change (91 =? 34) with false. change (91 =? 123) with false.
  change (91 =? 91) with true. cbv iota.
  rewrite (skip_ws_head c t W).
  now destruct (N.eqb_spec c 93); [contradiction|].
Qed.

Lemma open_dict fuel text :
  (exists c t, text = c :: t /\ json_ws c = false /\ c <> 125) ->
  scan_once (S fuel) (123 :: text) = parse_members fuel text [].
Proof.
  intros (c & t & -> & W & Hne). cbn [scan_once].
  change (123 =? 34) with false. change (123 =? 123) with true. cbv iota.
  rewrite (skip_ws_head c t W).
  now destruct (N.eqb_spec c 125); [contradiction|].
Qed.

Lemma plain_reads_back v : plain v = true -> reads_back v.
Proof.
  induction v as [| b | z | q | x | s | items IH | items IH]
    using pyval_nested_ind; intros Pv; try discriminate;
    (split; [exact Pv|]); intros fuel rest Hf He;
    (destruct fuel as [|fuel]; [cbn in Hf; lia|]).
  - reflexivity.
  - destruct b; reflexivity.
  - now apply scan_once_int.
  - now apply scan_once_str.
  - cbn [plain] in Pv. cbn [need] in Hf. fold (items_need items) in Hf.
    cbn [dumps]. rewrite <- !app_assoc. cbn [app].
    destruct items as [|x xs].
    + cbn [map join app scan_once].
      change (91 =? 34) with false. change (91 =? 123) with false.
      change (91 =? 91) with true. cbv iota.
      cbn [skip_ws]. change (json_ws 93) with false. cbv iota.
      change (93 =? 93) with true. reflexivity.
    + assert (R : Forall reads_back (x :: xs)).
      { rewrite forallb_forall in Pv. rewrite Forall_forall in IH |- *.
        intros y Hy. apply IH; [exact Hy | now apply Pv]. }
      rewrite open_list.
      * rewrite (parse_elements_join (x :: xs) R) by (discriminate || lia).
        reflexivity.
      * cbn [forallb] in Pv. apply andb_prop in Pv. destruct Pv as [Px _].
        destruct (dumps_head x Px) as (c & t & E & W & N93 & _).
        destruct xs as [|y ys].
        -- cbn [map join]. rewrite E. cbn [app]. now exists c, (t ++ 93 :: rest).
        -- cbn [map]. rewrite join_more, E. cbn [app]. now eexists c, _.
  - cbn [plain] in Pv. apply andb_prop in Pv. destruct Pv as [Pv Kd].
    cbn [need] in Hf. fold (members_need items) in Hf.
    cbn [dumps]. rewrite <- !app_assoc. cbn [app].
    destruct items as [|[k x] xs].
    + cbn [map join app scan_once].
      change (123 =? 34) with false. change (123 =? 123) with true. cbv iota.
      cbn [skip_ws]. change (json_ws 125) with false. cbv iota.
      change (125 =? 125) with true. reflexivity.
    + assert (R : Forall (fun kv => forallb scalar (fst kv) = true
                                    /\ reads_back (snd kv)) ((k, x) :: xs)).
      { rewrite forallb_forall in Pv. rewrite Forall_forall in IH |- *.
        intros kv Hkv. specialize (Pv kv Hkv). apply andb_prop in Pv.
        destruct Pv as [Pk Px]. split; [exact Pk | now apply IH]. }
      rewrite open_dict.
      * rewrite (parse_members_join _ R) by (discriminate || lia).
        cbn [app]. now rewrite (dict_of_pairs_distinct _ Kd).
      * destruct xs as [|y ys].
        -- cbn [map join fst]. unfold encode_string. cbn [app].
           now eexists 34, _.
        -- cbn [map fst]. rewrite join_more. unfold encode_string. cbn [app].
           now eexists 34, _.
Qed.

(** *** The fuel of [loads] is enough *)

Lemma str_of_Z_length z : (1 <= List.length (str_of_Z z))%nat.
Proof.
  destruct (str_of_Z_cases z) as [[-> ->]|[(p & -> & ->)|(p & -> & ->)]].
  - cbn. lia.
  - destruct (digits_to_uint p) as (c & t & -> & _). cbn. lia.
  - cbn. lia.
Qed.

Lemma need_length v :
  (1 <= need v)%nat /\ (need v <= List.length (dumps v))%nat.
Proof.
  induction v as [| b | z | q | x | s | items IH | items IH]
    using pyval_nested_ind.
  - cbn. lia.
  - destruct b; cbn; lia.
  - cbn [need dumps]. pose proof (str_of_Z_length z). lia.
  - cbn [need dumps]. unfold float_repr. rewrite !length_app.
    cbn [List.length]. lia.
  - destruct x; cbn; lia.
  - cbn [need dumps]. unfold encode_string. rewrite !length_app. cbn. lia.
  - cbn [need dumps]. rewrite !length_app. cbn [List.length].
    enough ((fold_right (fun x n => Nat.max (need x) (S n)) O items
             <= List.length (join (U ", ") (map dumps items)))%nat) by lia.
    induction IH as [|x xs [Hx1 Hx2] F IHF]; [cbn; lia|].
    destruct xs as [|y ys].
    + cbn. lia.
    + cbn [map]. rewrite join_more. cbn [fold_right] in IHF |- *.
      cbn [map] in IHF. rewrite !length_app. cbn [List.length]. lia.
  - cbn [need dumps]. rewrite !length_app. cbn [List.length].
    enough ((fold_right (fun kv n => Nat.max (need (snd kv)) (S n)) O items
             <= List.length
                  (join (U ", ")
                     (map (fun kv => encode_string (fst kv) ++ U ": "
                                     ++ dumps (snd kv)) items)))%nat) by lia.
    induction IH as [|[k x] xs [Hx1 Hx2] F IHF]; [cbn; lia|].
    cbn [snd fst] in *.
    destruct xs as [|y ys].
    + cbn [map join fold_right fst snd]. rewrite !length_app. lia.
    + cbn [map fst snd]. rewrite join_more. cbn [fold_right snd] in IHF |- *.
      cbn [map] in IHF. rewrite !length_app. cbn [List.length]. lia.
Qed.

Lemma plain_finite v : plain v = true -> finite v = true.
Proof.
  induction v as [| b | z | q | x | s | items IH | items IH]
    using pyval_nested_ind; cbn [plain finite]; intros Pv;
    try reflexivity; try discriminate.
  - rewrite forallb_forall in Pv |- *. rewrite Forall_forall in IH.
    intros y Hy. apply IH; [exact Hy | now apply Pv].
  - apply andb_prop in Pv. destruct Pv as [Pv _].
    rewrite forallb_forall in Pv |- *. rewrite Forall_forall in IH.
    intros kv Hkv. specialize (Pv kv Hkv). apply andb_prop in Pv.
    apply IH; [exact Hkv | exact (proj2 Pv)].
Qed.

(** Every value made of [None], booleans, integers, strings of scalar
    values, lists, and dicts with distinct keys is given back by the decoder
    from its encoding. *)
Theorem plain_json_safe v : plain v = true -> json_safe v.
Proof.
  intros Pv. split; [now apply plain_finite|].
  unfold loads.
  pose proof (skip_ws_dumps v [] Pv) as W. rewrite app_nil_r in W. rewrite W.
  destruct (plain_reads_back v Pv) as [_ R].
  specialize (R (S (S (List.length (dumps v)))) []).
  rewrite app_nil_r in R. rewrite R; [reflexivity | | reflexivity].
  pose proof (need_length v). lia.
Qed.

End RoundTrip.


(** ** The extractor as a whole *)

Module ExtractionFacts.
Import Json Entities Fallback ResponseParser Extractor Validator.
Import FallbackFacts ExtractorFacts BodyFacts ValidatorFacts.
Import RPDData.

Lemma raises_KeyError_inv {A : Type} (x : except A) :
  raises_KeyError x = true -> exists e, x = Raise e /\ exn_cls e = KeyError.
Proof.
  destruct x as [a|e]; [discriminate|]. cbn. intros H. exists e.
  split; [reflexivity|]. now destruct (exn_cls e).
Qed.

(** What a content group leaves in the record when its items build. *)
Lemma merge_group_result {A : Type} (new : dict -> except A) store
  (P : dict -> Prop) ds r :
  (forall d, P d -> exists a, new d = Ok a) -> Forall P ds ->
  exists xs,
    build_all new (dicts ds) = Ok xs /\
    merge_group (Ok (dicts ds)) new store r
      = (match ds with [] => r | _ => store r xs end, None).
Proof.
  intros Hnew Hds.
  destruct (build_all_ok new P ds Hnew Hds) as [xs Hxs]. exists xs.
  split; [exact Hxs|]. unfold merge_group, assign.
  destruct ds as [|d ds']; [reflexivity|].
  unfold dicts in *. cbn [map truthy_val] in *. now rewrite Hxs.
Qed.

Lemma build_all_nil {A : Type} (new : dict -> except A) xs :
  build_all new (dicts []) = Ok xs -> xs = [].
Proof. cbn. congruence. Qed.

(** The record the body of [extract_rpd_data] hands to the validator. *)
Lemma extract_body_result mm raw_text :
  exists a b c n themes labs refs ts ls rs,
    _extract_basic_info_fallback raw_text
      = Ok [(U "subject_title", PyStr a); (U "academic_degree", PyStr b);
            (U "profession", PyStr c); (U "total_hours", PyInt n)] /\
    _extract_lecture_themes_fallback raw_text = Ok themes /\
    _extract_lab_examples_fallback raw_text = Ok labs /\
    _extract_literature_fallback raw_text = Ok refs /\
    build_all new_LectureTheme (dicts themes) = Ok ts /\
    build_all new_LabExample (dicts labs) = Ok ls /\
    build_all new_LiteratureReference (dicts refs) = Ok rs /\
    extract_body (RPDDataExtractor mm) raw_text initial
      = (_validate_rpd_data
           (mk a b c n None None None None ts ls rs None []), None).
Proof.
  unfold extract_body, then_, basic_step, themes_step, labs_step,
    literature_step, validation_step.
  cbn [RPDDataExtractor extract_basic_info extract_lecture_themes
       extract_lab_examples extract_literature validate_rpd_data].
  rewrite extract_basic_info_is_fallback.
  destruct (basic_info_fallback_ok raw_text) as (d & Hd & (a & b & c & n & ->)).
  rewrite Hd. cbn [bind].
  rewrite extract_lecture_themes_is_fallback.
  destruct (lecture_themes_fallback_ok raw_text) as (themes & Ht & St).
  rewrite Ht. cbn [bind].
  rewrite extract_lab_examples_is_fallback.
  destruct (lab_examples_fallback_ok raw_text) as (labs & Hl & Sl).
  rewrite Hl. cbn [bind].
  rewrite extract_literature_is_fallback.
  destruct (literature_fallback_ok raw_text) as (refs & Hr & Sr).
  rewrite Hr. cbn [bind].
  exists a, b, c, n, themes, labs, refs.
  match goal with
  | |- context [merge_basic_info ?i ?r] =>
      change (merge_basic_info i r)
        with (mk a b c n None None None None [] [] [] None [], @None exn)
  end.
  cbv iota.
  match goal with
  | |- context [merge_group _ new_LectureTheme ?store ?r] =>
      destruct (merge_group_result new_LectureTheme store theme_shape themes r
                  new_LectureTheme_ok St) as (ts & Bt & ->)
  end.
  match goal with
  | |- context [merge_group _ new_LabExample ?store ?r] =>
      destruct (merge_group_result new_LabExample store lab_shape labs r
                  new_LabExample_ok Sl) as (ls & Bl & ->)
  end.
  match goal with
  | |- context [merge_group _ new_LiteratureReference ?store ?r] =>
      destruct (merge_group_result new_LiteratureReference store reference_shape
                  refs r new_LiteratureReference_ok Sr) as (rs & Br & ->)
  end.
  exists ts, ls, rs. repeat (split; [reflexivity || assumption|]).
  destruct themes; [apply build_all_nil in Bt; subst ts|];
  (destruct labs; [apply build_all_nil in Bl; subst ls|]);
  (destruct refs; [apply build_all_nil in Br; subst rs|]); reflexivity.
Qed.

End ExtractionFacts.

Module ExtractionProperties.
Import Json Entities Fallback ResponseParser Extractor Validator.
Import FallbackFacts ExtractorFacts BodyFacts ValidatorFacts ExtractionFacts.
Import RPDData.

(** X1. [extract_rpd_data] raises exactly for a document without text: with
    [raw_text] missing, empty or white space only it raises [ValueError]
    with the message [No text content found in document]; with any other
    text it returns a record, whatever the model manager; with a [raw_text]
    that is not a string it raises [AttributeError]. *)
Theorem extract_raises_exactly_without_text
  (model_manager : option ModelManager) (parsed_document : dict) :
  match raw_text_of parsed_document with
  | PyStr raw_text =>
      if truthy (strip raw_text)
      then exists rpd_data,
             extract_rpd_data model_manager parsed_document = Ok rpd_data
      else extract_rpd_data model_manager parsed_document = Raise no_text_content
  | _ =>
      exists e, extract_rpd_data model_manager parsed_document = Raise e /\
                exn_cls e = AttributeError
  end /\
  (get parsed_document (U "raw_text") = None ->
   extract_rpd_data model_manager parsed_document = Raise no_text_content).
Proof.
  split.
  - unfold extract_rpd_data, extract_rpd_data_with.
    destruct (raw_text_of parsed_document) as [| | | | |raw_text| |];
      try (eexists; split; reflexivity).
    destruct (truthy (strip raw_text)); [|reflexivity]. cbn [negb].
    destruct (extract_body_validates model_manager raw_text initial) as [r ->].
    eexists. reflexivity.
  - intros H. unfold extract_rpd_data, extract_rpd_data_with, raw_text_of.
    rewrite H. reflexivity.
Qed.

(** X2. Rendering any of the four prompt templates raises [KeyError],
    whatever the text: the braces of the JSON example open a replacement
    field that is not [text].  So each of the four group extractors returns
    what its rule-based fallback returns, with or without a model manager. *)
Theorem group_extractors_always_fall_back
  (model_manager : option ModelManager) (text : pystr) :
  (forall template document,
     In template [Prompts.basic_info; Prompts.lecture_themes;
                  Prompts.lab_examples; Prompts.literature] ->
     exists e, Prompts.format template document = Raise e /\
               exn_cls e = KeyError) /\
  _extract_basic_info model_manager text
    = (d <- _extract_basic_info_fallback text ;; Ok (Some (PyDict d))) /\
  _extract_lecture_themes model_manager text
    = (l <- _extract_lecture_themes_fallback text ;; Ok (dicts l)) /\
  _extract_lab_examples model_manager text
    = (l <- _extract_lab_examples_fallback text ;; Ok (dicts l)) /\
  _extract_literature model_manager text
    = (l <- _extract_literature_fallback text ;; Ok (dicts l)).
Proof.
  split; [|repeat split].
  - intros template document H. apply raises_KeyError_inv.
    cbn [In] in H.
    destruct H as [<- | [<- | [<- | [<- | []]]]]; vm_compute; reflexivity.
  - apply extract_basic_info_is_fallback.
  - apply extract_lecture_themes_is_fallback.
  - apply extract_lab_examples_is_fallback.
  - apply extract_literature_is_fallback.
Qed.





End ExtractionProperties.

(** ** The validator *)

Module ValidatorProperties.
Import Validator PyFacts ValidatorFacts.
Import RPDData.

Lemma positive_hours th :
  Qle_bool (LectureTheme.hours th) 0 = false <-> (0 < LectureTheme.hours th)%Q.
Proof.
  split; intros H.
  - destruct (Qlt_le_dec 0 (LectureTheme.hours th)) as [L|L]; [exact L|].
    apply Qle_bool_iff in L. congruence.
  - destruct (Qle_bool (LectureTheme.hours th) 0) eqn:E; [|reflexivity].
    apply Qle_bool_iff in E. exfalso. apply (Qlt_not_le _ _ H E).
Qed.

Lemma validate_themes_length ths : forall i,
  List.length (fst (validate_themes i ths)) = List.length ths.
Proof.
  intros i. rewrite validate_themes_fst. apply length_map.
Qed.


(** The warnings of the loop over the themes, theme by theme. *)
Lemma theme_warnings_at ths : forall i k th,
  nth_error ths k = Some th ->
  nth_error (fst (validate_themes i ths)) k = Some (fst (validate_theme (i + k) th)) /\
  incl (snd (validate_theme (i + k) th)) (snd (validate_themes i ths)).
Proof.
  induction ths as [|t ths IH]; intros i k th H; [destruct k; discriminate|].
  rewrite validate_themes_fst_cons, validate_themes_snd_cons.
  destruct k as [|k]; cbn [nth_error] in H |- *.
  - injection H as ->. rewrite Nat.add_0_r. split; [reflexivity|].
    apply incl_appl, incl_refl.
  - destruct (IH (S i) k th H) as [H1 H2].
    replace (i + S k)%nat with (S i + k)%nat by lia.
    split; [exact H1|]. now apply incl_appr.
Qed.

(** X6. A lecture theme whose hours are zero or negative leaves validation
    with 2.0 hours, its title, order and description as they were, and the
    warning [Lecture theme N hours corrected to 2.0] with its position
    counted from one; a theme whose title is blank keeps it and gets the
    warning [Lecture theme N has empty title]. *)
Theorem theme_is_corrected_with_numbered_warning
  (r : RPDData.t) (k : nat) (th : LectureTheme.t) :
  nth_error (lecture_themes r) k = Some th ->
  exists th',
    nth_error (lecture_themes (_validate_rpd_data r)) k = Some th' /\
    LectureTheme.title th' = LectureTheme.title th /\
    LectureTheme.order th' = LectureTheme.order th /\
    LectureTheme.description th' = LectureTheme.description th /\
    ((LectureTheme.hours th <= 0)%Q ->
     LectureTheme.hours th' = 2%Q /\
     In (msg_theme_hours (k + 1)) (extraction_errors (_validate_rpd_data r))) /\
    (strip (LectureTheme.title th) = [] ->
     In (msg_theme_title (k + 1)) (extraction_errors (_validate_rpd_data r))).
Proof.
  intros H. destruct (theme_warnings_at _ 0 k th H) as [H1 H2].
  cbn [Nat.add] in H1, H2.
  exists (fst (validate_theme k th)).
  cbn [lecture_themes extraction_errors _validate_rpd_data].
  split; [exact H1|].
  pose proof (validate_theme_frame k th) as (F1 & F2 & F3 & F4).
  repeat (split; [assumption|]).
  assert (W : incl (snd (validate_theme k th))
                   (extraction_errors r ++ warnings r)).
  { unfold warnings. now apply incl_appr, incl_appr. }
  split.
  - intros Hh. apply Qle_bool_iff in Hh. split.
    + rewrite F4, Hh. reflexivity.
    + apply W. unfold validate_theme. rewrite Hh. cbn [snd].
      apply in_or_app. right. now left.
  - intros Ht. apply W. unfold validate_theme. rewrite Ht. cbn [truthy].
    destruct (Qle_bool (LectureTheme.hours th) 0); cbn [snd app]; now left.
Qed.

Lemma theme_is_corrected_with_numbered_warning_witness :
  exists th',
    nth_error (lecture_themes (_validate_rpd_data valid_record)) 1 = Some th' /\
    LectureTheme.title th' = [] /\
    LectureTheme.order th' = 2%Z /\
    LectureTheme.description th' = None /\
    ((-1 # 1 <= 0)%Q ->
     LectureTheme.hours th' = 2%Q /\
     In (msg_theme_hours 2) (extraction_errors (_validate_rpd_data valid_record))) /\
    (strip [] = [] ->
     In (msg_theme_title 2) (extraction_errors (_validate_rpd_data valid_record))).
Proof.
  apply (theme_is_corrected_with_numbered_warning valid_record 1
           (LectureTheme.mk [] 2 (-1 # 1) None)).
  reflexivity.
Defined.

Lemma theme_warnings_nil ths : forall i,
  snd (validate_themes i ths) = [] <->
  Forall (fun th => strip (LectureTheme.title th) <> [] /\
                    (0 < LectureTheme.hours th)%Q) ths.
Proof.
  induction ths as [|th ths IH]; intros i.
  - split; [constructor | reflexivity].
  - rewrite validate_themes_snd_cons. split.
    + intros H. apply app_eq_nil in H. destruct H as [H1 H2].
      constructor; [|now apply (IH (S i))].
      unfold validate_theme in H1.
      destruct (Qle_bool (LectureTheme.hours th) 0) eqn:Eh; cbn [snd] in H1.
      * apply app_eq_nil in H1. destruct H1 as [_ H1]. discriminate.
      * split; [|now apply positive_hours].
        destruct (strip (LectureTheme.title th)); [discriminate | congruence].
    + intros H. inversion H as [|? ? [Ht Hh] Hrest]; subst.
      apply (IH (S i)) in Hrest. rewrite Hrest, app_nil_r.
      apply positive_hours in Hh. unfold validate_theme. rewrite Hh.
      cbn [snd]. destruct (strip (LectureTheme.title th)); [congruence|reflexivity].
Qed.

Lemma field_warnings_nil r :
  field_warnings r = [] <->
  strip (subject_title r) <> [] /\ strip (profession r) <> [] /\
  (0 < total_hours r)%Z /\ In (academic_degree r) valid_degrees.
Proof.
  unfold field_warnings. rewrite <- mem_In.
  destruct (strip (subject_title r)) as [|c1 t1];
    destruct (strip (profession r)) as [|c2 t2];
    destruct (Z.leb_spec (total_hours r) 0);
    destruct (mem (academic_degree r) valid_degrees);
    cbn [truthy app]; split;
    try discriminate; try (intros (A & B & C & D); congruence || lia).
  intros _. repeat split; (discriminate || lia).
Qed.

Lemma warnings_nil r :
  warnings r = [] <->
  strip (subject_title r) <> [] /\ strip (profession r) <> [] /\
  (0 < total_hours r)%Z /\ In (academic_degree r) valid_degrees /\
  Forall (fun th => strip (LectureTheme.title th) <> [] /\
                    (0 < LectureTheme.hours th)%Q) (lecture_themes r).
Proof.
  unfold warnings. split.
  - intros H. apply app_eq_nil in H. destruct H as [H1 H2].
    apply field_warnings_nil in H1. apply theme_warnings_nil in H2. tauto.
  - intros (A & B & C & D & E).
    assert (F : field_warnings r = []) by (apply field_warnings_nil; tauto).
    apply (theme_warnings_nil _ 0) in E. now rewrite F, E.
Qed.

Lemma confidence_of_warned ws : ws <> [] -> (confidence_of ws <= 9 # 10)%Q.
Proof.
  intros H. rewrite confidence_of_formula. apply Q.max_lub; [discriminate|].
  destruct ws as [|w ws]; [congruence|]. cbn [List.length].
  set (n := List.length ws).
  assert (1 <= inject_Z (Z.of_nat (S n)))%Q.
  { change 1%Q with (inject_Z 1). rewrite <- Zle_Qle. lia. }
  lra.
Qed.


End ValidatorProperties.

(** ** The response parser *)

Module ParserProperties.
Import Json ResponseParser StrFacts ParserClaims.

(** X8. The prose around the braces plays no part: when the text before the
    first opening brace holds no opening brace and the text after the last
    closing brace holds no closing brace, the parser returns what it returns
    on the braces and what stands between them, be it valid JSON or not. *)
Theorem parse_ignores_surrounding_prose (before after body : pystr) :
  ~ In 123%N before -> ~ In 125%N after ->
  _parse_json_response (before ++ (123%N :: body ++ [125%N]) ++ after)
  = _parse_json_response (123%N :: body ++ [125%N]).
Proof.
  intros Hb Ha. rewrite (parse_slices_object before after body Hb Ha).
  pose proof (parse_slices_object [] [] body (fun H => H) (fun H => H)) as E.
  cbn [app] in E. rewrite app_nil_r in E. now rewrite E.
Qed.

Lemma parse_ignores_surrounding_prose_witness :
  _parse_json_response
    (U "Here is " ++ (123%N :: U "not: json" ++ [125%N]) ++ U ", sorry")
  = _parse_json_response (123%N :: U "not: json" ++ [125%N]).
Proof.
  apply (parse_ignores_surrounding_prose (U "Here is ") (U ", sorry")
           (U "not: json")).
  - vm_compute. intuition discriminate.
  - vm_compute. intuition discriminate.
Defined.

End ParserProperties.

(** ** The data classes *)

Module EntityProperties.
Import Json Entities PyFacts.

Lemma unexpected_none fields kw :
  unexpected fields kw = None -> Forall (fun kv => In (fst kv) fields) kw.
Proof.
  induction kw as [|[k v] kw IH]; [constructor|]. cbn [unexpected].
  destruct (mem k fields) eqn:E; [|discriminate].
  intros H. constructor; [now apply mem_In | now apply IH].
Qed.

Lemma check_keywords_inv cls fields kw :
  match check_keywords cls fields kw with
  | Ok _ => Forall (fun kv => In (fst kv) fields) kw
  | Raise e => exn_cls e = TypeError
  end.
Proof.
  unfold check_keywords. destruct (unexpected fields kw) eqn:E; [reflexivity|].
  now apply unexpected_none.
Qed.

Lemma required_inv {A : Type} cls (cast : pyval -> option A) kw k :
  match required cls cast kw k with
  | Ok a => exists v, get kw k = Some v /\ cast v = Some a
  | Raise e => exn_cls e = TypeError
  end.
Proof.
  unfold required. destruct (get kw k) as [v|]; [|reflexivity].
  destruct (cast v) as [a|] eqn:E; [|reflexivity]. now exists v.
Qed.

Lemma optional_inv {A : Type} cls (cast : pyval -> option A) kw k :
  match optional cls cast kw k with
  | Ok _ => True
  | Raise e => exn_cls e = TypeError
  end.
Proof.
  unfold optional. destruct (get kw k) as [v|]; [|exact I].
  destruct v; try exact I; cbn; destruct (cast _); (exact I || reflexivity).
Qed.

Lemma defaulted_inv {A : Type} cls (cast : pyval -> option A) kw k d :
  match defaulted cls cast kw k d with
  | Ok _ => True
  | Raise e => exn_cls e = TypeError
  end.
Proof.
  unfold defaulted. destruct (get kw k) as [v|]; [|exact I].
  destruct (cast v); (exact I || reflexivity).
Qed.

Lemma as_str_inv v s : as_str v = Some s -> v = PyStr s.
Proof. destruct v; cbn; congruence. Qed.

Lemma as_int_inv v z : as_int v = Some z -> v = PyInt z.
Proof. destruct v; cbn; congruence. Qed.

Ltac step_required :=
  match goal with
  | |- context [bind (required ?c ?cast ?kw ?k) _] =>
      let H := fresh "R" in
      pose proof (required_inv c cast kw k) as H;
      destruct (required c cast kw k); cbn [bind];
      [| split; [intros ? ?; discriminate | intros ? E; injection E as <-; exact H]]
  | |- context [bind (optional ?c ?cast ?kw ?k) _] =>
      let H := fresh "O" in
      pose proof (optional_inv c cast kw k) as H;
      destruct (optional c cast kw k); cbn [bind];
      [| split; [intros ? ?; discriminate | intros ? E; injection E as <-; exact H]]
  | |- context [bind (defaulted ?c ?cast ?kw ?k ?d) _] =>
      let H := fresh "D" in
      pose proof (defaulted_inv c cast kw k d) as H;
      destruct (defaulted c cast kw k d); cbn [bind];
      [| split; [intros ? ?; discriminate | intros ? E; injection E as <-; exact H]]
  | |- context [bind (check_keywords ?c ?f ?kw) _] =>
      let H := fresh "K" in
      pose proof (check_keywords_inv c f kw) as H;
      destruct (check_keywords c f kw); cbn [bind];
      [| split; [intros ? ?; discriminate | intros ? E; injection E as <-; exact H]]
  end.


End EntityProperties.

(** ** The rule-based fallbacks *)

Module StripFacts.
Import StrFacts.

Lemma lstrip_head s :
  lstrip s = [] \/ exists c t, lstrip s = c :: t /\ isspace c = false.
Proof.
  induction s as [|c s IH]; [now left|]. cbn [lstrip].
  destruct (isspace c) eqn:E; [exact IH|]. right. now exists c, s.
Qed.

Lemma lstrip_nonspace c t : isspace c = false -> lstrip (c :: t) = c :: t.
Proof. intros H. cbn [lstrip]. now rewrite H. Qed.

Lemma lstrip_idem s : lstrip (lstrip s) = lstrip s.
Proof.
  destruct (lstrip_head s) as [->|(c & t & -> & H)]; [reflexivity|].
  now apply lstrip_nonspace.
Qed.

Lemma rstrip_idem s : rstrip (rstrip s) = rstrip s.
Proof. unfold rstrip. now rewrite rev_involutive, lstrip_idem. Qed.

Lemma rstrip_nonspace c t : isspace c = false -> rstrip (c :: t) = c :: rstrip t.
Proof. intros H. exact (rstrip_app_nonspace [] c t H). Qed.

(** [strip] is idempotent. *)
Lemma strip_idem s : strip (strip s) = strip s.
Proof.
  unfold strip.
  destruct (lstrip_head s) as [->|(c & t & -> & H)]; [reflexivity|].
  rewrite (rstrip_nonspace c t H), (lstrip_nonspace c _ H).
  rewrite (rstrip_nonspace c _ H). now rewrite rstrip_idem.
Qed.

Lemma strip_incl s : incl (strip s) s.
Proof.
  unfold strip. intros x Hx. apply lstrip_incl. now apply rstrip_incl in Hx.
Qed.

Lemma strip_single_line c g :
  ~ In c g -> ~ In c (strip g).
Proof. intros H Hin. apply H. now apply strip_incl. Qed.

Lemma int_of_digits_nonneg ds : (0 <= int_of_digits ds)%Z.
Proof.
  unfold int_of_digits.
  assert (G : forall acc, (0 <= acc)%Z ->
            (0 <= fold_left (fun acc c => (acc * 10 + Z.of_N (c - 48))%Z) ds acc)%Z).
  { induction ds as [|d ds IH]; intros acc H; [exact H|].
    cbn [fold_left]. apply IH. lia. }
  now apply G.
Qed.

End StripFacts.

Module FallbackProperties.
Import Json Entities Re ReFacts CaptureFacts Fallback FallbackFacts StrFacts.
Import StripFacts Validator PyFacts.

Lemma notin_class_run cs c g :
  In c cs -> Forall (fun x => test (NotIn cs) x = true) g -> ~ In c g.
Proof.
  intros Hc F Hin. rewrite Forall_forall in F. specialize (F c Hin).
  cbn [test] in F. apply negb_true_iff in F.
  assert (existsb (N.eqb c) cs = true)
    by (apply existsb_exists; exists c; split; [exact Hc | apply N.eqb_refl]).
  congruence.
Qed.

Lemma single_line_strip cs g :
  In 10 cs -> Forall (fun x => test (NotIn cs) x = true) g -> single_line (strip g).
Proof.
  intros Hc F. split; [apply strip_idem|].
  apply strip_single_line. now apply (notin_class_run cs).
Qed.

Lemma single_line_nil : single_line [].
Proof. split; [reflexivity | intros []]. Qed.

(** The group a pattern of a list found in the text: one line. *)
Lemma found_line patterns cs text m :
  forallb (fun p => sets 1 p && group_reads 1 (NotIn cs) p) patterns = true ->
  In 10 cs ->
  first_search patterns text = Some m ->
  exists g, group_str m 1 = Ok g /\ single_line (strip g).
Proof.
  intros Hp Hc E. destruct (first_search_from _ _ _ E) as (p & Hin & F).
  pose proof (proj1 (forallb_forall _ _) Hp p Hin) as S.
  apply andb_prop in S. destruct S as [S R].
  destruct (from_match_group p m 1 F S) as [g G].
  destruct (from_match_group_run p m 1 _ g F R G) as [_ Hrun].
  exists g. unfold group_str. rewrite G. split; [reflexivity|].
  now apply (single_line_strip cs).
Qed.

Lemma title_patterns_line :
  forallb (fun p => sets 1 p && group_reads 1 (NotIn (U "«»" ++ [34; 10])) p)
          title_patterns = true.
Proof. reflexivity. Qed.

Lemma profession_patterns_line :
  forallb (fun p => sets 1 p && group_reads 1 (NotIn [10]) p)
          profession_patterns = true.
Proof. reflexivity. Qed.


Lemma lecture_patterns_line :
  forallb (group_reads 2 (NotIn [10])) lecture_patterns = true.
Proof. reflexivity. Qed.

Lemma lab_patterns_line :
  forallb (group_reads 2 (NotIn [10])) lab_patterns = true.
Proof. reflexivity. Qed.

Lemma group_line p m n g :
  from_match p m -> group_reads n (NotIn [10]) p = true -> group m n = Some g ->
  single_line (strip g).
Proof.
  intros F R G. destruct (from_match_group_run p m n _ g F R G) as [_ Hrun].
  apply (single_line_strip [10]); [now left | exact Hrun].
Qed.

Lemma inject_Z_nonneg z : (0 <= z)%Z -> (0 <= inject_Z z)%Q.
Proof. intros H. change 0%Q with (inject_Z 0). now rewrite <- Zle_Qle. Qed.


(** X12. The fallback for the lab examples never raises.  Every item it
    returns holds a title, stripped and on one line, a description equal to
    the title and 2.0 estimated hours, and builds a [LabExample] with these
    values and no related theme. *)
Theorem lab_examples_fallback_is_well_formed (text : pystr) :
  exists items,
    _extract_lab_examples_fallback text = Ok items /\
    Forall (fun item =>
              exists title,
                item = lab_of title /\ single_line title /\
                new_LabExample item
                  = Ok (LabExample.mk title title None (Some 2%Q)))
           items.
Proof.
  apply collect_ok. intros p m Hp F.
  pose proof (proj1 (forallb_forall _ _) lab_patterns_shape p Hp) as S.
  pose proof (proj1 (forallb_forall _ _) lab_patterns_line p Hp) as L.
  unfold lab_of_match.
  destruct (from_match_group p m 2 F S) as [g2 G2].
  unfold group_str. rewrite G2. cbn [bind].
  eexists; split; [reflexivity|]. constructor; [|constructor].
  exists (strip g2). split; [reflexivity|].
  split; [exact (group_line p m 2 g2 F L G2) | reflexivity].
Qed.

Lemma four_digits_group m g :
  from_match four_digits m -> group m 1 = Some g ->
  exists a b c d,
    g = [a; b; c; d] /\ isdigit a = true /\ isdigit b = true /\
    isdigit c = true /\ isdigit d = true.
Proof.
  intros (s & M & _) G. unfold group in G. unfold four_digits, seq in M.
  cbn [fold_right] in M. inversion M as [| | | | | | |n r s0 cs s' cs' M1| |]; subst.
  match goal with H : _ = m_caps m |- _ => rewrite <- H in G end.
  cbn [get_cap Nat.eqb] in G. injection G as <-.
  inversion M1 as [| |? ? ? ? s1 cs1 ? ? A R1| | | | | | |]; subst.
  inversion A; subst.
  inversion R1 as [| |? ? ? ? s2 cs2 ? ? B R2| | | | | | |]; subst.
  inversion B; subst.
  inversion R2 as [| |? ? ? ? s3 cs3 ? ? C R3| | | | | | |]; subst.
  inversion C; subst.
  inversion R3 as [| |? ? ? ? s4 cs4 ? ? D R4| | | | | | |]; subst.
  inversion D; subst. inversion R4; subst.
  match goal with
  | |- context [consumed (?a :: ?b :: ?c :: ?d :: ?t) ?t] =>
      exists a, b, c, d;
      change (a :: b :: c :: d :: t) with ([a; b; c; d] ++ t)
  end.
  rewrite consumed_app. cbn [test] in *. now repeat split.
Qed.

Lemma four_digits_bound a b c d :
  isdigit a = true -> isdigit b = true -> isdigit c = true -> isdigit d = true ->
  (0 <= int_of_digits [a; b; c; d] <= 9999)%Z.
Proof.
  unfold isdigit. intros Ha Hb Hc Hd.
  apply andb_prop in Ha, Hb, Hc, Hd.
  destruct Ha as [A1 A2], Hb as [B1 B2], Hc as [C1 C2], Hd as [D1 D2].
  apply N.leb_le in A1, A2, B1, B2, C1, C2, D1, D2.
  unfold int_of_digits. cbn [fold_left]. lia.
Qed.

(** What the body of the loop over the lines appends. *)
Lemma reference_of_line_well_formed line :
  exists items,
    reference_of_line line = Ok items /\
    Forall (fun item =>
              exists authors title year,
                item = reference_of authors title
                         (match year with Some n => PyInt n | None => PyNone end) /\
                strip authors = authors /\ ~ In 46 authors /\
                strip title = title /\ ~ In 47 title /\
                (forall n, year = Some n -> (0 <= n <= 9999)%Z) /\
                new_LiteratureReference item
                  = Ok (LiteratureReference.mk authors title year
                          None None None false None))
           items.
Proof.
  unfold reference_of_line.
  destruct (re_match ref_line line) as [m|] eqn:E;
    [|exists []; split; [reflexivity | constructor]].
  apply re_match_from in E.
  destruct (from_match_group ref_line m 2 E eq_refl) as [segment G2].
  destruct (from_match_group ref_line m 3 E eq_refl) as [rest G3].
  destruct (from_match_group_run ref_line m 2 (NotIn [46]) segment E eq_refl G2)
    as [N2 R2].
  destruct (from_match_group_run ref_line m 3 (NotIn [47]) rest E eq_refl G3)
    as [N3 R3].
  apply LiteratureClaims.notin_run in R2. apply LiteratureClaims.notin_run in R3.
  unfold group_str. rewrite G2, G3. cbn [bind].
  destruct rest as [|c rest]; [congruence|].
  unfold authors_and_title.
  rewrite LiteratureClaims.contains_false by (now apply strip_single_line).
  assert (Y : exists year,
    match search four_digits line with
    | Some year_match =>
        g <- group_arg year_match 1 ;; y <- py_int g ;; Ok (PyInt y)
    | None => Ok PyNone
    end = Ok (match year with Some n => PyInt n | None => PyNone end) /\
    (forall n, year = Some n -> (0 <= n <= 9999)%Z)).
  { destruct (search four_digits line) as [ym|] eqn:Y;
      [|exists None; split; [reflexivity | discriminate]].
    apply search_from_match_top in Y.
    destruct (group_int_ok four_digits ym 1 Y eq_refl eq_refl)
      as (g & Hg & Hi & _).
    rewrite Hg. cbn [bind]. rewrite Hi. cbn [bind].
    exists (Some (int_of_digits g)). split; [reflexivity|].
    intros n [= <-]. unfold group_arg in Hg.
    destruct (group ym 1) as [g'|] eqn:G; [|discriminate]. injection Hg as ->.
    destruct (four_digits_group ym g Y G) as (a & b & c' & d & -> & Ha & Hb & Hc & Hd).
    now apply four_digits_bound. }
  destruct Y as (year & -> & Py). cbn [bind].
  eexists. split; [reflexivity|]. constructor; [|constructor].
  exists (strip segment), (strip (c :: rest)), year.
  split; [reflexivity|].
  split; [apply strip_idem|]. split; [now apply strip_single_line|].
  split; [apply strip_idem|]. split; [now apply strip_single_line|].
  split; [exact Py|]. destruct year; reflexivity.
Qed.

(** X13. The fallback for the literature never raises.  Every item it
    returns holds authors, a title and a year; the authors are stripped and
    hold no period, the title is stripped and holds no slash, the year is
    absent or a number from 0 to 9999, and the item builds a
    [LiteratureReference] with these values and nothing else. *)
Theorem literature_fallback_is_well_formed (text : pystr) :
  exists items,
    _extract_literature_fallback text = Ok items /\
    Forall (fun item =>
              exists authors title year,
                item = reference_of authors title
                         (match year with Some n => PyInt n | None => PyNone end) /\
                strip authors = authors /\ ~ In 46 authors /\
                strip title = title /\ ~ In 47 title /\
                (forall n, year = Some n -> (0 <= n <= 9999)%Z) /\
                new_LiteratureReference item
                  = Ok (LiteratureReference.mk authors title year
                          None None None false None))
           items.
Proof.
  unfold _extract_literature_fallback.
  destruct (search lit_section text) as [m|] eqn:E;
    [|exists []; split; [reflexivity | constructor]].
  apply search_from_match_top in E.
  destruct (group_str_ok lit_section m 2 E eq_refl) as [g2 ->]. cbn [bind].
  match goal with
  | |- exists items, _ /\ Forall ?P items =>
      destruct (map_except_ok reference_of_line (Forall P) (kept_lines g2))
        as (per_line & -> & F)
  end.
  - intros line _. apply reference_of_line_well_formed.
  - cbn [bind]. eexists. split; [reflexivity | now apply Forall_concat].
Qed.

End FallbackProperties.


(** ** [to_dict] *)

Module ToDictProperties.
Import Json Entities Extractor ToDict.
Import RPDData.

Lemma new_LectureTheme_asdict th :
  new_LectureTheme (asdict_LectureTheme th) = Ok th.
Proof. destruct th as [t o h [d|]]; reflexivity. Qed.

Lemma new_LabExample_asdict lab :
  new_LabExample (asdict_LabExample lab) = Ok lab.
Proof. destruct lab as [t d [r|] [h|]]; reflexivity. Qed.

Lemma new_LiteratureReference_asdict ref :
  new_LiteratureReference (asdict_LiteratureReference ref) = Ok ref.
Proof.
  destruct ref as [a t [y|] [p|] [pu|] [i|] k [b|]]; reflexivity.
Qed.

Lemma build_all_asdict {A : Type} (new : dict -> except A)
  (asdict : A -> dict) xs :
  (forall x, new (asdict x) = Ok x) ->
  build_all new (PyList (map (fun x => PyDict (asdict x)) xs)) = Ok xs.
Proof.
  intros H. cbn [build_all]. induction xs as [|x xs IH]; [reflexivity|].
  cbn [map map_except]. rewrite H. cbn [bind]. rewrite IH. reflexivity.
Qed.

(** X14. What [to_dict] writes is read back by the extractor: each data
    class is built again from the dict made of it, the three lists of the
    dict give back the lists of the record through the comprehensions of
    [extract_rpd_data], and its assignments from the dict give back the
    eight basic fields. *)
Theorem to_dict_is_read_back (r : RPDData.t) :
  (forall th, new_LectureTheme (asdict_LectureTheme th) = Ok th) /\
  (forall lab, new_LabExample (asdict_LabExample lab) = Ok lab) /\
  (forall ref, new_LiteratureReference (asdict_LiteratureReference ref) = Ok ref) /\
  (exists themes labs refs,
     get (to_dict r) (U "lecture_themes") = Some themes /\
     get (to_dict r) (U "lab_examples") = Some labs /\
     get (to_dict r) (U "literature_references") = Some refs /\
     build_all new_LectureTheme themes = Ok (lecture_themes r) /\
     build_all new_LabExample labs = Ok (lab_examples r) /\
     build_all new_LiteratureReference refs = Ok (literature_references r)) /\
  merge_basic_info (Some (PyDict (to_dict r))) initial
    = (mk (subject_title r) (academic_degree r) (profession r) (total_hours r)
          (department r) (faculty r) (year r) (semester r) [] [] [] None [],
       None).
Proof.
  split; [exact new_LectureTheme_asdict|].
  split; [exact new_LabExample_asdict|].
  split; [exact new_LiteratureReference_asdict|].
  split.
  - do 3 eexists. repeat (split; [reflexivity|]).
    split; [|split];
      apply build_all_asdict;
      [exact new_LectureTheme_asdict | exact new_LabExample_asdict
       | exact new_LiteratureReference_asdict].
  - destruct r as [a b c n [d|] [f|] [y|] [s|] ts ls rs conf errs]; reflexivity.
Qed.

End ToDictProperties.

(** ** The completeness check *)

Module CompletenessProperties.
Import Json Entities Extractor ToDict Pipeline PyFacts ValidatorFacts.
Import RPDData.

Lemma count_warnings_nil {A : Type} (xs : list A) none few :
  count_warnings xs none few = [] <-> (3 <= List.length xs)%nat.
Proof.
  unfold count_warnings. destruct xs as [|x xs]; [cbn; split; [discriminate|lia]|].
  destruct (Nat.ltb_spec (List.length (x :: xs)) 3); split;
    (discriminate || lia || reflexivity).
Qed.

Lemma low_confidence_nil confidence :
  low_confidence confidence = [] <->
  (forall c, confidence = Some c -> (c == 0)%Q \/ (float_0_7 <= c)%Q).
Proof.
  unfold low_confidence. destruct confidence as [c|];
    [|split; [intros _ c; discriminate | reflexivity]].
  destruct (Qeq_bool c 0) eqn:E0; cbn [negb andb].
  - split; [|reflexivity]. intros _ c' [= <-]. left. now apply Qeq_bool_iff.
  - destruct (Qle_bool float_0_7 c) eqn:E7; cbn [negb].
    + split; [|reflexivity]. intros _ c' [= <-]. right. now apply Qle_bool_iff.
    + split; [discriminate|]. intros H. destruct (H c eq_refl) as [H0|H7].
      * apply Qeq_bool_iff in H0. congruence.
      * apply Qle_bool_iff in H7. congruence.
Qed.

(** X15. [_validate_completeness] gives no warning exactly when the title
    and the profession are not empty, the total hours are positive, there are
    at least three lecture themes and three literature references, the
    confidence is absent, zero or not below 0.7, and no extraction error is
    recorded; the lab examples play no part in the warnings. *)
Theorem complete_record_has_no_warning (r : RPDData.t) :
  warnings (_validate_completeness r) = [] <->
  subject_title r <> [] /\ profession r <> [] /\ (0 < total_hours r)%Z /\
  (3 <= List.length (lecture_themes r))%nat /\
  (3 <= List.length (literature_references r))%nat /\
  (forall c, extraction_confidence r = Some c ->
             (c == 0)%Q \/ (float_0_7 <= c)%Q) /\
  extraction_errors r = [].
Proof.
  cbn [warnings _validate_completeness]. unfold completeness_warnings.
  rewrite <- (count_warnings_nil (lecture_themes r) msg_no_lecture_themes
                msg_few_lecture_themes).
  rewrite <- (count_warnings_nil (literature_references r) msg_no_literature
                msg_few_literature).
  rewrite <- low_confidence_nil.
  destruct (subject_title r) as [|c1 t1]; destruct (profession r) as [|c2 t2];
    destruct (Z.leb_spec (total_hours r) 0) as [Hz|Hz];
    cbn [truthy app]; split;
    try discriminate; try (intros (A & B & C & D); congruence || lia).
  - intros H. apply app_eq_nil in H. destruct H as [H1 H].
    apply app_eq_nil in H. destruct H as [H2 H].
    apply app_eq_nil in H. destruct H as [H3 H].
    apply map_eq_nil in H. repeat split; (discriminate || assumption).
  - intros (_ & _ & _ & H1 & H2 & H3 & H4). now rewrite H1, H2, H3, H4.
Qed.

(** The confidence the validator sets, read by the completeness check. *)
Lemma low_confidence_validated (ws : list pystr) :
  low_confidence (Some (Validator.confidence_of ws))
  = if Nat.leb 4 (List.length ws)
    then [U "Low extraction confidence: 0."
            ++ [48 + N.of_nat (Nat.max 1 (10 - List.length ws))] ++ U "0"]
    else [].
Proof.
  destruct ws as [|w1 [|w2 [|w3 [|w4 [|w5 [|w6 [|w7 [|w8 [|w9 ws]]]]]]]]];
    try (vm_compute; reflexivity).
  set (all := w1 :: _).
  assert (L : (9 <= List.length all)%nat) by (unfold all; cbn [List.length]; lia).
  assert (C : Validator.confidence_of all = (1 # 10)%Q).
  { unfold all at 1. unfold Validator.confidence_of, Validator.py_max.
    fold all.
    assert (Q : Qle_bool (1 - inject_Z (Z.of_nat (List.length all)) * (1 # 10))
                         (1 # 10) = true).
    { apply Qle_bool_iff.
      assert (9 <= inject_Z (Z.of_nat (List.length all)))%Q.
      { change 9%Q with (inject_Z 9). rewrite <- Zle_Qle. lia. }
      lra. }
    now rewrite Q. }
  rewrite C.
  replace (Nat.leb 4 (List.length all)) with true
    by (symmetry; apply Nat.leb_le; lia).
  replace (Nat.max 1 (10 - List.length all)) with 1%nat by lia.
  vm_compute. reflexivity.
Qed.

(** X16. For a record that comes from the validator, the warnings of
    [_validate_completeness] end with one [Extraction error: ...] entry for
    every entry of [extraction_errors], in their order; just before them
    stands the low-confidence warning exactly when the validation pass gave
    four warnings or more, and it reads [Low extraction confidence: 0.60] for
    four warnings, down to [0.10] for nine or more. *)
Theorem validated_record_is_reported (r : RPDData.t) :
  exists structure,
    warnings (_validate_completeness (Validator._validate_rpd_data r))
    = structure
      ++ (if Nat.leb 4 (List.length (Validator.warnings r))
          then [U "Low extraction confidence: 0."
                  ++ [48 + N.of_nat
                             (Nat.max 1 (10 - List.length (Validator.warnings r)))]
                  ++ U "0"]
          else [])
      ++ map msg_extraction_error
             (extraction_errors r ++ Validator.warnings r) /\
    (List.length structure <= 5)%nat.
Proof.
  cbn [warnings _validate_completeness]. unfold completeness_warnings.
  cbn [extraction_confidence extraction_errors Validator._validate_rpd_data].
  rewrite low_confidence_validated.
  match goal with
  | |- exists s, ?a ++ ?b ++ ?c ++ ?d ++ ?e ++ ?rest = _ /\ _ =>
      exists (a ++ b ++ c ++ d ++ e)
  end.
  split; [now rewrite <- !app_assoc|].
  rewrite !length_app.
  assert (C : forall (A : Type) (xs : list A) none few,
            (List.length (count_warnings xs none few) <= 1)%nat).
  { intros A xs none few. unfold count_warnings. destruct xs; [cbn; lia|].
    destruct (Nat.ltb _ 3); cbn; lia. }
  match goal with
  | |- context [count_warnings ?a msg_no_lecture_themes ?f] =>
      pose proof (C _ a msg_no_lecture_themes f)
  end.
  match goal with
  | |- context [count_warnings ?a msg_no_literature ?f] =>
      pose proof (C _ a msg_no_literature f)
  end.
  destruct (truthy (subject_title _)); destruct (truthy (profession _));
    destruct (total_hours _ <=? 0)%Z; cbn [List.length]; lia.
Qed.

End CompletenessProperties.

(** ** The pipeline for one file *)

Module PipelineFacts.
Import Json Entities Extractor ToDict Pipeline PyFacts.
Import RPDData.

Lemma run_parsing_error (datetime : Type) isoformat total_seconds
  model_manager file_path (started ended : datetime) msg :
  process_rpd_file datetime isoformat total_seconds model_manager file_path
    (RPDParsingError msg) started ended
  = failed_result file_path (isoformat started) (isoformat ended)
      (total_seconds started ended) (U "RPD parsing failed: " ++ msg) PyNone.
Proof. reflexivity. Qed.

Lemma run_other_exception (datetime : Type) isoformat total_seconds
  model_manager file_path (started ended : datetime) e :
  process_rpd_file datetime isoformat total_seconds model_manager file_path
    (OtherException e) started ended
  = failed_result file_path (isoformat started) (isoformat ended)
      (total_seconds started ended)
      (U "RPD processing failed: " ++ exn_msg e) PyNone.
Proof. reflexivity. Qed.

Lemma run_extraction_raises (datetime : Type) isoformat total_seconds
  model_manager file_path (started ended : datetime) parsed_data e :
  extract_rpd_data model_manager parsed_data = Raise e ->
  process_rpd_file datetime isoformat total_seconds model_manager file_path
    (Parsed parsed_data) started ended
  = failed_result file_path (isoformat started) (isoformat ended)
      (total_seconds started ended)
      (U "RPD processing failed: " ++ exn_msg e) (PyDict parsed_data).
Proof.
  intros H. unfold process_rpd_file, process_body. rewrite H. reflexivity.
Qed.

Lemma run_extraction_returns (datetime : Type) isoformat total_seconds
  model_manager file_path (started ended : datetime) parsed_data rpd_data :
  extract_rpd_data model_manager parsed_data = Ok rpd_data ->
  process_rpd_file datetime isoformat total_seconds model_manager file_path
    (Parsed parsed_data) started ended
  = succeeded_result file_path (isoformat started) (isoformat ended)
      (total_seconds started ended) parsed_data rpd_data.
Proof.
  intros H. unfold process_rpd_file, process_body. rewrite H. reflexivity.
Qed.

End PipelineFacts.

Module PipelineProperties.
Import Json Entities Extractor ToDict Pipeline PyFacts PipelineFacts.
Import ExtractorFacts.
Import RPDData.

(** X17. Every result of [process_rpd_file] holds the same nine keys, with
    the path, the start, the end and the processing time; either [success]
    is true, [errors] is empty and the parsed and the extracted data are set,
    or [success] is false, [errors] holds exactly one message, which starts
    with [RPD parsing failed: ] or [RPD processing failed: ], [warnings] is
    empty and [extracted_data] is [None]. *)
Theorem every_result_is_complete (datetime : Type)
  (isoformat : datetime -> pystr) (total_seconds : datetime -> datetime -> Q)
  (model_manager : option ModelManager) (file_path : pystr)
  (parse : parse_outcome) (started ended : datetime) :
  let result :=
    process_rpd_file datetime isoformat total_seconds model_manager file_path
                     parse started ended in
  map fst result = result_keys /\
  get result (U "file_path") = Some (PyStr file_path) /\
  get result (U "processing_start") = Some (PyStr (isoformat started)) /\
  get result (U "processing_end") = Some (PyStr (isoformat ended)) /\
  get result (U "processing_time_seconds")
    = Some (PyFloat (total_seconds started ended)) /\
  ((get result (U "success") = Some (PyBool true) /\
    get result (U "errors") = Some (PyList []) /\
    (exists d, get result (U "parsed_data") = Some (PyDict d)) /\
    (exists d, get result (U "extracted_data") = Some (PyDict d)))
   \/
   (get result (U "success") = Some (PyBool false) /\
    (exists msg,
       get result (U "errors")
         = Some (PyList [PyStr (U "RPD parsing failed: " ++ msg)]) \/
       get result (U "errors")
         = Some (PyList [PyStr (U "RPD processing failed: " ++ msg)])) /\
    get result (U "warnings") = Some (PyList []) /\
    get result (U "extracted_data") = Some PyNone)).
Proof.
  cbv zeta. destruct parse as [parsed_data|msg|e].
  - destruct (extract_rpd_data model_manager parsed_data) as [rpd_data|e] eqn:E.
    + rewrite (run_extraction_returns _ _ _ _ _ _ _ _ _ E).
      repeat (split; [reflexivity|]). left.
      repeat split; try reflexivity; eexists; reflexivity.
    + rewrite (run_extraction_raises _ _ _ _ _ _ _ _ _ E).
      repeat (split; [reflexivity|]). right.
      repeat split; try reflexivity. exists (exn_msg e). now right.
  - rewrite run_parsing_error. repeat (split; [reflexivity|]). right.
    repeat split; try reflexivity. exists msg. now left.
  - rewrite run_other_exception. repeat (split; [reflexivity|]). right.
    repeat split; try reflexivity. exists (exn_msg e). now right.
Qed.

(** X18. A parsed document with text is always processed with success,
    whatever the model manager: the result holds the record of
    [extract_rpd_data] turned into a dict and the warnings of the
    completeness check.  A parsed document whose text is missing, empty or
    blank gives a failed result with the one error
    [RPD processing failed: No text content found in document], the parsed
    data being kept. *)
Theorem parsed_document_is_processed (datetime : Type)
  (isoformat : datetime -> pystr) (total_seconds : datetime -> datetime -> Q)
  (model_manager : option ModelManager) (file_path : pystr)
  (parsed_data : dict) (started ended : datetime) :
  match raw_text_of parsed_data with
  | PyStr raw_text =>
      if truthy (strip raw_text)
      then exists rpd_data,
             extract_rpd_data None parsed_data = Ok rpd_data /\
             process_rpd_file datetime isoformat total_seconds model_manager
               file_path (Parsed parsed_data) started ended
             = succeeded_result file_path (isoformat started)
                 (isoformat ended) (total_seconds started ended)
                 parsed_data rpd_data
      else process_rpd_file datetime isoformat total_seconds model_manager
             file_path (Parsed parsed_data) started ended
           = failed_result file_path (isoformat started) (isoformat ended)
               (total_seconds started ended)
               (U "RPD processing failed: No text content found in document")
               (PyDict parsed_data)
  | _ =>
      exists e,
        exn_cls e = AttributeError /\
        process_rpd_file datetime isoformat total_seconds model_manager
          file_path (Parsed parsed_data) started ended
        = failed_result file_path (isoformat started) (isoformat ended)
            (total_seconds started ended)
            (U "RPD processing failed: " ++ exn_msg e) (PyDict parsed_data)
  end.
Proof.
  assert (A : forall e,
    extract_rpd_data model_manager parsed_data = Raise e ->
    process_rpd_file datetime isoformat total_seconds model_manager
      file_path (Parsed parsed_data) started ended
    = failed_result file_path (isoformat started) (isoformat ended)
        (total_seconds started ended)
        (U "RPD processing failed: " ++ exn_msg e) (PyDict parsed_data))
    by (intros e; apply run_extraction_raises).
  destruct (raw_text_of parsed_data) as [| | | | |raw_text| |] eqn:D;
    try (eexists; split; [|apply A; unfold extract_rpd_data, extract_rpd_data_with;
                           rewrite D; reflexivity]; reflexivity).
  destruct (truthy (strip raw_text)) eqn:T.
  - destruct (ExtractionFacts.extract_body_result model_manager raw_text)
      as (a & b & c & n & themes & labs & refs & ts & ls & rs
          & Hb & Ht & Hl & Hr & Bt & Bl & Br & Hbody).
    destruct (ExtractionFacts.extract_body_result None raw_text)
      as (a' & b' & c' & n' & themes' & labs' & refs' & ts' & ls' & rs'
          & Hb' & Ht' & Hl' & Hr' & Bt' & Bl' & Br' & Hbody').
    rewrite Hb in Hb'. rewrite Ht in Ht'. rewrite Hl in Hl'. rewrite Hr in Hr'.
    injection Hb' as <- <- <- <-. injection Ht' as <-. injection Hl' as <-.
    injection Hr' as <-.
    rewrite Bt in Bt'. rewrite Bl in Bl'. rewrite Br in Br'.
    injection Bt' as <-. injection Bl' as <-. injection Br' as <-.
    eexists. split.
    + unfold extract_rpd_data, extract_rpd_data_with. rewrite D, T.
      cbn [negb]. rewrite Hbody'. reflexivity.
    + apply run_extraction_returns.
      unfold extract_rpd_data, extract_rpd_data_with. rewrite D, T.
      cbn [negb]. rewrite Hbody. reflexivity.
  - assert (M : U "RPD processing failed: " ++ exn_msg no_text_content
                = U "RPD processing failed: No text content found in document")
      by (vm_compute; reflexivity).
    rewrite <- M. apply A.
    unfold extract_rpd_data, extract_rpd_data_with. rewrite D, T. reflexivity.
Qed.

End PipelineProperties.

(** ** The summary *)

Module SummaryFacts.
Import Json Entities Extractor ToDict Pipeline PyFacts PipelineFacts.

Lemma pipeline_result_run (datetime : Type) isoformat total_seconds
  model_manager file_path parse (started ended : datetime) :
  pipeline_result
    (process_rpd_file datetime isoformat total_seconds model_manager file_path
       parse started ended).
Proof.
  destruct parse as [parsed_data|msg|e].
  - destruct (extract_rpd_data model_manager parsed_data) as [rpd_data|e] eqn:E.
    + rewrite (run_extraction_returns _ _ _ _ _ _ _ _ _ E). left.
      now do 6 eexists.
    + rewrite (run_extraction_raises _ _ _ _ _ _ _ _ _ E). right.
      now do 6 eexists.
  - rewrite run_parsing_error. right. now do 6 eexists.
  - rewrite run_other_exception. right. now do 6 eexists.
Qed.

(** The flag and the errors of a result of the pipeline. *)
Lemma pipeline_result_fields result :
  pipeline_result result ->
  exists (ok : bool) errs warns (seconds : Q),
    item result (U "success") = Ok (PyBool ok) /\
    get_default result (U "processing_time_seconds") (PyInt 0) = PyFloat seconds /\
    get_default result (U "errors") (PyList []) = PyList errs /\
    get_default result (U "warnings") (PyList []) = PyList warns /\
    List.length errs = (if ok then 0 else 1)%nat.
Proof.
  intros [(p & s & e & t & d & r & ->)|(p & s & e & t & m & d & ->)].
  - exists true. do 3 eexists. repeat split; reflexivity.
  - exists false. do 3 eexists. repeat split; reflexivity.
Qed.

Lemma py_sum_floats results : forall acc,
  Forall pipeline_result results ->
  exists total,
    py_sum acc
      (map (fun r => get_default r (U "processing_time_seconds") (PyInt 0))
           results) = Ok total.
Proof.
  induction results as [|r results IH]; intros acc F; [now exists acc|].
  inversion F as [|? ? Hr Hrest]; subst.
  destruct (pipeline_result_fields r Hr) as (ok & errs & warns & t & _ & T & _).
  cbn [map py_sum]. rewrite T. cbn [as_number]. now apply IH.
Qed.

Lemma summary_parts results :
  Forall pipeline_result results ->
  exists flags errs warns,
    map_except (fun r => item r (U "success")) results = Ok flags /\
    gather results (U "errors") = Ok errs /\
    gather results (U "warnings") = Ok warns /\
    (List.length (filter truthy_val flags) + List.length errs
     = List.length results)%nat.
Proof.
  unfold gather.
  induction 1 as [|r results Hr F IH].
  - exists [], [], []. repeat split; reflexivity.
  - destruct IH as (flags & errs & warns & Hf & He & Hw & Hc).
    destruct (pipeline_result_fields r Hr)
      as (ok & es & ws & t & S & _ & E & W & L).
    destruct (map_except _ results) as [pe|] eqn:Me in He; [|discriminate].
    destruct (map_except _ results) as [pw|] eqn:Mw in Hw; [|discriminate].
    cbn [bind] in He, Hw. injection He as <-. injection Hw as <-.
    exists (PyBool ok :: flags), (es ++ List.concat pe), (ws ++ List.concat pw).
    cbn [map_except]. rewrite S, Hf, E, W. cbn [bind iterate].
    rewrite Me, Mw. cbn [bind List.concat].
    repeat split. rewrite length_app.
    destruct ok; cbn [filter truthy_val List.length]; lia.
Qed.

End SummaryFacts.

Module SummaryProperties.
Import Json Entities Extractor ToDict Pipeline PyFacts SummaryFacts.

(** X19. The summary of the results of [process_multiple_rpd_files] never
    raises.  It counts every file, the successful and the failed ones adding
    up to the total, and its [errors] hold exactly one message for each
    failed file. *)
Theorem summary_counts_one_error_per_failed_file (datetime : Type)
  (isoformat : datetime -> pystr) (total_seconds : datetime -> datetime -> Q)
  (model_manager : option ModelManager) (runs : list (file_run datetime)) :
  exists summary successful errors warnings,
    get_processing_summary
      (process_multiple_rpd_files datetime isoformat total_seconds
         model_manager runs) = Ok summary /\
    get summary (U "total_files") = Some (PyInt (Z.of_nat (List.length runs))) /\
    get summary (U "successful_files") = Some (PyInt (Z.of_nat successful)) /\
    get summary (U "failed_files")
      = Some (PyInt (Z.of_nat (List.length errors))) /\
    (successful + List.length errors = List.length runs)%nat /\
    get summary (U "errors") = Some (PyList errors) /\
    get summary (U "warnings") = Some (PyList warnings).
Proof.
  set (results := process_multiple_rpd_files _ _ _ _ runs).
  assert (F : Forall pipeline_result results).
  { unfold results, process_multiple_rpd_files. apply Forall_forall.
    intros r Hr. apply in_map_iff in Hr. destruct Hr as (run & <- & _).
    apply pipeline_result_run. }
  assert (L : List.length results = List.length runs)
    by (unfold results, process_multiple_rpd_files; apply length_map).
  destruct (summary_parts results F) as (flags & errs & warns & Hf & He & Hw & Hc).
  destruct (py_sum_floats results (NInt 0) F) as [total Ht].
  unfold get_processing_summary. cbv zeta.
  rewrite Hf. cbn [bind]. rewrite Ht. cbn [bind]. rewrite He. cbn [bind].
  rewrite Hw. cbn [bind].
  eexists. exists (List.length (filter truthy_val flags)), errs, warns.
  split; [reflexivity|].
  split; [cbn; now rewrite L|]. split; [reflexivity|].
  split; [cbn; do 2 f_equal; lia|]. split; [lia|]. split; reflexivity.
Qed.

Lemma map_except_length {A B : Type} (f : A -> except B) xs : forall ys,
  map_except f xs = Ok ys -> List.length ys = List.length xs.
Proof.
  induction xs as [|x xs IH]; intros ys H; cbn [map_except] in H.
  - injection H as <-. reflexivity.
  - destruct (f x) as [y|]; [|discriminate]. cbn [bind] in H.
    destruct (map_except f xs) as [ys'|]; [|discriminate]. cbn [bind] in H.
    injection H as <-. cbn [List.length]. now rewrite (IH ys').
Qed.

Lemma map_except_raises {A B : Type} (f : A -> except B) (P : exn -> Prop) xs :
  (exists x, In x xs /\ raises (f x) = true) ->
  (forall x e, f x = Raise e -> P e) ->
  exists e, map_except f xs = Raise e /\ P e.
Proof.
  intros (x & Hin & Hx) HP. induction xs as [|y xs IH]; [destruct Hin|].
  cbn [map_except]. destruct (f y) as [b|e] eqn:E.
  - cbn [bind]. destruct Hin as [->|Hin]; [rewrite E in Hx; discriminate|].
    destruct (IH Hin) as (e & -> & Pe). exists e. split; [reflexivity | exact Pe].
  - exists e. split; [reflexivity | now apply (HP y)].
Qed.

Lemma filter_length_le {A : Type} (f : A -> bool) xs :
  (List.length (filter f xs) <= List.length xs)%nat.
Proof.
  induction xs as [|x xs IH]; [cbn; lia|]. cbn [filter].
  destruct (f x); cbn [List.length]; lia.
Qed.

(** X20. The summary of an empty list of results holds zeros and empty
    lists, and no division is made.  When a result lacks the key [success],
    the summary raises [KeyError].  When the summary returns, it counts every
    result, the failed ones being those that are not successful, and the
    success rate is the quotient of the successful ones by the total. *)
Theorem summary_counts_add_up (results : list dict) :
  get_processing_summary []
    = Ok [(U "total_files", PyInt 0); (U "successful_files", PyInt 0);
          (U "failed_files", PyInt 0); (U "success_rate", PyInt 0);
          (U "total_processing_time_seconds", PyInt 0);
          (U "average_processing_time_seconds", PyInt 0);
          (U "errors", PyList []); (U "warnings", PyList [])] /\
  ((exists r, In r results /\ get r (U "success") = None) ->
   exists e, get_processing_summary results = Raise e /\ exn_cls e = KeyError) /\
  (forall summary,
     get_processing_summary results = Ok summary ->
     exists successful,
       (successful <= List.length results)%nat /\
       get summary (U "total_files")
         = Some (PyInt (Z.of_nat (List.length results))) /\
       get summary (U "successful_files") = Some (PyInt (Z.of_nat successful)) /\
       get summary (U "failed_files")
         = Some (PyInt (Z.of_nat (List.length results) - Z.of_nat successful)) /\
       get summary (U "success_rate")
         = Some (match results with
                 | [] => PyInt 0
                 | _ => PyFloat (Z.of_nat successful
                                 # Pos.of_nat (List.length results))
                 end)).
Proof.
  split; [reflexivity|]. split.
  - intros (r & Hin & Hr). unfold get_processing_summary. cbv zeta.
    destruct (map_except_raises (fun r => item r (U "success"))
                (fun e => exn_cls e = KeyError) results) as (e & -> & Ke).
    + exists r. split; [exact Hin|]. unfold item. now rewrite Hr.
    + intros x e. unfold item. destruct (get x (U "success")); [discriminate|].
      now intros [= <-].
    + exists e. split; [reflexivity | exact Ke].
  - intros summary H. unfold get_processing_summary in H. cbv zeta in H.
    destruct (map_except _ results) as [flags|] eqn:Hf; [|discriminate].
    cbn [bind] in H.
    destruct (py_sum _ _) as [total|]; [|discriminate]. cbn [bind] in H.
    destruct (gather results (U "errors")) as [errs|]; [|discriminate].
    cbn [bind] in H.
    destruct (gather results (U "warnings")) as [warns|]; [|discriminate].
    cbn [bind] in H. injection H as <-.
    apply map_except_length in Hf.
    exists (List.length (filter truthy_val flags)).
    split; [rewrite <- Hf; apply filter_length_le|].
    repeat (split; [reflexivity|]).
    destruct results as [|r results]; [reflexivity|].
    cbn [get eqb]. unfold get. 
    replace (0 <? Z.of_nat (List.length (r :: results)))%Z with true
      by (symmetry; apply Z.ltb_lt; cbn [List.length]; lia).
    cbn [of_number number_div].
    replace (Z.to_pos (Z.of_nat (List.length (r :: results))))
      with (Pos.of_nat (List.length (r :: results)))
      by (cbn [List.length]; lia).
    reflexivity.
Qed.

End SummaryProperties.

(** ** The global processor *)

Module GlobalProcessorProperties.
Import Extractor Pipeline.

Lemma later_calls_return_global p managers :
  Forall (fun q => q = p) (get_rpd_processor_calls (Some p) managers).
Proof.
  induction managers as [|m managers IH]; [constructor|].
  cbn [get_rpd_processor_calls get_rpd_processor]. now constructor.
Qed.

(** X21. The processor is made once: in a sequence of calls of
    [get_rpd_processor] that starts with no global processor, every call
    returns the processor made for the model manager of the first call, and
    the managers passed to the later calls are ignored. *)
Theorem global_processor_keeps_first_manager
  (first : option ModelManager) (later : list (option ModelManager)) :
  Forall (fun p => p = new_RPDProcessor first /\ model_manager p = first)
         (get_rpd_processor_calls None (first :: later)).
Proof.
  cbn [get_rpd_processor_calls get_rpd_processor].
  constructor; [now split|].
  eapply Forall_impl; [|apply later_calls_return_global].
  intros p ->. now split.
Qed.

End GlobalProcessorProperties.


(** ** The parsers *)

Module ParsersFacts.
Import Json Pipeline Parsers PyFacts StripFacts.

Lemma lookup_extension ext :
  In ext allowed_extensions <-> exists t, lookup extension_map ext = Some t.
Proof.
  unfold allowed_extensions, extension_map. cbn [In lookup]. split.
  - intros [<-|[<-|[<-|[<-|[<-|[]]]]]]; eexists; reflexivity.
  - intros [t H].
    repeat match type of H with
    | (if eqb ?k ext then _ else _) = _ =>
        destruct (eqb k ext) eqn:E;
        [apply eqb_eq in E; subst ext; tauto | clear E]
    end.
    discriminate.
Qed.

Lemma lookup_extension_values ext t :
  lookup extension_map ext = Some t -> In t get_supported_formats.
Proof.
  unfold extension_map. cbn [lookup]. intros H.
  repeat match type of H with
  | (if ?b then _ else _) = _ =>
      destruct b; [injection H as <-; cbn; tauto|]
  end.
  discriminate.
Qed.

Lemma lookup_mime_values mime t :
  lookup mime_map mime = Some t -> In t get_supported_formats.
Proof.
  unfold mime_map. cbn [lookup]. intros H.
  repeat match type of H with
  | (if ?b then _ else _) = _ =>
      destruct b; [injection H as <-; cbn; tauto|]
  end.
  discriminate.
Qed.

Lemma detect_cases file_path magic :
  In (detect_file_type file_path magic) get_supported_formats \/
  detect_file_type file_path magic = U "unknown".
Proof.
  unfold detect_file_type. cbv zeta.
  destruct (lookup extension_map _) as [t|] eqn:E;
    [left; eapply lookup_extension_values; eassumption|].
  destruct magic as [[mime|e]|]; try (now right).
  destruct (lookup mime_map mime) as [t|] eqn:M; [|now right].
  left. eapply lookup_mime_values; eassumption.
Qed.

Lemma parser_of_supported file_type :
  (exists parser, parser_of parsers file_type = Some parser) <->
  In file_type get_supported_formats.
Proof.
  unfold get_supported_formats, parsers. cbn [parser_of map fst In]. split.
  - intros [p H].
    repeat match type of H with
    | (if eqb ?k file_type then _ else _) = _ =>
        destruct (eqb k file_type) eqn:E;
        [apply eqb_eq in E; subst file_type; tauto | clear E]
    end.
    discriminate.
  - intros [<-|[<-|[<-|[<-|[<-|[]]]]]]; eexists; reflexivity.
Qed.

Lemma parser_of_can_parse file_type parser :
  parser_of parsers file_type = Some parser ->
  mem file_type (supported_extensions parser) = true.
Proof.
  unfold parsers. cbn [parser_of]. intros H.
  repeat match type of H with
  | (if eqb ?k file_type then _ else _) = _ =>
      destruct (eqb k file_type) eqn:E;
      [apply eqb_eq in E; subst file_type; injection H as <-; reflexivity
      | clear E]
  end.
  discriminate.
Qed.

End ParsersFacts.

Module ParsersProperties.
Import Json Pipeline Parsers PyFacts StripFacts ParsersFacts.

(** X22. [detect_file_type] returns one of [pdf], [docx], [doc], [xlsx],
    [xls] and [unknown].  A name whose extension in lower case is one the
    upload routes accept gets its type from the extension alone, whatever the
    content of the file; the types other than [unknown] are exactly those for
    which the factory has a parser, which are its supported formats. *)
Theorem detected_type_has_a_parser_or_is_unknown
  (file_path : pystr) (magic : option (except pystr)) :
  (In (detect_file_type file_path magic) get_supported_formats \/
   detect_file_type file_path magic = U "unknown") /\
  get_supported_formats = [U "pdf"; U "docx"; U "doc"; U "xlsx"; U "xls"] /\
  (In (lower (suffix (path_name file_path))) allowed_extensions <->
   exists file_type,
     lookup extension_map (lower (suffix (path_name file_path)))
       = Some file_type) /\
  (forall file_type,
     lookup extension_map (lower (suffix (path_name file_path)))
       = Some file_type ->
     In file_type get_supported_formats /\
     forall content, detect_file_type file_path content = file_type) /\
  ((exists parser,
      parser_of parsers (detect_file_type file_path magic) = Some parser) <->
   detect_file_type file_path magic <> U "unknown").
Proof.
  split; [apply detect_cases|]. split; [reflexivity|].
  split; [apply lookup_extension|]. split.
  - intros t H. split; [eapply lookup_extension_values; eassumption|].
    intros content. unfold detect_file_type. cbv zeta. now rewrite H.
  - rewrite parser_of_supported. split.
    + intros H E. rewrite E in H. vm_compute in H. intuition discriminate.
    + intros H. destruct (detect_cases file_path magic); [assumption|contradiction].
Qed.

(** X23. The parser the factory returns for a file can parse it, by its
    own [can_parse], and its library is there.  The factory raises
    [Unsupported file type: unknown] exactly for the files whose type is not
    detected, and [Parser dependencies not available: ...] with the message
    of the import error when the library of the parser is missing. *)
Theorem factory_parser_can_parse (libs : libraries) (file_path : pystr)
  (magic : option (except pystr)) :
  match get_parser libs file_path magic with
  | inl parser =>
      can_parse parser file_path magic = true /\
      import_error libs parser = None
  | inr msg =>
      (detect_file_type file_path magic = U "unknown" /\
       msg = U "Unsupported file type: unknown") \/
      (exists parser missing,
         can_parse parser file_path magic = true /\
         import_error libs parser = Some missing /\
         msg = U "Parser dependencies not available: " ++ missing)
  end.
Proof.
  unfold get_parser, can_parse. cbv zeta.
  destruct (parser_of parsers (detect_file_type file_path magic))
    as [parser|] eqn:P.
  - pose proof (parser_of_can_parse _ _ P) as C.
    destruct (import_error libs parser) as [missing|] eqn:I.
    + right. now exists parser, missing.
    + now split.
  - left. destruct (detect_cases file_path magic) as [H|H].
    + apply parser_of_supported in H. destruct H as [p H]. congruence.
    + split; [exact H|]. now rewrite H.
Qed.

(** The entries of [content]: pages with text, numbered from one. *)
Lemma text_content_entries pages : forall n,
  (List.length (text_content n pages) <= List.length pages)%nat /\
  Forall (fun page =>
            (n + 1 <= fst page <= n + List.length pages)%nat /\
            strip (snd page) = snd page /\ snd page <> [] /\
            exists page_text,
              nth_error pages (fst page - 1 - n) = Some (Ok page_text) /\
              snd page = strip page_text)
         (text_content n pages).
Proof.
  induction pages as [|page pages IH]; intros n; [split; [cbn; lia | constructor]|].
  destruct (IH (S n)) as [L F]. cbn [text_content List.length].
  assert (F' : Forall (fun page0 =>
            (n + 1 <= fst page0 <= n + S (List.length pages))%nat /\
            strip (snd page0) = snd page0 /\ snd page0 <> [] /\
            exists page_text,
              nth_error (page :: pages) (fst page0 - 1 - n) = Some (Ok page_text) /\
              snd page0 = strip page_text)
            (text_content (S n) pages)).
  { eapply Forall_impl; [|exact F]. cbv beta. intros e (A & B & C & t & Ht & Hs).
    repeat split; try (assumption || lia). exists t. split; [|exact Hs].
    replace (fst e - 1 - n)%nat with (S (fst e - 1 - S n)) by lia. exact Ht. }
  destruct page as [text|e]; [|split; [lia | exact F']].
  destruct (strip text) as [|c t] eqn:St; cbn [truthy];
    [split; [lia | exact F']|].
  split; [cbn [List.length]; lia|]. constructor; [|exact F'].
  cbn [fst snd]. rewrite <- St. repeat split; try lia.
  - apply strip_idem.
  - rewrite St. discriminate.
  - exists text. replace (n + 1 - 1 - n)%nat with 0%nat by lia. now split.
Qed.

Lemma text_content_nil pages : forall n,
  text_content n pages = [] <->
  Forall (fun page => match page with
                      | Ok text => strip text = []
                      | Raise _ => True
                      end) pages.
Proof.
  induction pages as [|page pages IH]; intros n; [split; [constructor|reflexivity]|].
  cbn [text_content]. destruct page as [text|e].
  - destruct (strip text) as [|c t] eqn:St; cbn [truthy].
    + rewrite (IH (S n)). split; [now constructor|].
      intros H. now inversion H.
    + split; [discriminate|]. intros H. inversion H as [|? ? Hx Hy].
      cbv beta iota in Hx. rewrite St in Hx. discriminate Hx.
  - rewrite (IH (S n)). split; [now constructor|]. intros H. now inversion H.
Qed.

(** Lines that are stripped and not empty make a text that is not blank. *)
Lemma join_lines_not_blank parts :
  parts <> [] ->
  Forall (fun part => strip part = part /\ part <> []) parts ->
  strip (join_lines parts) <> [].
Proof.
  intros Hne F. destruct parts as [|part rest]; [congruence|].
  inversion F as [|? ? [Hs Hp] _]; subst.
  assert (H : exists c t, join_lines (part :: rest) = c :: t /\ isspace c = false).
  { destruct part as [|c t]; [congruence|].
    assert (isspace c = false).
    { unfold strip in Hs. destruct (lstrip_head (c :: t)) as [E|(c' & t' & E & Hc)].
      - rewrite E in Hs. discriminate.
      - cbn [lstrip] in E. destruct (isspace c) eqn:I; [|reflexivity].
        exfalso.
        assert (Hl : (List.length (lstrip t) <= List.length t)%nat).
        { clear. induction t as [|x t IH]; [cbn; lia|]. cbn [lstrip].
          destruct (isspace x); cbn [List.length] in *; lia. }
        assert (Hr : forall s, (List.length (rstrip s) <= List.length s)%nat).
        { intros s. unfold rstrip. rewrite length_rev.
          rewrite <- (length_rev s). generalize (rev s). clear.
          induction l as [|x l IH]; [cbn; lia|]. cbn [lstrip].
          destruct (isspace x); cbn [List.length] in *; lia. }
        cbn [lstrip] in Hs. rewrite I in Hs.
        pose proof (Hr (lstrip t)) as Hr'. rewrite Hs in Hr'.
        cbn [List.length] in Hr'. lia. }
    unfold join_lines. destruct rest as [|r rest]; cbn [join].
    - now exists c, t.
    - exists c, (t ++ [10] ++ join [10] (r :: rest)). now split. }
  destruct H as (c & t & -> & Hc). unfold strip.
  rewrite (lstrip_nonspace c t Hc), (rstrip_nonspace c t Hc). discriminate.
Qed.

Lemma raw_text_blank_iff pages :
  strip (join_lines (map snd (text_content 0 pages))) = [] <->
  Forall (fun page => match page with
                      | Ok text => strip text = []
                      | Raise _ => True
                      end) pages.
Proof.
  destruct (text_content_entries pages 0) as [_ F].
  rewrite <- (text_content_nil pages 0). split.
  - intros H. destruct (text_content 0 pages) as [|e es] eqn:E; [reflexivity|].
    exfalso. revert H. apply join_lines_not_blank; [discriminate|].
    apply Forall_map. eapply Forall_impl; [|exact F]. cbv beta. tauto.
  - intros ->. reflexivity.
Qed.

(** What [parse_pdf] returns for a file that is read. *)
Lemma parse_pdf_read file_path reader :
  exists parsed_data,
    parse_pdf file_path true (Ok reader) = Parsed parsed_data /\
    Extractor.raw_text_of parsed_data
      = PyStr (join_lines (map snd (text_content 0 (pdf_pages reader)))).
Proof. eexists. split; reflexivity. Qed.

(** X24. For a PDF file that exists and can be read, the parsed document
    counts every page in [pages]; [content] holds the pages whose text is not
    blank, stripped, with their number counted from one, and leaves out the
    pages whose text cannot be extracted; [raw_text] joins these texts with
    newlines, and is blank exactly when no page has text.  A file that does
    not exist gives [RPDParsingError] with [File not found: ...]. *)
Theorem pdf_content_is_the_pages_with_text
  (file_path : pystr) (reader : pdf_reader) (failure : except pdf_reader) :
  parse_pdf file_path false failure
    = RPDParsingError (U "File not found: " ++ file_path) /\
  exists parsed_data,
    parse_pdf file_path true (Ok reader) = Parsed parsed_data /\
    get parsed_data (U "pages")
      = Some (PyInt (Z.of_nat (List.length (pdf_pages reader)))) /\
    Extractor.raw_text_of parsed_data
      = PyStr (join_lines (map snd (text_content 0 (pdf_pages reader)))) /\
    (List.length (text_content 0 (pdf_pages reader))
     <= List.length (pdf_pages reader))%nat /\
    Forall (fun page =>
              (1 <= fst page <= List.length (pdf_pages reader))%nat /\
              strip (snd page) = snd page /\ snd page <> [] /\
              exists page_text,
                nth_error (pdf_pages reader) (fst page - 1) = Some (Ok page_text) /\
                snd page = strip page_text)
           (text_content 0 (pdf_pages reader)) /\
    (strip (join_lines (map snd (text_content 0 (pdf_pages reader)))) = [] <->
     Forall (fun page => match page with
                         | Ok text => strip text = []
                         | Raise _ => True
                         end) (pdf_pages reader)).
Proof.
  split; [reflexivity|]. eexists. split; [reflexivity|].
  split; [reflexivity|]. split; [reflexivity|].
  destruct (text_content_entries (pdf_pages reader) 0) as [L F].
  split; [exact L|]. split; [|apply raw_text_blank_iff].
  eapply Forall_impl; [|exact F]. cbv beta.
  intros e (A & B & C & t & Ht & Hs). rewrite Nat.sub_0_r in Ht.
  repeat split; try (assumption || lia). now exists t.
Qed.

(** The entries of [paragraphs]: paragraphs with text, with their index. *)
Lemma paragraphs_of_entries paragraphs : forall n,
  (List.length (paragraphs_of n paragraphs) <= List.length paragraphs)%nat /\
  Forall (fun p =>
            (n <= fst (fst p) < n + List.length paragraphs)%nat /\
            strip (snd (fst p)) = snd (fst p) /\ snd (fst p) <> [] /\
            exists text style,
              nth_error paragraphs (fst (fst p) - n) = Some (text, style) /\
              snd (fst p) = strip text)
         (paragraphs_of n paragraphs).
Proof.
  induction paragraphs as [|[text style] paragraphs IH]; intros n;
    [split; [cbn; lia | constructor]|].
  destruct (IH (S n)) as [L F]. cbn [paragraphs_of List.length].
  assert (F' : Forall (fun p =>
            (n <= fst (fst p) < n + S (List.length paragraphs))%nat /\
            strip (snd (fst p)) = snd (fst p) /\ snd (fst p) <> [] /\
            exists text0 style0,
              nth_error ((text, style) :: paragraphs) (fst (fst p) - n)
                = Some (text0, style0) /\
              snd (fst p) = strip text0)
            (paragraphs_of (S n) paragraphs)).
  { eapply Forall_impl; [|exact F]. cbv beta.
    intros e (A & B & C & t & s & Ht & Hs).
    repeat split; try (assumption || lia). exists t, s. split; [|exact Hs].
    replace (fst (fst e) - n)%nat with (S (fst (fst e) - S n)) by lia. exact Ht. }
  destruct (strip text) as [|c t] eqn:St; cbn [truthy];
    [split; [lia | exact F']|].
  split; [cbn [List.length]; lia|]. constructor; [|exact F'].
  cbn [fst snd]. rewrite <- St. repeat split; try lia.
  - apply strip_idem.
  - rewrite St. discriminate.
  - exists text, style. rewrite Nat.sub_diag. now split.
Qed.

Lemma paragraphs_of_nil paragraphs : forall n,
  paragraphs_of n paragraphs = [] <->
  Forall (fun p => strip (fst p) = []) paragraphs.
Proof.
  induction paragraphs as [|[text style] paragraphs IH]; intros n;
    [split; [constructor|reflexivity]|].
  cbn [paragraphs_of]. destruct (strip text) as [|c t] eqn:St; cbn [truthy].
  - rewrite (IH (S n)). split; [now constructor|]. intros H. now inversion H.
  - split; [discriminate|]. intros H. inversion H as [|? ? Hx Hy].
    cbn [fst] in Hx. rewrite St in Hx. discriminate Hx.
Qed.

(** X25. For a Word file that exists and can be read, [paragraphs] holds
    the paragraphs whose text is not blank, stripped, with their index in the
    document, and [raw_text] joins their texts with newlines; it is blank
    exactly when every paragraph is.  The [file_type] of the parsed document
    is [docx], also for a file with the extension [.doc], whose detected type
    is [doc].  A file that does not exist gives [RPDParsingError] with
    [File not found: ...]. *)
Theorem word_text_is_the_paragraphs_with_text
  (file_path : pystr) (doc : docx_document) (failure : except docx_document) :
  parse_word file_path false failure
    = RPDParsingError (U "File not found: " ++ file_path) /\
  (exists parsed_data,
     parse_word file_path true (Ok doc) = Parsed parsed_data /\
     get parsed_data (U "file_type") = Some (PyStr (U "docx")) /\
     Extractor.raw_text_of parsed_data
       = PyStr (join_lines (map (fun p => snd (fst p))
                                (paragraphs_of 0 (docx_paragraphs doc))))) /\
  Forall (fun p =>
            strip (snd (fst p)) = snd (fst p) /\ snd (fst p) <> [] /\
            exists text style,
              nth_error (docx_paragraphs doc) (fst (fst p)) = Some (text, style) /\
              snd (fst p) = strip text)
         (paragraphs_of 0 (docx_paragraphs doc)) /\
  (strip (join_lines (map (fun p => snd (fst p))
                          (paragraphs_of 0 (docx_paragraphs doc)))) = [] <->
   Forall (fun p => strip (fst p) = []) (docx_paragraphs doc)) /\
  (forall libs env,
     lower (suffix (path_name file_path)) = U ".doc" ->
     has_docx libs = true ->
     detect_file_type file_path (env_magic env) = U "doc" /\
     parse_rpd_document libs file_path env
       = parse_word file_path (env_exists env) (env_docx env)).
Proof.
  split; [reflexivity|]. split; [eexists; repeat split; reflexivity|].
  destruct (paragraphs_of_entries (docx_paragraphs doc) 0) as [_ F].
  split; [|split].
  - eapply Forall_impl; [|exact F]. cbv beta.
    intros e (A & B & C & t & s & Ht & Hs). rewrite Nat.sub_0_r in Ht.
    repeat split; try assumption. now exists t, s.
  - rewrite <- (paragraphs_of_nil (docx_paragraphs doc) 0). split.
    + intros H.
      destruct (paragraphs_of 0 (docx_paragraphs doc)) as [|e es] eqn:E;
        [reflexivity|].
      exfalso. revert H. apply join_lines_not_blank; [discriminate|].
      apply Forall_map. eapply Forall_impl; [|exact F]. cbv beta. tauto.
    + intros ->. reflexivity.
  - intros libs env Hext Hlib.
    unfold parse_rpd_document, get_parser, detect_file_type. cbv zeta.
    rewrite Hext.
    change (lookup extension_map (U ".doc")) with (Some (U "doc")). cbv iota.
    split; [reflexivity|].
    change (parser_of parsers (U "doc")) with (Some WordRPDParser). cbv iota.
    cbn [import_error]. now rewrite Hlib.
Qed.

End ParsersProperties.


(** ** From the file to the result *)

Module FileProperties.
Import Json Entities Extractor Pipeline Parsers PyFacts StripFacts.
Import ParsersFacts ParsersProperties PipelineFacts ExtractorFacts.

Lemma existsb_has_text pages :
  existsb has_text pages = false <->
  Forall (fun page => match page with
                      | Ok text => strip text = []
                      | Raise _ => True
                      end) pages.
Proof.
  induction pages as [|page pages IH]; [split; [constructor|reflexivity]|].
  cbn [existsb]. rewrite orb_false_iff, IH. split.
  - intros [H F]. constructor; [|exact F]. destruct page as [text|e]; [|exact I].
    cbn [has_text] in H. now destruct (strip text).
  - intros H. inversion H as [|? ? Hp F]; subst. split; [|exact F].
    destruct page as [text|e]; [|reflexivity]. cbn [has_text]. now rewrite Hp.
Qed.

Lemma extract_with_text model_manager parsed_data raw_text :
  raw_text_of parsed_data = PyStr raw_text -> strip raw_text <> [] ->
  exists rpd_data, extract_rpd_data model_manager parsed_data = Ok rpd_data.
Proof.
  intros D T. unfold extract_rpd_data, extract_rpd_data_with. rewrite D.
  destruct (strip raw_text); [congruence|]. cbn [truthy negb].
  destruct (extract_body_validates model_manager raw_text initial) as [r ->].
  now eexists.
Qed.

Lemma extract_without_text model_manager parsed_data raw_text :
  raw_text_of parsed_data = PyStr raw_text -> strip raw_text = [] ->
  extract_rpd_data model_manager parsed_data = Raise no_text_content.
Proof.
  intros D T. unfold extract_rpd_data, extract_rpd_data_with. rewrite D, T.
  reflexivity.
Qed.

(** X26. A file with the extension [.pdf] that exists and is read by
    PyPDF2 is processed with success exactly when one of its pages has text
    that is not blank; when no page has, the result is a failure with the one
    error [RPD processing failed: No text content found in document], the
    parsed document being kept in it. *)
Theorem pdf_is_processed_when_a_page_has_text (datetime : Type)
  (isoformat : datetime -> pystr) (total_seconds : datetime -> datetime -> Q)
  (model_manager : option ModelManager) (libs : libraries)
  (file_path : pystr) (env : file_env) (reader : pdf_reader)
  (started ended : datetime) :
  lower (suffix (path_name file_path)) = U ".pdf" ->
  has_PyPDF2 libs = true ->
  env_exists env = true ->
  env_pdf env = Ok reader ->
  exists parsed_data,
    parse_rpd_document libs file_path env = Parsed parsed_data /\
    if existsb has_text (pdf_pages reader)
    then exists rpd_data,
           process_rpd_file datetime isoformat total_seconds model_manager
             file_path (parse_rpd_document libs file_path env) started ended
           = succeeded_result file_path (isoformat started) (isoformat ended)
               (total_seconds started ended) parsed_data rpd_data
    else process_rpd_file datetime isoformat total_seconds model_manager
           file_path (parse_rpd_document libs file_path env) started ended
         = failed_result file_path (isoformat started) (isoformat ended)
             (total_seconds started ended)
             (U "RPD processing failed: No text content found in document")
             (PyDict parsed_data).
Proof.
  intros Hext Hlib Hex Hpdf.
  assert (P : parse_rpd_document libs file_path env
              = parse_pdf file_path true (Ok reader)).
  { unfold parse_rpd_document, get_parser, detect_file_type. cbv zeta.
    rewrite Hext.
    change (lookup extension_map (U ".pdf")) with (Some (U "pdf")). cbv iota.
    change (parser_of parsers (U "pdf")) with (Some PDFRPDParser). cbv iota.
    cbn [import_error]. rewrite Hlib, Hex, Hpdf. reflexivity. }
  rewrite P.
  destruct (parse_pdf_read file_path reader) as (parsed_data & Hp & Hraw).
  pose proof (raw_text_blank_iff (pdf_pages reader)) as Hblank.
  exists parsed_data. split; [exact Hp|]. rewrite Hp.
  destruct (existsb has_text (pdf_pages reader)) eqn:E.
  - destruct (extract_with_text model_manager parsed_data _ Hraw) as [r Hr].
    + intros B. apply Hblank in B. apply existsb_has_text in B. congruence.
    + exists r. now apply run_extraction_returns.
  - assert (M : U "RPD processing failed: " ++ exn_msg no_text_content
                = U "RPD processing failed: No text content found in document")
      by (vm_compute; reflexivity).
    rewrite <- M. apply run_extraction_raises.
    apply (extract_without_text _ _ _ Hraw). apply Hblank.
    now apply existsb_has_text.
Qed.

Lemma pdf_is_processed_when_a_page_has_text_witness :
  exists parsed_data,
    parse_rpd_document all_libraries (U "/tmp/rpd/Course.PDF") pdf_env
      = Parsed parsed_data /\
    if existsb has_text (pdf_pages two_pages)
    then exists rpd_data,
           process_rpd_file Z str_of_Z seconds_between None
             (U "/tmp/rpd/Course.PDF")
             (parse_rpd_document all_libraries (U "/tmp/rpd/Course.PDF") pdf_env)
             10%Z 12%Z
           = succeeded_result (U "/tmp/rpd/Course.PDF") (str_of_Z 10)
               (str_of_Z 12) (seconds_between 10 12) parsed_data rpd_data
    else process_rpd_file Z str_of_Z seconds_between None
           (U "/tmp/rpd/Course.PDF")
           (parse_rpd_document all_libraries (U "/tmp/rpd/Course.PDF") pdf_env)
           10%Z 12%Z
         = failed_result (U "/tmp/rpd/Course.PDF") (str_of_Z 10) (str_of_Z 12)
             (seconds_between 10 12)
             (U "RPD processing failed: No text content found in document")
             (PyDict parsed_data).
Proof.
  apply (pdf_is_processed_when_a_page_has_text Z str_of_Z seconds_between None
           all_libraries (U "/tmp/rpd/Course.PDF") pdf_env two_pages 10%Z 12%Z).
  - vm_compute. reflexivity.
  - reflexivity.
  - reflexivity.
  - reflexivity.
Defined.

End FileProperties.


(** ** The handler of [extract_rpd_data] *)

Module HandlerProperties.
Import Json Entities Extractor BodyFacts.
Import RPDData.

(** The steps before the validation leave the errors and the confidence
    as they are, whatever the group methods do. *)
Lemma groups_keep {X : Type} (f : RPDData.t -> X) self raw_text :
  (forall r v, f (set_subject_title r v) = f r) ->
  (forall r v, f (set_academic_degree r v) = f r) ->
  (forall r v, f (set_profession r v) = f r) ->
  (forall r v, f (set_total_hours r v) = f r) ->
  (forall r v, f (set_department r v) = f r) ->
  (forall r v, f (set_faculty r v) = f r) ->
  (forall r v, f (set_year r v) = f r) ->
  (forall r v, f (set_semester r v) = f r) ->
  (forall r v, f (set_lecture_themes r v) = f r) ->
  (forall r v, f (set_lab_examples r v) = f r) ->
  (forall r v, f (set_literature_references r v) = f r) ->
  keeps f (then_ (basic_step self raw_text)
          (then_ (themes_step self raw_text)
          (then_ (labs_step self raw_text) (literature_step self raw_text)))).
Proof.
  intros. repeat apply keeps_then.
  - apply keeps_basic_step. intros. now apply keeps_merge_basic_info.
  - now apply keeps_merge_group.
  - now apply keeps_merge_group.
  - now apply keeps_merge_group.
Qed.

(** X27. Whatever the four group methods and the validator of the
    extractor are (the class as written, a subclass or a mock), for a
    document with text [extract_rpd_data] returns a record and raises
    nothing.  Either no step raised, and the record is what the validator made
    of a record without errors and without confidence; or one step raised,
    and the record holds the message of that exception as its only
    [extraction_errors] entry and no confidence. *)
Theorem every_exception_becomes_one_error
  (self : methods) (parsed_document : dict) (raw_text : pystr) :
  raw_text_of parsed_document = PyStr raw_text ->
  strip raw_text <> [] ->
  exists rpd_data,
    extract_rpd_data_with self parsed_document = Ok rpd_data /\
    ((exists r0,
        rpd_data = validate_rpd_data self r0 /\
        extraction_errors r0 = [] /\ extraction_confidence r0 = None)
     \/
     (exists r0 e,
        extract_body self raw_text initial = (r0, Some e) /\
        extraction_errors rpd_data = [exn_msg e] /\
        extraction_confidence rpd_data = None)).
Proof.
  intros D T. unfold extract_rpd_data_with. rewrite D.
  destruct (strip raw_text); [congruence|]. cbn [truthy negb].
  set (pre := then_ (basic_step self raw_text)
             (then_ (themes_step self raw_text)
             (then_ (labs_step self raw_text) (literature_step self raw_text)))).
  assert (B : extract_body self raw_text initial
              = match pre initial with
                | (r, None) => (validate_rpd_data self r, None)
                | (r, Some e) => (r, Some e)
                end).
  { unfold extract_body, pre, then_, validation_step.
    destruct (basic_step self raw_text initial) as [r1 [e|]]; [reflexivity|].
    destruct (themes_step self raw_text r1) as [r2 [e|]]; [reflexivity|].
    destruct (labs_step self raw_text r2) as [r3 [e|]]; [reflexivity|].
    destruct (literature_step self raw_text r3) as [r4 [e|]]; reflexivity. }
  assert (Ke : extraction_errors (fst (pre initial)) = [])
    by (apply (groups_keep extraction_errors self raw_text); reflexivity).
  assert (Kc : extraction_confidence (fst (pre initial)) = None)
    by (apply (groups_keep extraction_confidence self raw_text); reflexivity).
  rewrite B. destruct (pre initial) as [r [e|]] eqn:P; cbn [fst] in Ke, Kc.
  - eexists. split; [reflexivity|]. right. exists r, e.
    split; [reflexivity|]. cbn [extraction_errors extraction_confidence append_error].
    rewrite Ke, Kc. now split.
  - eexists. split; [reflexivity|]. left. now exists r.
Qed.

Lemma every_exception_becomes_one_error_witness :
  exists rpd_data,
    extract_rpd_data_with
      (decoded_groups [good_theme; theme_without_order] [good_lab] [good_reference])
      some_document = Ok rpd_data /\
    ((exists r0,
        rpd_data = Validator._validate_rpd_data r0 /\
        extraction_errors r0 = [] /\ extraction_confidence r0 = None)
     \/
     (exists r0 e,
        extract_body
          (decoded_groups [good_theme; theme_without_order] [good_lab]
             [good_reference])
          (U "some text") initial = (r0, Some e) /\
        extraction_errors rpd_data = [exn_msg e] /\
        extraction_confidence rpd_data = None)).
Proof.
  apply (every_exception_becomes_one_error
           (decoded_groups [good_theme; theme_without_order] [good_lab]
              [good_reference])
           some_document (U "some text")).
  - vm_compute. reflexivity.
  - vm_compute. discriminate.
Defined.

End HandlerProperties.

(** ** The response parser on encoded dicts *)

Module ParserRoundTrip.
Import Json ResponseParser StrFacts JsonFacts ParserClaims.



End ParserRoundTrip.

